(** * IS455 analytics dashboards: the metric derivations and the controllers

    A shallow embedding of the derivation code of [utils.py],
    [finance_dashboard.py], [admin_dashboard.py], [marketing_dashboard.py]
    and [user_dashboard.py] and of the session code of [app.py], and the
    properties of it.  The embedding comes first, then the vocabulary of
    the properties, then the properties: those the specification states,
    each under the identifier of its claim, and after them those of the
    code around them, each under the place of its code.

    Numbers.  A pandas numeric column is a [float64] column.  It is
    embedded over exact rationals extended with the three special values
    of IEEE arithmetic ([fnum]): rounding error of binary floating point
    is not part of the model, division by zero and the propagation of
    [NaN] are.  A database [NULL] in a numeric column is [NaN], as in
    pandas.

    Schema.  Every row of a result set has the columns of its procedure;
    a cell of a numeric column that holds no number reads as [NaN].

    pandas.  [sort_values] with its default kind and [to_datetime] are
    parameters of the embedding ([Pandas]), under what pandas documents
    of them; the reductions, [shift], [replace], [round], [idxmax] and
    [idxmin] are defined.

    Effects.  A render is a computation on the page: it writes events and
    may stop on an exception.  The cache of [call_stored_procedure]
    ([st.cache_data]) is a state the calls pass on, read at the time of
    each call.  The body of a section, which derives its frames and draws
    them with plotly and streamlit, is a parameter of the controllers
    ([draw]): it returns or raises.  The derivations of the bodies are
    embedded on their own.  The cache of [init_connection]
    ([st.cache_resource]) is not modelled. *)

From Stdlib Require Import QArith Qcanon Qround ZArith Lia Lqa.
From Stdlib Require Import Ascii String Sorting.Sorted Sorting.Permutation.
From Stdlib Require DecimalPos DecimalN.
From stdpp Require Import gmap strings list sorting.

(** ** Extended rationals: the values of a numeric column *)

Inductive fnum : Type :=
  | Fin (q : Qc)
  | PosInf
  | NegInf
  | NaN.

#[global] Instance fnum_eq_dec : EqDecision fnum.
Proof. solve_decision. Defined.

Module num.

Local Open Scope Qc_scope.

Definition of_Z (z : Z) : fnum := Fin (Qc_of_Z z).

Definition isna (a : fnum) : bool :=
  match a with NaN => true | _ => false end.

Definition neg (a : fnum) : fnum :=
  match a with
  | Fin x => Fin (- x)
  | PosInf => NegInf
  | NegInf => PosInf
  | NaN => NaN
  end.

Definition add (a b : fnum) : fnum :=
  match a, b with
  | NaN, _ | _, NaN => NaN
  | Fin x, Fin y => Fin (x + y)
  | PosInf, NegInf | NegInf, PosInf => NaN
  | PosInf, _ | _, PosInf => PosInf
  | NegInf, _ | _, NegInf => NegInf
  end.

Definition sub (a b : fnum) : fnum := add a (neg b).

(** The sign of a non-NaN value: [-1], [0] or [1]. *)
Definition sgn (a : fnum) : Z :=
  match a with
  | Fin x => if decide (x = 0) then 0%Z else if decide (0 < x) then 1%Z else (-1)%Z
  | PosInf => 1%Z
  | NegInf => (-1)%Z
  | NaN => 0%Z
  end.

Definition inf_of_sign (s : Z) : fnum :=
  if decide (s = 0%Z) then NaN else if decide (0 < s)%Z then PosInf else NegInf.

Definition mul (a b : fnum) : fnum :=
  match a, b with
  | NaN, _ | _, NaN => NaN
  | Fin x, Fin y => Fin (x * y)
  | _, _ => inf_of_sign (sgn a * sgn b)
  end.

(** True division of numpy: [x / 0] is [±inf] for [x ≠ 0] and [NaN] for
    [0 / 0]; nothing is raised. *)
Definition div (a b : fnum) : fnum :=
  match a, b with
  | NaN, _ | _, NaN => NaN
  | Fin x, Fin y => if decide (y = 0) then inf_of_sign (sgn a) else Fin (x / y)
  | Fin _, _ => Fin 0
  | _, Fin _ => inf_of_sign (sgn a * (if decide (sgn b = 0%Z) then 1 else sgn b))
  | _, _ => NaN
  end.

(** [a <= b] and [a < b] of Python floats: false as soon as one side is
    [NaN]. *)
Definition leb (a b : fnum) : bool :=
  match a, b with
  | NaN, _ | _, NaN => false
  | NegInf, _ | _, PosInf => true
  | Fin x, Fin y => bool_decide (x <= y)
  | _, _ => false
  end.

Definition ltb (a b : fnum) : bool :=
  match a, b with
  | NaN, _ | _, NaN => false
  | Fin x, Fin y => bool_decide (x < y)
  | NegInf, NegInf | PosInf, PosInf => false
  | NegInf, _ | _, PosInf => true
  | _, _ => false
  end.

(** [a == b] of Python floats: [NaN == NaN] is false. *)
Definition eqb (a b : fnum) : bool :=
  match a, b with
  | NaN, _ | _, NaN => false
  | _, _ => bool_decide (a = b)
  end.

(** Round half to even, to an integer ([numpy.rint]). *)
Definition rint (q : Qc) : Z :=
  let f := Qfloor q in
  let r := q - Qc_of_Z f in
  if decide (r < Q2Qc (1 # 2)) then f
  else if decide (Q2Qc (1 # 2) < r) then (f + 1)%Z
  else if Z.even f then f else (f + 1)%Z.

(** [numpy.round(x, 2)]: [rint (x * 100) / 100]. *)
Definition round2 (a : fnum) : fnum :=
  match a with
  | Fin x => Fin (Qc_of_Z (rint (x * Qc_of_Z 100)) / Qc_of_Z 100)
  | _ => a
  end.

End num.

Declare Scope fnum_scope.
Delimit Scope fnum_scope with F.
Bind Scope fnum_scope with fnum.
Infix "+" := num.add : fnum_scope.
Infix "-" := num.sub : fnum_scope.
Infix "*" := num.mul : fnum_scope.
Infix "/" := num.div : fnum_scope.

(** ** The pandas fragment the dashboards use *)

Inductive scalar : Type :=
  | SNum (x : fnum)
  | SStr (s : string)
  | SNull.

#[global] Instance scalar_eq_dec : EqDecision scalar.
Proof. solve_decision. Defined.

(** A row of a result set is a [dict] from column name to scalar; a frame
    is the list of its rows, in index order. *)
Abbreviation row := (gmap string scalar).
Abbreviation frame := (list (gmap string scalar)).

Module pd.

(** The numeric reading of cell [F] of a row. *)
Definition cell (F : string) (r : row) : fnum :=
  match r !! F with
  | Some (SNum x) => x
  | _ => NaN
  end.

(** [df[F]] as a numeric series. *)
Definition col (F : string) (df : frame) : list fnum := map (cell F) df.

(** [df[F] = s], row by row. *)
Definition assign (F : string) (s : list fnum) (df : frame) : frame :=
  zip_with (fun r x => <[F := SNum x]> r) df s.

(** [s.shift(1)]: one position down, [NaN] first, same length. *)
Definition shift (s : list fnum) : list fnum :=
  match s with
  | [] => []
  | _ :: _ => NaN :: removelast s
  end.

(** [s.replace(0, np.nan)]. *)
Definition replace0 (s : list fnum) : list fnum :=
  map (fun x => if num.eqb x (num.of_Z 0) then NaN else x) s.

(** Reductions skip [NaN] ([skipna=True]). *)
Definition valid (s : list fnum) : list fnum :=
  List.filter (fun x => negb (num.isna x)) s.

Definition sum (s : list fnum) : fnum :=
  fold_right num.add (num.of_Z 0) (valid s).

Definition best (better : fnum -> fnum -> bool) (s : list fnum) : fnum :=
  fold_right (fun x acc => if num.isna acc then x
                           else if better x acc then x else acc) NaN (valid s).

(** [s.max()] and [s.min()]: [NaN] when there is no valid value. *)
Definition max (s : list fnum) : fnum := best (fun x acc => num.leb acc x) s.
Definition min (s : list fnum) : fnum := best (fun x acc => num.leb x acc) s.

(** [s.idxmax()] and [s.idxmin()] on a default index: the position of
    the first occurrence of the extremum among the valid values; [None]
    when there is no valid value, where pandas raises [ValueError] (or,
    before it did, gave [NaN]). *)
Fixpoint argbest (better : fnum -> fnum -> bool) (s : list fnum) : option (nat * fnum) :=
  match s with
  | [] => None
  | x :: t =>
      match argbest better t with
      | None => if num.isna x then None else Some (0, x)
      | Some (j, b) =>
          if num.isna x then Some (S j, b)
          else if better x b then Some (0, x) else Some (S j, b)
      end
  end.

Definition idxmax (s : list fnum) : option nat :=
  fst <$> argbest (fun x b => num.leb b x) s.
Definition idxmin (s : list fnum) : option nat :=
  fst <$> argbest (fun x b => num.leb x b) s.

(** [df.head(n)]. *)
Definition head (n : nat) (df : frame) : frame := take n df.

(** The order [sort_values] puts the keys in: ascending or descending,
    [NaN] last either way ([na_position='last']). *)
Definition key_leb (ascending : bool) (a b : fnum) : bool :=
  match a, b with
  | _, NaN => true
  | NaN, _ => false
  | _, _ => if ascending then num.leb a b else num.leb b a
  end.

Definition row_le (by_ : string) (ascending : bool) (r1 r2 : row) : Prop :=
  key_leb ascending (cell by_ r1) (cell by_ r2) = true.

End pd.

(** What the dashboards take from pandas without fixing it themselves:
    - [pd.to_datetime] on one string, as an integer time stamp; [None]
      stands for the parse error it raises;
    - [DataFrame.sort_values(by, ascending)] with the default
      [kind='quicksort'], which pandas documents as a sort (the result
      holds the same rows, ordered by the key) and not as a stable one. *)
Class Pandas : Type := {
  to_datetime : string -> option Z;
  sort_values : string -> bool -> frame -> frame;
  sort_values_perm : forall by_ asc df, sort_values by_ asc df ≡ₚ df;
  sort_values_sorted : forall by_ asc df,
    Sorted (pd.row_le by_ asc) (sort_values by_ asc df)
}.

(** ** Exceptions, the page and the connection

    A render writes to the page as it goes and may stop on an exception:
    a computation takes the page written so far and gives its outcome with
    the page it leaves.  What was written before an exception stays. *)

(** An exception of the driver or of a library is given by one text,
    which stands for its class and for what [str(e)] prints of it.  Of a
    [KeyError], [str(e)] prints the missing key in quotes. *)
Inductive exn : Type :=
  | Exn (name : string)
  | KeyError (key : string).

Definition exn_name (e : exn) : string :=
  match e with
  | Exn name => name
  | KeyError key => "'" +:+ key +:+ "'"
  end.

Inductive outcome (A : Type) : Type :=
  | Ok (a : A)
  | Raise (e : exn).
Arguments Ok {A} a.
Arguments Raise {A} e.

Inductive event : Type :=
  | Title (s : string)        (* the page header, [st.markdown] with [main-header] *)
  | Subheader (s : string)    (* [st.subheader], or [st.markdown] with [sub-header] *)
  | Chart (s : string)        (* the charts, tables and metrics a section draws from its rows *)
  | Info (s : string)         (* [st.info] *)
  | Error (s : string).       (* [st.error] *)

#[global] Instance event_eq_dec : EqDecision event.
Proof. solve_decision. Defined.

Definition page (A : Type) : Type := list event -> outcome A * list event.

#[global] Instance page_ret : MRet page := fun A a t => (Ok a, t).
#[global] Instance page_bind : MBind page := fun A B f m t =>
  match m t with
  | (Ok a, t') => f a t'
  | (Raise e, t') => (Raise e, t')
  end.

Definition emit (ev : event) : page unit := fun t => (Ok tt, t ++ [ev]).

Definition lift {A} (o : outcome A) : page A := fun t => (o, t).

(** [try: body except Exception as e: handler e]. *)
Definition try_except {A} (body : page A) (handler : exn -> page A) : page A :=
  fun t =>
    match body t with
    | (Ok a, t') => (Ok a, t')
    | (Raise e, t') => handler e t'
    end.

(** [try: body finally: cleanup]: the cleanup runs either way, also when
    the body returns; an exception of the cleanup replaces the outcome of
    the body. *)
Definition try_finally {A} (body : page A) (cleanup : page unit) : page A :=
  fun t =>
    match body t with
    | (r, t') =>
        match cleanup t' with
        | (Ok _, t'') => (r, t'')
        | (Raise e, t'') => (Raise e, t'')
        end
    end.

(** [run m]: a render from the empty page. *)
Definition run {A} (m : page A) : outcome A * list event := m [].

(** A MySQL connection, by what its calls answer.  Every call of the
    driver may raise. *)
Record connection : Type := {
  (** [conn.cursor(dictionary=True)] *)
  cursor : outcome unit;
  (** [cursor.callproc(name, args)], then the result sets of
      [cursor.stored_results()], each by what its [fetchall()] answers *)
  callproc : string -> list scalar -> outcome (list (outcome frame));
  (** [cursor.execute(query)], then [cursor.fetchall()] *)
  execute : string -> outcome frame;
  (** [cursor.close()] *)
  close : outcome unit
}.

(** ** utils.py *)

(** The loop [for result in cursor.stored_results():
    result_sets.append(result.fetchall())]. *)
Fixpoint fetch_all (results : list (outcome frame)) : outcome (list frame) :=
  match results with
  | [] => Ok []
  | Ok rows :: rest =>
      match fetch_all rest with
      | Ok sets => Ok (rows :: sets)
      | Raise e => Raise e
      end
  | Raise e :: _ => Raise e
  end.

(** The body of [call_stored_procedure(_conn, proc_name, params)], under
    the cache decorator. *)
Definition call_stored_procedure_body (_conn : option connection) (proc_name : string)
    (params : list scalar) : page frame :=
  match _conn with
  | None => mret []
  | Some conn =>
      _ ← lift (cursor conn);
      try_finally
        (try_except
           (results ← lift (match params with
                            | [] => callproc conn proc_name []
                            | _ :: _ => callproc conn proc_name params
                            end);
            result_sets ← lift (fetch_all results);
            mret (match result_sets with
                  | first :: _ => first
                  | [] => []
                  end))
           (fun e => _ ← emit (Error ("Stored procedure error: " +:+ exn_name e)); mret []))
        (lift (close conn))
  end.

(** *** The cache of the gateway

    [@st.cache_data(ttl=600)] keeps what the body returned, under the name
    of the procedure and the parameters: [_conn] is no part of the key,
    for its name begins with an underscore.  An entry holds the value,
    the [st.error] messages the body wrote, which a hit replays, and the
    time it was stored; it is alive for [ttl] seconds.  Nothing is kept
    of a call whose body raises. *)
Definition key : Type := string * list scalar.

Record entry : Type := {
  value : frame;
  messages : list string;
  stored : Z
}.

Definition cache : Type := key -> option entry.

Definition ttl : Z := 600.

Definition cache_get (now : Z) (c : cache) (k : key) : option entry :=
  match c k with
  | Some e => if decide (now < stored e + ttl)%Z then Some e else None
  | None => None
  end.

Definition cache_set (k : key) (e : entry) (c : cache) : cache :=
  fun k' => if decide (k' = k) then Some e else c k'.

(** The [st.error] messages among the events of a page. *)
Definition errors (t : list event) : list string :=
  omap (fun ev => match ev with Error s => Some s | _ => None end) t.

(** [call_stored_procedure(_conn, proc_name, params)] as the controllers
    call it: its value and the cache it leaves.  [clock] is the time, in
    seconds, at which a call with a key is made. *)
Definition call_stored_procedure (clock : key -> Z) (c : cache)
    (_conn : option connection) (proc_name : string) (params : list scalar)
    : page (frame * cache) :=
  let k := (proc_name, params) in
  match cache_get (clock k) c k with
  | Some e => fun t => (Ok (value e, c), t ++ (Error <$> messages e))
  | None =>
      fun t =>
        match call_stored_procedure_body _conn proc_name params [] with
        | (Ok rows, written) =>
            (Ok (rows, cache_set k {| value := rows; messages := errors written;
                                      stored := clock k |} c),
             t ++ written)
        | (Raise e, written) => (Raise e, t ++ written)
        end
  end.

(** The characters of a decimal numeral, most significant digit first. *)
Fixpoint uint_chars (u : Decimal.uint) : list ascii :=
  match u with
  | Decimal.Nil => []
  | Decimal.D0 u => "0"%char :: uint_chars u
  | Decimal.D1 u => "1"%char :: uint_chars u
  | Decimal.D2 u => "2"%char :: uint_chars u
  | Decimal.D3 u => "3"%char :: uint_chars u
  | Decimal.D4 u => "4"%char :: uint_chars u
  | Decimal.D5 u => "5"%char :: uint_chars u
  | Decimal.D6 u => "6"%char :: uint_chars u
  | Decimal.D7 u => "7"%char :: uint_chars u
  | Decimal.D8 u => "8"%char :: uint_chars u
  | Decimal.D9 u => "9"%char :: uint_chars u
  end.

Definition digits (n : N) : list ascii := uint_chars (N.to_uint n).

Definition digit_chars : list ascii :=
  ["0"; "1"; "2"; "3"; "4"; "5"; "6"; "7"; "8"; "9"]%char.

Definition digit (d : N) : ascii := nth (N.to_nat d) digit_chars "0"%char.

(** The thousands separator of the [,] format option, on the digits taken
    least significant first. *)
Fixpoint group3 (ds : list ascii) : list ascii :=
  match ds with
  | a :: b :: c :: rest =>
      match rest with
      | [] => ds
      | _ :: _ => a :: b :: c :: ","%char :: group3 rest
      end
  | _ => ds
  end.

Definition grouped (ds : list ascii) : list ascii := rev (group3 (rev ds)).

(** The format specifications [,.2f] ([comma = true]) and [.2f] on a
    finite number: the sign of the number, the integer digits, a point and
    two decimals, of the number rounded half to even at the second
    decimal. *)
Definition fixed2 (comma : bool) (q : Qc) : list ascii :=
  let negative := bool_decide (q < 0)%Qc in
  let cents := Z.to_N (num.rint ((if negative then - q else q) * Qc_of_Z 100)%Qc) in
  let whole := digits (cents / 100) in
  (if negative then ["-"%char] else [])
    ++ (if comma then grouped whole else whole)
    ++ ["."%char; digit (cents / 10 mod 10); digit (cents mod 10)].

(** [format(value, spec)] for a float: an infinity prints as [inf]. *)
Definition format_float (comma : bool) (x : fnum) : list ascii :=
  match x with
  | Fin q => fixed2 comma q
  | PosInf => list_ascii_of_string "inf"
  | NegInf => list_ascii_of_string "-inf"
  | NaN => list_ascii_of_string "nan"
  end.

(** [pd.isna(value)] on a scalar. *)
Definition isna (value : scalar) : bool :=
  match value with
  | SNull | SNum NaN => true
  | _ => false
  end.

(** [format_currency(value)] and [format_percentage(value)]; the format
    specification [f] raises [ValueError] on a string. *)
Definition format_currency (value : scalar) : outcome string :=
  if isna value then Ok "$0.00"
  else match value with
       | SNum x => Ok (string_of_list_ascii ("$"%char :: format_float true x))
       | _ => Raise (Exn "ValueError")
       end.

Definition format_percentage (value : scalar) : outcome string :=
  if isna value then Ok "0.00%"
  else match value with
       | SNum x => Ok (string_of_list_ascii (format_float false x ++ ["%"%char]))
       | _ => Raise (Exn "ValueError")
       end.

(** [normalize_series(series)]. *)
Definition normalize_series (series : list fnum) : list fnum :=
  if num.eqb (pd.max series) (pd.min series)
  then replicate (length series) (num.of_Z 50)
  else map (fun x => (x - pd.min series) / (pd.max series - pd.min series) * num.of_Z 100)%F
           series.

(** ** The derivations of the dashboards *)

(** Series arithmetic, element by element. *)
Definition series_sub (s t : list fnum) : list fnum := zip_with num.sub s t.
Definition series_div (s t : list fnum) : list fnum := zip_with num.div s t.
Definition series_scale (s : list fnum) (k : fnum) : list fnum := map (fun x => x * k)%F s.
Definition series_over (s : list fnum) (k : fnum) : list fnum := map (fun x => x / k)%F s.

(** How the driver gave a column of numbers: as Python numbers, which
    pandas holds in a [float64] or [int64] column and [iloc] gives as
    numpy numbers, or as [decimal.Decimal] objects, as MySQL's [DECIMAL],
    [SUM] and [AVG] come, which pandas holds as they are. *)
Inductive dtype : Type :=
  | numbers
  | decimals.

(** [a / b] on two cells of such a column.  The division of numpy gives
    an infinity or [NaN] on a zero divisor; the division of [Decimal]
    raises on one, and a missing cell of a column of objects is [None],
    which cannot be divided.  The 28 digits of the decimal context are
    not modelled. *)
Definition cell_div (dt : dtype) (a b : fnum) : outcome fnum :=
  match dt with
  | numbers => Ok (a / b)%F
  | decimals =>
      match a, b with
      | Fin x, Fin y =>
          if decide (y = 0%Qc)
          then Raise (Exn (if decide (x = 0%Qc) then "InvalidOperation"
                           else "DivisionByZero"))
          else Ok (Fin (x / y)%Qc)
      | _, _ => Raise (Exn "TypeError")
      end
  end.

(** [s.iloc[-k]] on a series long enough. *)
Definition iloc_back (k : nat) (s : list fnum) : fnum := nth (length s - k) s NaN.

Section derivations.

Context `{Pandas}.

(** [pd.to_datetime(df['Month'] + '-01')] on one cell: a missing month
    gives [NaT], a number cannot be added to a string, a string that is
    no date raises. *)
Definition month_start (month : option scalar) : option fnum :=
  match month with
  | Some (SStr s) => num.of_Z <$> to_datetime (s +:+ "-01")
  | Some (SNum _) => None
  | Some SNull | None => Some NaN
  end.

(** *** finance_dashboard.py, Monthly Revenue Trend *)

(** The growth column, from the revenue column of the sorted frame:
    [(TotalRevenue - PrevRevenue) / PrevRevenue.replace(0, np.nan) * 100]
    with [PrevRevenue = TotalRevenue.shift(1)]. *)
Definition monthly_growth (total_revenue : list fnum) : list fnum :=
  let prev_revenue := pd.shift total_revenue in
  series_scale
    (series_div (series_sub total_revenue prev_revenue) (pd.replace0 prev_revenue))
    (num.of_Z 100).

(** [df_revenue] as the section leaves it; [None] when [to_datetime]
    raises. *)
Definition df_revenue (revenue_data : frame) : option frame :=
  month_date ← mapM (fun r : row => month_start (r !! "Month")) revenue_data;
  let df := pd.assign "MonthDate" month_date revenue_data in
  let df := sort_values "MonthDate" true df in
  let df := pd.assign "PrevRevenue" (pd.shift (pd.col "TotalRevenue" df)) df in
  Some (pd.assign "MonthlyGrowth"
          (series_scale
             (series_div
                (series_sub (pd.col "TotalRevenue" df) (pd.col "PrevRevenue" df))
                (pd.replace0 (pd.col "PrevRevenue" df)))
             (num.of_Z 100))
          df).

(** *** admin_dashboard.py, Business Overview *)

(** [hist_df] after [hist_df['Month'] = pd.to_datetime(...)] and
    [hist_df.sort_values('Month')]. *)
Definition hist_df (historical_data : frame) : option frame :=
  month ← mapM (fun r : row => month_start (r !! "Month")) historical_data;
  Some (sort_values "Month" true (pd.assign "Month" month historical_data)).

(** [((hist_df[F].iloc[-1] / hist_df[F].iloc[-2]) - 1) * 100] on the two
    cells as [iloc] gives them, or [0] when there are fewer than two
    months. *)
Definition month_over_month (dt : dtype) (F : string) (hist : frame) : outcome fnum :=
  if decide (1 < length hist)
  then
    match cell_div dt (iloc_back 1 (pd.col F hist)) (iloc_back 2 (pd.col F hist)) with
    | Ok ratio => Ok ((ratio - num.of_Z 1) * num.of_Z 100)%F
    | Raise e => Raise e
    end
  else Ok (num.of_Z 0).

(** [revenue_change], [orders_change], [customers_change] and
    [aov_change], computed in this order: all [0] when there is no
    historical data; [None] when [to_datetime] or one of the divisions
    raises.  [dtype_of] says how the driver gave each column. *)
Definition month_over_month_changes (dtype_of : string -> dtype) (historical_data : frame)
    : option (fnum * fnum * fnum * fnum) :=
  match historical_data with
  | [] => Some (num.of_Z 0, num.of_Z 0, num.of_Z 0, num.of_Z 0)
  | _ :: _ =>
      hist ← hist_df historical_data;
      match month_over_month (dtype_of "Revenue") "Revenue" hist,
            month_over_month (dtype_of "OrderCount") "OrderCount" hist,
            month_over_month (dtype_of "UniqueCustomers") "UniqueCustomers" hist,
            month_over_month (dtype_of "AvgOrderValue") "AvgOrderValue" hist with
      | Ok revenue_change, Ok orders_change, Ok customers_change, Ok aov_change =>
          Some (revenue_change, orders_change, customers_change, aov_change)
      | _, _, _, _ => None
      end
  end.

(** *** Top 10 *)

(** [df.sort_values(by=F, ascending=False).head(n)]. *)
Definition top_n (F : string) (n : nat) (df : frame) : frame :=
  pd.head n (sort_values F false df).

(** finance_dashboard.py: [df_top10], from the failed payments by day. *)
Definition df_top10 (df_daily : frame) : frame :=
  top_n "FailedPayments" 10 df_daily.

End derivations.

(** user_dashboard.py: the three readings of [UserCount]. *)
Inductive user_type : Type :=
  | All_Users
  | VIP_Users_Only
  | Non_VIP_Users_Only.

(** [df[["Province", "UserCount", "TotalRevenue", "AvgOrderValue"]]] on one
    row. *)
Definition province_columns (r : row) : row :=
  filter (fun kv : string * scalar =>
            kv.1 ∈ ["Province"; "UserCount"; "TotalRevenue"; "AvgOrderValue"]) r.

Definition by_user_type (ut : user_type) (df_province : frame) : frame :=
  match ut with
  | VIP_Users_Only =>
      map province_columns
          (pd.assign "UserCount" (pd.col "VIPUserCount" df_province) df_province)
  | Non_VIP_Users_Only =>
      map province_columns
          (pd.assign "UserCount"
             (series_sub (pd.col "UserCount" df_province) (pd.col "VIPUserCount" df_province))
             df_province)
  | All_Users => map province_columns df_province
  end.

(** user_dashboard.py: [df_filtered], the ten provinces with most users. *)
Definition df_filtered `{Pandas} (ut : user_type) (df_province : frame) : frame :=
  top_n "UserCount" 10 (by_user_type ut df_province).

(** *** finance_dashboard.py, User Spending Tiers *)

(** [df_tiers] with its [Percentage] column:
    [(df_tiers['UserCount'] / total_users * 100).round(2)]. *)
Definition percentage (user_count : list fnum) : list fnum :=
  let total_users := pd.sum user_count in
  map num.round2 (series_scale (series_over user_count total_users) (num.of_Z 100)).

Definition df_tiers (tier_data : frame) : frame :=
  pd.assign "Percentage" (percentage (pd.col "UserCount" tier_data)) tier_data.

(** *** Percentage of the maximum *)

(** marketing_dashboard.py, Quarterly Trend Comparison: the column
    [metric_Normalized]. *)
Definition normalized (metric : string) (df_normalized : frame) : list fnum :=
  let max_val := pd.max (pd.col metric df_normalized) in
  if num.ltb (num.of_Z 0) max_val
  then series_scale (series_over (pd.col metric df_normalized) max_val) (num.of_Z 100)
  else replicate (length df_normalized) (num.of_Z 0).

(** admin_dashboard.py, Regional Comparison: one entry of
    [normalized_values], for the row of a province and a category. *)
Definition normalized_value (cat : string) (province_data : row) (df_region : frame) : fnum :=
  let max_val := pd.max (pd.col cat df_region) in
  if num.ltb (num.of_Z 0) max_val
  then (pd.cell cat province_data / max_val * num.of_Z 100)%F
  else num.of_Z 0.

(** *** admin_dashboard.py, Category Performance Comparison *)

(** [max_indices] and [min_indices], the positions the table highlights in
    each column: the four dictionary entries of each, then the two
    assignments for the discount, "reverse the color logic (lower discount
    is better for profitability)"; [None] when an [idxmax] or [idxmin] has
    no valid value to return. *)
Definition max_min_indices (category_metrics : frame)
    : option (gmap string nat * gmap string nat) :=
  max_order_count ← pd.idxmax (pd.col "OrderCount" category_metrics);
  max_quantity ← pd.idxmax (pd.col "TotalQuantitySold" category_metrics);
  max_revenue ← pd.idxmax (pd.col "TotalRevenue" category_metrics);
  max_price ← pd.idxmax (pd.col "AvgSellingPrice" category_metrics);
  let max_indices : gmap string nat :=
    {[ "OrderCount" := max_order_count; "TotalQuantitySold" := max_quantity;
       "TotalRevenue" := max_revenue; "AvgSellingPrice" := max_price ]} in
  min_order_count ← pd.idxmin (pd.col "OrderCount" category_metrics);
  min_quantity ← pd.idxmin (pd.col "TotalQuantitySold" category_metrics);
  min_revenue ← pd.idxmin (pd.col "TotalRevenue" category_metrics);
  min_price ← pd.idxmin (pd.col "AvgSellingPrice" category_metrics);
  let min_indices : gmap string nat :=
    {[ "OrderCount" := min_order_count; "TotalQuantitySold" := min_quantity;
       "TotalRevenue" := min_revenue; "AvgSellingPrice" := min_price ]} in
  discount_min ← pd.idxmin (pd.col "AvgDiscountPercentage" category_metrics);
  let max_indices := <["AvgDiscountPercentage" := discount_min]> max_indices in
  discount_max ← pd.idxmax (pd.col "AvgDiscountPercentage" category_metrics);
  let min_indices := <["AvgDiscountPercentage" := discount_max]> min_indices in
  Some (max_indices, min_indices).

(** ** The controllers

    A controller is the sequence of its sections: the header of each, its
    fetch through the gateway, its guard on the rows and its body.  The
    order of the sections, their guards, the [try] of the code and what
    stops a render are kept.  The body of a section is [draw]: what the
    section derives and draws from its frames, under the choices of the
    user in its widgets; it returns, and the section has drawn its
    charts, or it raises.  No body runs under a [try] but that of the
    failed payments. *)

(** The choices of the user in the widgets the controllers read before a
    fetch. *)
Record widgets : Type := {
  multiselect : list string -> list string;     (* the options to the chosen ones *)
  selectbox : string -> list string -> string;  (* the key and the options to the chosen one *)
  date_input : string -> Z * Z -> list Z        (* the key and the default to the chosen dates *)
}.

Definition text (F : string) (r : row) : string :=
  match r !! F with
  | Some (SStr s) => s
  | _ => EmptyString
  end.

(** [pat in s]; [Series.str.contains] on a pattern of plain characters. *)
Fixpoint contains (pat s : string) : bool :=
  String.prefix pat s
  || match s with
     | EmptyString => false
     | String _ rest => contains pat rest
     end.

Definition categories_query : string :=
  "SELECT DISTINCT Category FROM Product ORDER BY Category".

(** The category query of the admin and marketing dashboards, on the
    connection itself: [conn.cursor(dictionary=True)],
    [cursor.execute(categories_query)], [cursor.fetchall()],
    [cursor.close()], under no [try]. *)
Definition fetch_categories (conn : option connection) : page frame :=
  match conn with
  | None => lift (Raise (Exn "AttributeError"))
  | Some c =>
      _ ← lift (cursor c);
      categories ← lift (execute c categories_query);
      _ ← lift (close c);
      mret categories
  end.

Definition date (d : Z) : scalar := SNum (num.of_Z d).

(** [if rows: body else: otherwise]. *)
Definition if_rows {A} (rows : frame) (body otherwise : page A) : page A :=
  match rows with
  | _ :: _ => body
  | [] => otherwise
  end.

Definition nothing : page unit := mret tt.

Section controllers.

Variable clock : key -> Z.
Variable draw : string -> list frame -> outcome unit.

(** The body of a section on its frames, and the charts on the page when
    it returns. *)
Definition section_body (name : string) (frames : list frame) : page unit :=
  _ ← lift (draw name frames);
  emit (Chart name).

Definition finance_dashboard (conn : option connection) (start_date end_date : Z)
    (c : cache) : page cache :=
  _ ← emit (Title "Finance Analytics Dashboard");
  (* 1. Monthly Revenue Trend *)
  _ ← emit (Subheader "Monthly Revenue Trend");
  '(revenue_data, c) ← call_stored_procedure clock c conn "MonthlyRevenueTrendAnalysis" [];
  _ ← if_rows revenue_data
        (section_body "Monthly Revenue Trend" [revenue_data])
        nothing;
  (* 2. Payment Method Analysis *)
  _ ← emit (Subheader "Payment Method Analysis");
  '(payment_data, c) ← call_stored_procedure clock c conn "PaymentMethodAnalysis" [];
  _ ← if_rows payment_data
        (section_body "Payment Method Analysis" [payment_data])
        (emit (Info "No payment method data available."));
  (* 3. Failed Payments Analysis *)
  _ ← emit (Subheader "Failed Payments Analysis");
  '(failed_payments_data, c) ← call_stored_procedure clock c conn "FailedPaymentsAnalysis"
                                 [SNum (num.of_Z 2024)];
  _ ← try_except
        (let df_daily :=
           List.filter (fun item : row =>
                          bool_decide (is_Some (item !! "FailedDate"))
                          && bool_decide (is_Some (item !! "FailedPayments")))
                       failed_payments_data in
         _ ← lift (draw "Failed Payments Analysis" [df_daily]);
         if_rows df_daily (emit (Chart "Failed Payments Analysis")) nothing)
        (fun e => emit (Error ("Error processing data: " +:+ exn_name e)));
  (* 4. User Spending Tiers Analysis *)
  _ ← emit (Subheader "User Spending Tiers");
  '(tier_data, c) ← call_stored_procedure clock c conn "UserTierAnalysis" [];
  _ ← if_rows tier_data
        (section_body "User Spending Tiers" [tier_data])
        (emit (Info "No user tier data available."));
  mret c.

Definition user_dashboard (conn : option connection) (start_date end_date : Z)
    (c : cache) : page cache :=
  _ ← emit (Title "User Analytics Dashboard");
  (* 1. Provincial User Analysis *)
  _ ← emit (Subheader "User Distribution by Province");
  '(province_data, c) ← call_stored_procedure clock c conn "ProvincialUserAnalysis" [];
  _ ← if_rows province_data
        (section_body "User Distribution by Province" [province_data])
        (emit (Info "No provincial data available."));
  (* 3. VIP vs Non-VIP Comparison *)
  _ ← emit (Subheader "VIP vs Non-VIP User Comparison");
  '(vip_data, c) ← call_stored_procedure clock c conn "VIPUserComparison" [];
  _ ← if_rows vip_data
        (section_body "VIP vs Non-VIP User Comparison" [vip_data])
        nothing;
  (* 4. User Retention Analysis *)
  _ ← emit (Subheader "User Retention Analysis");
  '(retention_data, c) ← call_stored_procedure clock c conn "UserRetentionAnalysis"
                           [SNum (num.of_Z 2024)];
  _ ← if_rows retention_data
        (_ ← section_body "User Retention Analysis" [retention_data];
         let total_row :=
           List.filter (fun r : row => contains "-Total" (text "RegMonth" r))
                       retention_data in
         if_rows total_row
           (section_body "Annual Retention Summary" [total_row])
           (emit (Info "No retention data available for 2024.")))
        nothing;
  (* 2. User Activity Analysis *)
  _ ← emit (Subheader "User Activity Analysis");
  '(activity_data, c) ← call_stored_procedure clock c conn "UserActivityAnalysis" [];
  _ ← if_rows activity_data
        (section_body "User Activity Analysis" [activity_data])
        (emit (Info "No user activity data available."));
  mret c.

Definition admin_dashboard (ui : widgets) (conn : option connection)
    (start_date end_date : Z) (c : cache) : page cache :=
  _ ← emit (Title "Overall View Dashboard");
  (* Section 1: Business Overview Dashboard *)
  _ ← emit (Subheader "Business Overview");
  '(overview_data, c) ← call_stored_procedure clock c conn "admin_business_overview"
                          [date start_date; date end_date];
  c ← if_rows overview_data
        ('(historical_data, c) ← call_stored_procedure clock c conn
                                   "admin_business_growth_trajectory"
                                   [date (start_date - 180); date end_date];
         _ ← section_body "Business Overview" [overview_data; historical_data];
         mret c)
        (mret c);
  (* Section 4: Business Growth Trajectory *)
  _ ← emit (Subheader "Business Growth Trajectory");
  '(growth_data, c) ← call_stored_procedure clock c conn "admin_business_growth_trajectory"
                        [date (start_date - 365); date end_date];
  _ ← if_rows growth_data
        (section_body "Business Growth Trajectory" [growth_data])
        nothing;
  (* Section 2: Product Performance Analysis *)
  _ ← emit (Subheader "Product Performance Analysis");
  categories ← fetch_categories conn;
  c ← if_rows categories
        (let category_options := map (text "Category") categories in
         match multiselect ui category_options with
         | [] => _ ← emit (Info "Please select at least one product category."); mret c
         | (_ :: _) as selected_categories =>
             let categories_str :=
               "'" +:+ String.concat "','" selected_categories +:+ "'" in
             '(product_data, c) ← call_stored_procedure clock c conn
                                    "admin_product_performance"
                                    [date start_date; date end_date; SStr categories_str];
             _ ← if_rows product_data
                   (section_body "Product Performance Analysis" [product_data])
                   nothing;
             mret c
         end)
        (mret c);
  (* Section 3: Market Penetration by Region *)
  _ ← emit (Subheader "Regional Market Analysis");
  '(region_data, c) ← call_stored_procedure clock c conn
                        "admin_market_penetration_by_region"
                        [date start_date; date end_date];
  _ ← if_rows region_data
        (section_body "Regional Market Analysis" [region_data])
        nothing;
  mret c.

(** [marketing_dashboard]; the flag of its value is [true] when the
    render ran to its end and [false] when it left at the [return] under
    the category query. *)
Definition marketing_dashboard (ui : widgets) (conn : option connection)
    (start_date end_date : Z) (c : cache) : page (bool * cache) :=
  _ ← emit (Title "Marketing Analytics Dashboard");
  categories ← fetch_categories conn;
  match categories with
  | [] =>
      _ ← emit (Error "No product categories found in the database.");
      mret (false, c)
  | _ :: _ =>
      let category_options := map (text "Category") categories in
      (* Function 1: Discount Profitability Analysis *)
      _ ← emit (Subheader "Discount Profitability Analysis");
      let selected_category_1 := selectbox ui "discount_category" category_options in
      let period_dates := date_input ui "discount_period" (start_date, end_date) in
      let '(period_start, period_end) :=
        match period_dates with
        | [period_start; period_end] => (period_start, period_end)
        | _ => (start_date, end_date)
        end in
      '(discount_data, c) ← call_stored_procedure clock c conn "AnalyzeDiscountProfitability"
                              [SStr selected_category_1; date period_start;
                               date period_end];
      _ ← if_rows discount_data
            (section_body "Discount Profitability Analysis" [discount_data])
            (emit (Info ("No discount data available for " +:+ selected_category_1
                         +:+ " in the selected period.")));
      (* Function 2: Quarterly Sales Pattern Analysis *)
      _ ← emit (Subheader "Quarterly Sales Pattern Analysis");
      let selected_category_2 := selectbox ui "quarterly_category" category_options in
      '(quarterly_data, c) ← call_stored_procedure clock c conn "QuarterlySalesAnalysis"
                               [SStr selected_category_2];
      _ ← if_rows quarterly_data
            (section_body "Quarterly Sales Pattern Analysis" [quarterly_data])
            (emit (Info ("No quarterly sales data available for " +:+ selected_category_2
                         +:+ ".")));
      (* Function 3: Product Price Elasticity Analysis *)
      _ ← emit (Subheader "Product Price Elasticity Analysis");
      let selected_category_3 := selectbox ui "elasticity_category" category_options in
      '(elasticity_data, c) ← call_stored_procedure clock c conn
                                "ProductPriceElasticityAnalysis"
                                [SStr selected_category_3];
      _ ← if_rows elasticity_data
            (section_body "Product Price Elasticity Analysis" [elasticity_data])
            (emit (Info ("No price elasticity data available for " +:+ selected_category_3
                         +:+ ".")));
      mret (true, c)
  end.

End controllers.

(** The sections of each controller, in the order of its code, and the
    sections a page got to. *)
Definition finance_sections : list string :=
  ["Monthly Revenue Trend"; "Payment Method Analysis"; "Failed Payments Analysis";
   "User Spending Tiers"].
Definition user_sections : list string :=
  ["User Distribution by Province"; "VIP vs Non-VIP User Comparison";
   "User Retention Analysis"; "User Activity Analysis"].
Definition admin_sections : list string :=
  ["Business Overview"; "Business Growth Trajectory"; "Product Performance Analysis";
   "Regional Market Analysis"].
Definition marketing_sections : list string :=
  ["Discount Profitability Analysis"; "Quarterly Sales Pattern Analysis";
   "Product Price Elasticity Analysis"].

Definition entered (t : list event) : list string :=
  omap (fun ev => match ev with Subheader s => Some s | _ => None end) t.

(** ** utils.py: the date range, the categories and the colours *)

(** [r[k]] on a row of a dictionary cursor: [KeyError] on a missing key. *)
Definition getitem (r : row) (k : string) : outcome scalar :=
  match r !! k with
  | Some v => Ok v
  | None => Raise (KeyError k)
  end.

(** [[r[k] for r in rows]]: the first missing key raises. *)
Fixpoint getitems (k : string) (rows : frame) : outcome (list scalar) :=
  match rows with
  | [] => Ok []
  | r :: rest =>
      match getitem r k with
      | Ok v =>
          match getitems k rest with
          | Ok vs => Ok (v :: vs)
          | Raise e => Raise e
          end
      | Raise e => Raise e
      end
  end.

Definition date_range_query : string :=
  "SELECT MIN(OrderDate) as min_date, MAX(OrderDate) as max_date FROM `Order`".

(** The truth value of a cell of a date column: a [datetime] is true,
    [None] (a database [NULL]) is not. *)
Definition is_date (v : scalar) : bool :=
  match v with
  | SNull => false
  | _ => true
  end.

(** [datetime.now() - timedelta(days=365), datetime.now()], with the time
    line counted in days and [now] the day of the call. *)
Definition last_365_days (now : Z) : scalar * scalar :=
  (SNum (num.of_Z (now - 365)), SNum (num.of_Z now)).

(** [get_date_range(_conn)].  [cursor.fetchone()] is the first row of what
    the query answers, [None] when it answers no row; an empty [dict] is
    false as a condition. *)
Definition get_date_range (now : Z) (_conn : option connection) : page (scalar * scalar) :=
  match _conn with
  | None => mret (last_365_days now)
  | Some conn =>
      _ ← lift (cursor conn);
      try_finally
        (try_except
           (rows ← lift (execute conn date_range_query);
            match rows with
            | [] => mret (last_365_days now)
            | result :: _ =>
                if bool_decide (result = ∅) then mret (last_365_days now)
                else
                  min_date ← lift (getitem result "min_date");
                  if is_date min_date
                  then
                    max_date ← lift (getitem result "max_date");
                    if is_date max_date then mret (min_date, max_date)
                    else mret (last_365_days now)
                  else mret (last_365_days now)
            end)
           (fun e =>
              _ ← emit (Error ("Error fetching date range: " +:+ exn_name e));
              mret (last_365_days now)))
        (lift (close conn))
  end.

(** [get_categories(_conn)]. *)
Definition get_categories (_conn : option connection) : page (list scalar) :=
  match _conn with
  | None => mret []
  | Some conn =>
      _ ← lift (cursor conn);
      try_finally
        (try_except
           (categories ← lift (execute conn categories_query);
            lift (getitems "Category" categories))
           (fun e =>
              _ ← emit (Error ("Error fetching categories: " +:+ exn_name e));
              mret []))
        (lift (close conn))
  end.

(** [get_discount_colors()] and [get_markup_colors()]. *)
Definition get_discount_colors : gmap string string :=
  {[ "0% (No Discount)" := "#1f77b4"; "0.01% to 10.00%" := "#ff7f0e";
     "10.01% to 20.00%" := "#2ca02c"; "20.01% to 30.00%" := "#d62728";
     "30.01% to 40.00%" := "#9467bd"; "Over 40.00%" := "#8c564b" ]}.

Definition get_markup_colors : gmap string string :=
  {[ "Under 25%" := "#1f77b4"; "25% to 50%" := "#ff7f0e"; "50% to 75%" := "#2ca02c";
     "75% to 100%" := "#d62728"; "Over 100%" := "#9467bd" ]}.

(** ** marketing_dashboard.py: the colour sequence of a chart *)

(** [df[F]] as the scalars it holds; a row without the key reads as a
    missing value. *)
Definition values (F : string) (df : frame) : list scalar :=
  map (fun r : row => default SNull (r !! F)) df.

(** [Series.unique()]: the distinct values, in the order of their first
    appearance. *)
Fixpoint unique {A} `{EqDecision A} (l : list A) : list A :=
  match l with
  | [] => []
  | x :: t => x :: List.filter (fun y => negb (bool_decide (y = x))) (unique t)
  end.

(** [[colors[level] for level in actual_levels if level in colors]]; only
    a string can be a key of [colors]. *)
Definition color_sequence (colors : gmap string string) (actual_levels : list scalar)
    : list string :=
  omap (fun level => match level with
                     | SStr s => colors !! s
                     | _ => None
                     end) actual_levels.

(** The two colour sequences of the dashboard, from its own dictionaries
    [discount_colors] and [markup_colors]. *)
Definition discount_colors : gmap string string :=
  {[ "0% (No Discount)" := "#1f77b4"; "0.01% to 10.00%" := "#ff7f0e";
     "10.01% to 20.00%" := "#2ca02c"; "20.01% to 30.00%" := "#d62728";
     "30.01% to 40.00%" := "#9467bd"; "Over 40.00%" := "#8c564b" ]}.

Definition markup_colors : gmap string string :=
  {[ "Under 25%" := "#1f77b4"; "25% to 50%" := "#ff7f0e"; "50% to 75%" := "#2ca02c";
     "75% to 100%" := "#d62728"; "Over 100%" := "#9467bd" ]}.

Definition discount_color_sequence (df_discount : frame) : list string :=
  color_sequence discount_colors (unique (values "DiscountLevel" df_discount)).

Definition markup_color_sequence (df_elasticity : frame) : list string :=
  color_sequence markup_colors (unique (values "MarkupRange" df_elasticity)).

(** [df.loc[df[F].idxmax()]], for the pricing recommendations and the
    worst day of failed payments: the row [idxmax] names, by its label,
    which is its position on a default index; [idxmax] raises
    [ValueError] when the column holds no number. *)
Definition loc_idxmax (F : string) (df : frame) : outcome row :=
  match pd.idxmax (pd.col F df) with
  | Some i =>
      match df !! i with
      | Some r => Ok r
      | None => Raise (Exn "KeyError")
      end
  | None => Raise (Exn "ValueError")
  end.

(** ** user_dashboard.py: the order of the activity labels *)

Definition activity_order : list string := ["Active"; "Silent"; "Lost"; "No Orders"].

(** [l.index(x)]; [None] stands for the [ValueError] of an absent [x]. *)
Fixpoint index (x : string) (l : list string) : option nat :=
  match l with
  | [] => None
  | y :: rest => if bool_decide (x = y) then Some 0%nat else S <$> index x rest
  end.

(** [activity_order.index(x) if x in activity_order else len(activity_order)]. *)
Definition sort_order (x : string) : nat :=
  match index x activity_order with
  | Some i => i
  | None => length activity_order
  end.

(** [df_activity] with its [SortOrder] column, sorted by it; a label that
    is no string is in no list of strings. *)
Definition df_activity `{Pandas} (activity_data : frame) : frame :=
  sort_values "SortOrder" true
    (pd.assign "SortOrder"
       (map (fun r : row => num.of_Z (Z.of_nat (sort_order (text "ActivityLabel" r))))
            activity_data)
       activity_data).

(** ** admin_dashboard.py: the category table *)

(** [s.mean()]: the sum of the valid values over their number, [NaN] when
    there is none. *)
Definition mean (s : list fnum) : fnum :=
  (pd.sum s / num.of_Z (Z.of_nat (length (pd.valid s))))%F.

(** The key of a row in [df.groupby(F)], for a column of texts: a row
    whose key is missing falls in no group ([dropna=True]). *)
Definition group_key (F : string) (r : row) : option string :=
  match r !! F with
  | Some (SStr s) => Some s
  | _ => None
  end.

(** The order of Python on strings: character by character. *)
Definition string_le (a b : string) : Prop := String.leb a b = true.

#[global] Instance string_le_dec : RelDecision string_le.
Proof. intros a b. unfold string_le. apply _. Defined.

(** The groups of [df.groupby(key)], in the order of their keys
    ([sort=True]), each with its rows in frame order. *)
Definition groupby (key : row -> option string) (df : frame) : list (string * frame) :=
  map (fun k => (k, List.filter (fun r => bool_decide (key r = Some k)) df))
      (merge_sort string_le (unique (omap key df))).

(** [df.groupby(K)[F].sum().reset_index()], with the key in column [K]. *)
Definition groupby_sum (K : string) (key : row -> option string) (F : string) (df : frame)
    : frame :=
  map (fun g : string * frame =>
         ({[ K := SStr g.1; F := SNum (pd.sum (pd.col F g.2)) ]} : row))
      (groupby key df).

(** [df_products.groupby('Category').agg({...}).reset_index()]. *)
Definition category_metrics (df_products : frame) : frame :=
  map (fun g : string * frame =>
         ({[ "Category" := SStr g.1;
             "OrderCount" := SNum (pd.sum (pd.col "OrderCount" g.2));
             "TotalQuantitySold" := SNum (pd.sum (pd.col "TotalQuantitySold" g.2));
             "TotalRevenue" := SNum (pd.sum (pd.col "TotalRevenue" g.2));
             "AvgSellingPrice" := SNum (mean (pd.col "AvgSellingPrice" g.2));
             "AvgDiscountPercentage" := SNum (mean (pd.col "AvgDiscountPercentage" g.2)) ]}
          : row))
      (groupby (group_key "Category") df_products).

(** The dictionary of [highlight_max_min], from the displayed name of a
    column to its name in [category_metrics]. *)
Definition original_col (col_name : string) : option string :=
  ({[ "Order Count" := "OrderCount"; "Units Sold" := "TotalQuantitySold";
      "Revenue" := "TotalRevenue"; "Avg Price" := "AvgSellingPrice";
      "Avg Discount" := "AvgDiscountPercentage" ]} : gmap string string) !! col_name.

Definition max_style : string :=
  "background-color: #FF4136; color: white; font-weight: bold".
Definition min_style : string :=
  "background-color: #2ECC40; color: white; font-weight: bold".

(** [highlight_max_min(s)] for a column [s] of the displayed table, by its
    name and its length; [i == max_idx] is false when [max_idx] is
    [None]. *)
Definition highlight_max_min (max_indices min_indices : gmap string nat)
    (col_name : string) (len_s : nat) : list string :=
  match original_col col_name with
  | None => replicate len_s EmptyString
  | Some col =>
      let max_idx := max_indices !! col in
      let min_idx := min_indices !! col in
      map (fun i : nat =>
             if bool_decide (Some i = max_idx) then max_style
             else if bool_decide (Some i = min_idx) then min_style
             else EmptyString)
          (seq 0 len_s)
  end.

(** ** finance_dashboard.py: the latest growth and the failed payments by
    month and quarter *)

(** [latest_growth]: the last entry of the growth column when there are
    two months, [None] otherwise. *)
Definition latest_growth (df_revenue : frame) : option fnum :=
  if decide (2 <= length df_revenue)%nat
  then Some (iloc_back 1 (pd.col "MonthlyGrowth" df_revenue))
  else None.

(** The value and the [delta_color] of the metric "Latest Monthly Growth". *)
Definition latest_growth_metric (latest_growth : option fnum) : string * option string :=
  match latest_growth with
  | Some g =>
      (string_of_list_ascii (format_float false g ++ ["%"%char]),
       Some (if num.leb (num.of_Z 0) g then "normal" else "inverse"))
  | None => ("N/A", None)
  end.

(** The column [FailurePercentage] of [df_top10]:
    [(df_top10['FailedPayments'] / max_failures) * 100]. *)
Definition failure_percentage (df_top10 : frame) : list fnum :=
  let max_failures := pd.max (pd.col "FailedPayments" df_top10) in
  series_scale (series_over (pd.col "FailedPayments" df_top10) max_failures) (num.of_Z 100).

(** [df_monthly] and [df_quarterly].  [strftime('%Y-%m')] and
    [to_period('Q').astype(str)] are taken as they come: the text of the
    month and of the quarter of a date, none for [NaT]. *)
Definition df_monthly (month_of : fnum -> option string) (df_daily : frame) : frame :=
  groupby_sum "Month" (fun r => month_of (pd.cell "FailedDate" r)) "FailedPayments" df_daily.

Definition df_quarterly (quarter_of : fnum -> option string) (df_daily : frame) : frame :=
  groupby_sum "Quarter" (fun r => quarter_of (pd.cell "FailedDate" r)) "FailedPayments"
              df_daily.

(** ** app.py: the session and the dispatch on the role

    [st.session_state] is threaded through the calls.  Its two dates are
    written by [setup_sidebar] and read back by [main] in the same run:
    they are the value of [setup_sidebar] here.  [st.rerun()] leaves the
    run like an exception. *)

Module app.

Record session_state : Type := {
  authenticated : bool;
  username : string;
  user_role : string;
  conn : option connection
}.

(** [init_auth_state()] on a new session. *)
Definition init_auth_state : session_state :=
  {| authenticated := false; username := EmptyString; user_role := EmptyString;
     conn := None |}.

Definition credentials : gmap string string :=
  {[ "db_admin" := "Admin@2025!Secure"; "user_analyst" := "UserTeam@2025!";
     "finance_analyst" := "Finance@2025!Secure";
     "marketing_analyst" := "Marketing@2025!Secure" ]}.

(** [init_connection(username, password)], the body under the cache
    decorator; [connect] is [mysql.connector.connect] on the host of the
    application. *)
Definition init_connection (connect : string -> string -> outcome connection)
    (username password : string) : page (option connection) :=
  try_except
    (c ← lift (connect username password); mret (Some c))
    (fun e => _ ← emit (Error ("Database connection error: " +:+ exn_name e)); mret None).

(** [login(username, password)]: its value and the session it leaves. *)
Definition login (connect : string -> string -> outcome connection)
    (username password : string) (s : session_state) : page (bool * session_state) :=
  if bool_decide (is_Some (credentials !! username))
     && bool_decide (Some password = credentials !! username)
  then
    c ← init_connection connect username password;
    match c with
    | Some c =>
        let role :=
          if bool_decide (username = "db_admin") then "admin_role"
          else if bool_decide (username = "user_analyst") then "user_analyst_role"
          else if bool_decide (username = "finance_analyst") then "finance_analyst_role"
          else if bool_decide (username = "marketing_analyst") then "marketing_analyst_role"
          else user_role s in
        mret (true, {| authenticated := true; username := username; user_role := role;
                       conn := Some c |})
    | None => mret (false, s)
    end
  else mret (false, s).

(** [logout()]: the session it leaves and how it ends; [conn_close] is
    [conn.close()] of the driver.  The three fields are reset before the
    connection is closed. *)
Definition logout (conn_close : connection -> outcome unit) (s : session_state)
    : session_state * outcome unit :=
  let s := {| authenticated := false; username := EmptyString; user_role := EmptyString;
              conn := conn s |} in
  match conn s with
  | Some c =>
      match conn_close c with
      | Ok _ =>
          ({| authenticated := false; username := EmptyString; user_role := EmptyString;
              conn := None |}, Ok tt)
      | Raise e => (s, Raise e)
      end
  | None =>
      ({| authenticated := false; username := EmptyString; user_role := EmptyString;
          conn := None |}, Ok tt)
  end.

(** [main()] after [init_auth_state()], on a session [s] and a cache [c]:
    [display_login_page()], or [setup_sidebar()] and the dashboard of the
    role. *)
Definition main (clock : key -> Z) (draw : string -> list frame -> outcome unit)
    (ui : widgets) (display_login_page : page unit) (setup_sidebar : page (Z * Z))
    (s : session_state) (c : cache) : page unit :=
  if negb (authenticated s) then display_login_page
  else
    dates ← setup_sidebar;
    let start_date := dates.1 in
    let end_date := dates.2 in
    if bool_decide (user_role s = "admin_role")
    then _ ← admin_dashboard clock draw ui (conn s) start_date end_date c; mret tt
    else if bool_decide (user_role s = "user_analyst_role")
    then _ ← user_dashboard clock draw (conn s) start_date end_date c; mret tt
    else if bool_decide (user_role s = "finance_analyst_role")
    then _ ← finance_dashboard clock draw (conn s) start_date end_date c; mret tt
    else if bool_decide (user_role s = "marketing_analyst_role")
    then _ ← marketing_dashboard clock draw ui (conn s) start_date end_date c; mret tt
    else mret tt.

End app.

(** * The vocabulary of the properties *)

(** ** Series and shares *)

(** One entry of the growth column, from the revenue of the period and of
    the period before. *)
Definition growth_entry (c p : fnum) : fnum :=
  ((c - p) / (if num.eqb p (num.of_Z 0) then NaN else p) * num.of_Z 100)%F.

(** The rescale the specification describes for the comparison charts:
    [(v - min) / (max - min) * 100] on the group's own minimum and
    maximum. *)
Definition min_max_rescale (s : list fnum) : list fnum :=
  map (fun v => (v - pd.min s) / (pd.max s - pd.min s) * num.of_Z 100)%F s.

(** The sum of a column of numbers. *)
Definition total (qs : list Qc) : Qc := foldr Qcplus 0%Qc qs.

(** The share of one row, before it is rounded. *)
Definition share (t q : Qc) : Qc := (q / t * Qc_of_Z 100)%Qc.

(** The position of [q] between [lo] and [hi], in percent. *)
Definition position (lo hi q : Qc) : Qc := ((q - lo) / (hi - lo) * Qc_of_Z 100)%Qc.

(** The number a cell adds to a sum: a missing value adds nothing. *)
Definition addend (x : fnum) : Qc :=
  match x with
  | Fin q => q
  | _ => 0%Qc
  end.

(** A value that is a number or missing. *)
Definition not_infinite (x : fnum) : Prop := x <> PosInf /\ x <> NegInf.

(** The rows [groupby] puts in a group: those with a key. *)
Definition with_key (key : row -> option string) (df : frame) : frame :=
  List.filter (fun r => bool_decide (is_Some (key r))) df.

(** The users of the application, each with the role [login] gives. *)
Definition roles : list (string * string) :=
  [("db_admin", "admin_role"); ("user_analyst", "user_analyst_role");
   ("finance_analyst", "finance_analyst_role");
   ("marketing_analyst", "marketing_analyst_role")].

(** The dashboard [main] runs for a role, with the connection and the
    dates of the session. *)
Definition dashboard_of_role (clock : key -> Z)
    (draw : string -> list frame -> outcome unit) (ui : widgets) (role : string)
    (conn : option connection) (start_date end_date : Z) (c : cache) : page unit :=
  if bool_decide (role = "admin_role")
  then _ ← admin_dashboard clock draw ui conn start_date end_date c; mret tt
  else if bool_decide (role = "user_analyst_role")
  then _ ← user_dashboard clock draw conn start_date end_date c; mret tt
  else if bool_decide (role = "finance_analyst_role")
  then _ ← finance_dashboard clock draw conn start_date end_date c; mret tt
  else _ ← marketing_dashboard clock draw ui conn start_date end_date c; mret tt.

(** A column that holds a number in some row. *)
Definition has_number (s : list fnum) : Prop := exists x : fnum, x ∈ s /\ x <> NaN.

(** The colour a dictionary holds for a level, if it holds one. *)
Definition color_of (colors : gmap string string) (level : scalar) : option string :=
  match level with
  | SStr s => colors !! s
  | _ => None
  end.

(** [numpy.round(x, 2)] on a number. *)
Definition round2_Qc (e : Qc) : Qc :=
  (Qc_of_Z (num.rint (e * Qc_of_Z 100)) / Qc_of_Z 100)%Qc.

(** The calendar key of a row is the first day of its month. *)
Definition keyed_by_month `{Pandas} (r : row) : Prop :=
  month_start (r !! "Month") = Some (pd.cell "MonthDate" r).

(** Rows with equal values of [F] are in [output] in the order they have in
    [input]. *)
Definition ties_in_input_order (F : string) (input output : frame) : Prop :=
  forall k : fnum,
    filter (fun r : row => pd.cell F r = k) output
      `sublist_of` filter (fun r : row => pd.cell F r = k) input.

(** The max and min positions of one column, as the pair (max, min): for a
    column where more is better the [idxmax] and the [idxmin]; for an
    inverted column, where lower is better, the other way round. *)
Definition max_min (invert : bool) (s : list fnum) : option (nat * nat) :=
  if invert
  then mx ← pd.idxmin s; mn ← pd.idxmax s; Some (mx, mn)
  else mx ← pd.idxmax s; mn ← pd.idxmin s; Some (mx, mn).

(** ** Numerals *)

(** The value of a decimal digit. *)
Definition digit_number (c : ascii) : option N :=
  (if decide (c = "0") then Some 0
   else if decide (c = "1") then Some 1
   else if decide (c = "2") then Some 2
   else if decide (c = "3") then Some 3
   else if decide (c = "4") then Some 4
   else if decide (c = "5") then Some 5
   else if decide (c = "6") then Some 6
   else if decide (c = "7") then Some 7
   else if decide (c = "8") then Some 8
   else if decide (c = "9") then Some 9
   else None)%char%N.

(** The number a list of decimal digits writes, read from the least
    significant digit, and as it is printed. *)
Fixpoint number_lsd (cs : list ascii) : option N :=
  match cs with
  | [] => Some 0%N
  | c :: cs => d ← digit_number c; n ← number_lsd cs; Some (d + 10 * n)%N
  end.

Definition number_of (cs : list ascii) : option N := number_lsd (rev cs).

(** A numeral without its thousands separators. *)
Definition ungrouped (cs : list ascii) : list ascii :=
  filter (fun c : ascii => c <> ","%char) cs.

(** ** Pages *)

Definition cursor_works (conn : option connection) : Prop :=
  match conn with
  | None => True
  | Some c => cursor c = Ok tt /\ close c = Ok tt
  end.

(** What the gateway hands to a section, and what it writes on the page,
    when the cursor opens and closes. *)
Definition gateway_rows (conn : option connection) (proc_name : string)
    (params : list scalar) : frame :=
  match conn with
  | None => []
  | Some c =>
      match callproc c proc_name params with
      | Ok results =>
          match fetch_all results with
          | Ok (first :: _) => first
          | _ => []
          end
      | Raise _ => []
      end
  end.

Definition gateway_errors (conn : option connection) (proc_name : string)
    (params : list scalar) : list event :=
  match conn with
  | None => []
  | Some c =>
      match callproc c proc_name params with
      | Ok results =>
          match fetch_all results with
          | Ok _ => []
          | Raise e => [Error ("Stored procedure error: " +:+ exn_name e)]
          end
      | Raise e => [Error ("Stored procedure error: " +:+ exn_name e)]
      end
  end.

(** What a call of the gateway hands to a section, what it writes on the
    page and the cache it leaves, when the cursor opens and closes: from
    the cache when it holds a live entry, from the body when it holds
    none. *)
Definition answer (clock : key -> Z) (c : cache) (conn : option connection)
    (proc_name : string) (params : list scalar) : frame :=
  match cache_get (clock (proc_name, params)) c (proc_name, params) with
  | Some e => value e
  | None => gateway_rows conn proc_name params
  end.

Definition answer_events (clock : key -> Z) (c : cache) (conn : option connection)
    (proc_name : string) (params : list scalar) : list event :=
  match cache_get (clock (proc_name, params)) c (proc_name, params) with
  | Some e => Error <$> messages e
  | None => gateway_errors conn proc_name params
  end.

Definition cache_after (clock : key -> Z) (c : cache) (conn : option connection)
    (proc_name : string) (params : list scalar) : cache :=
  match cache_get (clock (proc_name, params)) c (proc_name, params) with
  | Some _ => c
  | None =>
      cache_set (proc_name, params)
        {| value := gateway_rows conn proc_name params;
           messages := errors (gateway_errors conn proc_name params);
           stored := clock (proc_name, params) |} c
  end.

(** The placeholders a page shows. *)
Definition placeholders (t : list event) : list string :=
  omap (fun ev => match ev with Info s => Some s | _ => None end) t.

(** What a guarded section writes: [body] when it has rows, [otherwise]
    when it has none. *)
Definition shown (rows : frame) (body otherwise : list event) : list event :=
  match rows with
  | _ :: _ => body
  | [] => otherwise
  end.

(** The placeholder of a section that has one: shown when the section has
    no rows. *)
Definition when_empty (rows : frame) (msg : string) : list string :=
  match rows with
  | [] => [msg]
  | _ :: _ => []
  end.

(** The total rows of the retention result. *)
Definition total_row (retention_data : frame) : frame :=
  List.filter (fun r : row => contains "-Total" (text "RegMonth" r)) retention_data.

(** The period of the discount analysis: the two dates of its date input,
    or the dates of the session when the input holds no two dates. *)
Definition discount_period (ui : widgets) (start_date end_date : Z) : Z * Z :=
  match date_input ui "discount_period" (start_date, end_date) with
  | [period_start; period_end] => (period_start, period_end)
  | _ => (start_date, end_date)
  end.

(** An exception of the body of a section. *)
Definition raised_by (draw : string -> list frame -> outcome unit) (e : exn) : Prop :=
  exists (name : string) (frames : list frame), draw name frames = Raise e.

(** A computation that writes no header of a section. *)
Definition writes_no_header {A} (m : page A) : Prop :=
  forall t : list event,
    exists (r : outcome A) (evs : list event), m t = (r, t ++ evs) /\ entered evs = [].

(** A step inside a section: it writes no header, and it stops only on an
    exception of a body. *)
Definition inside_section (draw : string -> list frame -> outcome unit) {A}
    (m : page A) : Prop :=
  forall t : list event,
    exists (r : outcome A) (evs : list event),
      m t = (r, t ++ evs) /\ entered evs = []
      /\ forall e : exn, r = Raise e -> raised_by draw e.

(** A render of the sections [sections]: when it returns it has entered
    them all, and it stops only on an exception of a body, having
    entered the first of them. *)
Definition renders (draw : string -> list frame -> outcome unit) (sections : list string)
    {A} (m : page A) : Prop :=
  forall t : list event,
    exists (r : outcome A) (evs : list event),
      m t = (r, t ++ evs)
      /\ (forall a : A, r = Ok a -> entered evs = sections)
      /\ forall e : exn, r = Raise e -> raised_by draw e /\ entered evs `prefix_of` sections.

(** ** Two sorts and a date parser, to run the code on examples *)

(** Insertion sort: a row goes before the first sorted row that [before]
    lets it go before. *)
Fixpoint insert_row (before : row -> row -> bool) (r : row) (sorted : frame) : frame :=
  match sorted with
  | [] => [r]
  | r' :: rest =>
      if before r r' then r :: sorted else r' :: insert_row before r rest
  end.

Definition insertion_sort (before : row -> row -> bool) (df : frame) : frame :=
  foldr (insert_row before) [] df.

Definition digit_value (c : ascii) : option Z :=
  let n := Z.of_nat (nat_of_ascii c) in
  if decide (48 <= n <= 57)%Z then Some (n - 48)%Z else None.

(** A date [YYYY-MM-DD] as a number that grows with the date; [None] on
    any other string. *)
Definition parse_date (s : string) : option Z :=
  match list_ascii_of_string s with
  | [y1; y2; y3; y4; dash1; m1; m2; dash2; d1; d2] =>
      y1 ← digit_value y1; y2 ← digit_value y2; y3 ← digit_value y3; y4 ← digit_value y4;
      m1 ← digit_value m1; m2 ← digit_value m2;
      d1 ← digit_value d1; d2 ← digit_value d2;
      let y := (((y1 * 10 + y2) * 10 + y3) * 10 + y4)%Z in
      let m := (m1 * 10 + m2)%Z in
      let d := (d1 * 10 + d2)%Z in
      if decide (dash1 = "-"%char /\ dash2 = "-"%char
                 /\ (1 <= m <= 12)%Z /\ (1 <= d <= 31)%Z)
      then Some ((y * 12 + (m - 1)) * 31 + (d - 1))%Z
      else None
  | _ => None
  end.

(** ** Example data *)

(** The example of the specification, with the months given out of
    order. *)
Definition revenue_example : frame :=
  [ {[ "Month" := SStr "2024-02"; "TotalRevenue" := SNum (num.of_Z 150) ]};
    {[ "Month" := SStr "2024-01"; "TotalRevenue" := SNum (num.of_Z 100) ]} ].

Definition quarterly_example : frame :=
  [ {[ "Quarter" := SStr "Q1 (Jan-Mar)"; "TotalProfitInTheQuarter" := SNum (num.of_Z 50) ]};
    {[ "Quarter" := SStr "Q2 (Apr-Jun)"; "TotalProfitInTheQuarter" := SNum (num.of_Z 100) ]} ].

Definition tiers_example : frame :=
  [ {[ "UserTier" := SStr "Gold"; "UserCount" := SNum (num.of_Z 1) ]};
    {[ "UserTier" := SStr "Silver"; "UserCount" := SNum (num.of_Z 1) ]};
    {[ "UserTier" := SStr "Bronze"; "UserCount" := SNum (num.of_Z 1) ]} ].

Definition provinces_example : frame :=
  [ {[ "Province" := SStr "Anhui"; "UserCount" := SNum (num.of_Z 5) ]};
    {[ "Province" := SStr "Beijing"; "UserCount" := SNum (num.of_Z 5) ]};
    {[ "Province" := SStr "Guangdong"; "UserCount" := SNum (num.of_Z 7) ]} ].

(** A connection that answers [answer] to the procedure calls and
    [categories] to a query, and whose cursor opens and closes. *)
Definition open_connection
    (answer : string -> list scalar -> outcome (list (outcome frame)))
    (categories : frame) : connection :=
  {| cursor := Ok tt; callproc := answer;
     execute := fun _ => Ok categories; close := Ok tt |}.

(** A connection the server has dropped: opening a cursor raises. *)
Definition lost_connection : connection :=
  {| cursor := Raise (Exn "OperationalError"); callproc := fun _ _ => Ok [];
     execute := fun _ => Ok []; close := Ok tt |}.

(** A connection whose cursor does not close. *)
Definition unclosed_connection : connection :=
  {| cursor := Ok tt; callproc := fun _ _ => Ok [Ok []];
     execute := fun _ => Ok []; close := Raise (Exn "InternalError") |}.

(** A connection on which the category query raises. *)
Definition no_product_table_connection : connection :=
  {| cursor := Ok tt; callproc := fun _ _ => Ok [];
     execute := fun _ => Raise (Exn "ProgrammingError"); close := Ok tt |}.

(** A category table of two categories. *)
Definition category_table_example : frame :=
  [ {[ "Category" := SStr "Books"; "OrderCount" := SNum (num.of_Z 3);
       "TotalQuantitySold" := SNum (num.of_Z 4); "TotalRevenue" := SNum (num.of_Z 90);
       "AvgSellingPrice" := SNum (num.of_Z 20);
       "AvgDiscountPercentage" := SNum (num.of_Z 15) ]};
    {[ "Category" := SStr "Toys"; "OrderCount" := SNum (num.of_Z 5);
       "TotalQuantitySold" := SNum (num.of_Z 9); "TotalRevenue" := SNum (num.of_Z 70);
       "AvgSellingPrice" := SNum (num.of_Z 8);
       "AvgDiscountPercentage" := SNum (num.of_Z 5) ]} ].

(** Failed payments of four days of the first quarter of 2024, the days
    counted from the first of January, with the month and the quarter of
    such a day. *)
Definition failed_payments_example : frame :=
  [ {[ "FailedDate" := SNum (num.of_Z 3); "FailedPayments" := SNum (num.of_Z 4) ]};
    {[ "FailedDate" := SNum (num.of_Z 40); "FailedPayments" := SNum (num.of_Z 1) ]};
    {[ "FailedDate" := SNum (num.of_Z 17); "FailedPayments" := SNum (num.of_Z 2) ]};
    {[ "FailedDate" := SNum (num.of_Z 70); "FailedPayments" := SNum (num.of_Z 5) ]} ].

Definition month_of_early_2024 (d : fnum) : option string :=
  match d with
  | Fin q => Some (if bool_decide (q < Qc_of_Z 31)%Qc then "2024-01"
                   else if bool_decide (q < Qc_of_Z 60)%Qc then "2024-02" else "2024-03")
  | _ => None
  end.

Definition quarter_of_early_2024 (d : fnum) : option string :=
  match d with
  | Fin _ => Some "2024Q1"
  | _ => None
  end.

(** Activity rows: a label outside the list, a listed one, a missing
    one. *)
Definition activity_example : frame :=
  [ {[ "ActivityLabel" := SStr "Churned"; "UserCount" := SNum (num.of_Z 3) ]};
    {[ "ActivityLabel" := SStr "Active"; "UserCount" := SNum (num.of_Z 7) ]};
    {[ "ActivityLabel" := SNull; "UserCount" := SNum (num.of_Z 2) ]} ].

Definition failing_procedures : string -> list scalar -> outcome (list (outcome frame)) :=
  fun _ _ => Raise (Exn "ProgrammingError").

(** The widgets left at their defaults: every category selected, the first
    option of a select box. *)
Definition default_widgets : widgets :=
  {| multiselect := fun options => options;
     selectbox := fun _ options => List.hd EmptyString options;
     date_input := fun _ default => [default.1; default.2] |}.

(** A cache that holds nothing, a clock that stands at a time, and bodies
    that return. *)
Definition no_cache : cache := fun _ => None.

Definition at_time (now : Z) : key -> Z := fun _ => now.

Definition drawn : string -> list frame -> outcome unit := fun _ _ => Ok tt.

(** Of the body of the provincial section, the columns its first metrics
    read: [df_province['UserCount']] and [df_province['VIPUserCount']]
    raise on a frame of which no row has the key. *)
Definition has_column (F : string) (df : frame) : bool :=
  existsb (fun r : row => bool_decide (is_Some (r !! F))) df.

Definition province_metrics_only (name : string) (frames : list frame) : outcome unit :=
  match frames with
  | [df_province] =>
      if bool_decide (name = "User Distribution by Province")
      then if negb (has_column "UserCount" df_province)
           then Raise (KeyError "UserCount")
           else if negb (has_column "VIPUserCount" df_province)
                then Raise (KeyError "VIPUserCount")
                else Ok tt
      else Ok tt
  | _ => Ok tt
  end.

(** * Properties *)

(** ** Numbers *)

Lemma Qc_of_Z_0 : Qc_of_Z 0 = 0%Qc.
Proof. apply Qc_is_canon. reflexivity. Qed.

Lemma Qc_of_Z_1 : Qc_of_Z 1 = 1%Qc.
Proof. apply Qc_is_canon. reflexivity. Qed.

Lemma Qc_of_Z_100_neq_0 : Qc_of_Z 100 <> 0%Qc.
Proof. discriminate. Qed.

Lemma eqb_zero_fin (p : Qc) : num.eqb (Fin p) (num.of_Z 0) = bool_decide (p = 0%Qc).
Proof.
  unfold num.eqb, num.of_Z. rewrite Qc_of_Z_0.
  apply bool_decide_ext. split; [congruence | intros ->; reflexivity].
Qed.

(** Goals of order over [Qc], read over [Q] for [lra]. *)
Ltac qc_to_q :=
  repeat (progress (unfold Qcle, Qclt, Qcplus, Qcminus, Qcopp, Qcmult, Qcdiv, Qcinv,
                      Qc_of_Z, Q2Qc in *;
                    cbn [this] in *));
  repeat match goal with
         | H : context [Qred _] |- _ => rewrite Qred_correct in H
         | |- context [Qred _] => rewrite Qred_correct
         end;
  change (inject_Z 1) with 1%Q in *;
  change (inject_Z 100) with (100 # 1)%Q in *;
  change (/ (100 # 1))%Q with (1 # 100)%Q in *.

Lemma rint_close (x : Qc) :
  (x - Q2Qc (1 # 2) <= Qc_of_Z (num.rint x) /\ Qc_of_Z (num.rint x) <= x + Q2Qc (1 # 2))%Qc.
Proof.
  unfold num.rint.
  pose proof (Qfloor_le x) as Hlo. pose proof (Qlt_floor x) as Hhi.
  rewrite inject_Z_plus in Hhi.
  repeat case_decide; try destruct (Z.even _); qc_to_q.
  all: try rewrite inject_Z_plus.
  all: change (inject_Z 1) with 1%Q in *.
  all: generalize dependent (inject_Z (Qfloor x)); generalize (this x); intros; split; lra.
Qed.

Lemma round2_close (e : Qc) :
  (e - Q2Qc (1 # 200) <= Qc_of_Z (num.rint (e * Qc_of_Z 100)) / Qc_of_Z 100
   /\ Qc_of_Z (num.rint (e * Qc_of_Z 100)) / Qc_of_Z 100 <= e + Q2Qc (1 # 200))%Qc.
Proof.
  destruct (rint_close (e * Qc_of_Z 100)%Qc) as [Hlo Hhi].
  generalize dependent (num.rint (e * Qc_of_Z 100)). intros z Hlo Hhi.
  qc_to_q. generalize dependent (inject_Z z). generalize (this e). intros. split; lra.
Qed.

Lemma percent_le_100 (q m : Qc) :
  (0 < m -> q <= m -> q / m * Qc_of_Z 100 <= Qc_of_Z 100)%Qc.
Proof.
  intros Hm Hq.
  assert (q / m <= 1)%Qc as Hr.
  { apply Qcnot_lt_le. intros Hlt.
    apply (Qcmult_lt_compat_r _ _ m) in Hlt; [|done].
    rewrite Qcmult_1_l in Hlt.
    replace (q / m * m)%Qc with q in Hlt
      by (field; intros ->; by apply Qclt_not_eq in Hm).
    by apply Qclt_not_le in Hlt. }
  generalize dependent (q / m)%Qc. intros r Hr.
  qc_to_q. generalize dependent (this r). intros. lra.
Qed.

(** The order of the valid values. *)
Lemma leb_refl (a : fnum) : a <> NaN -> num.leb a a = true.
Proof. destruct a; try done. intros _. cbn. apply bool_decide_eq_true_2, Qcle_refl. Qed.

Lemma leb_total (a b : fnum) :
  a <> NaN -> b <> NaN -> num.leb a b = false -> num.leb b a = true.
Proof.
  destruct a, b; try done. cbn. intros _ _ Hab.
  apply bool_decide_eq_false_1 in Hab. apply bool_decide_eq_true_2.
  apply Qclt_le_weak. by apply Qcnot_le_lt.
Qed.

Lemma leb_trans (a b c : fnum) :
  num.leb a b = true -> num.leb b c = true -> num.leb a c = true.
Proof.
  destruct a, b, c; try done. cbn. intros Hab Hbc.
  apply bool_decide_eq_true_1 in Hab, Hbc. apply bool_decide_eq_true_2.
  by apply Qcle_trans with q0.
Qed.

Lemma leb_not_nan (a b : fnum) : num.leb a b = true -> a <> NaN /\ b <> NaN.
Proof. destruct a, b; done. Qed.

Lemma growth_entry_fin (c p : Qc) :
  p <> 0%Qc -> growth_entry (Fin c) (Fin p) = Fin ((c / p - Qc_of_Z 1) * Qc_of_Z 100)%Qc.
Proof.
  intros Hp. unfold growth_entry. rewrite eqb_zero_fin, bool_decide_eq_false_2 by done.
  cbn. rewrite decide_False by done. unfold num.of_Z. cbn.
  f_equal. rewrite Qc_of_Z_1. field. done.
Qed.

Lemma growth_entry_nan (c : fnum) : growth_entry c NaN = NaN.
Proof. destruct c; reflexivity. Qed.

Lemma growth_entry_of_nan (p : fnum) : growth_entry NaN p = NaN.
Proof. reflexivity. Qed.

Lemma growth_entry_zero (c : fnum) : growth_entry c (Fin 0%Qc) = NaN.
Proof.
  unfold growth_entry. rewrite eqb_zero_fin, bool_decide_eq_true_2 by done.
  destruct c; reflexivity.
Qed.

(** ** Series *)

Lemma shift_length (s : list fnum) : length (pd.shift s) = length s.
Proof.
  destruct s as [|x s]; [done|]. unfold pd.shift.
  rewrite removelast_firstn_len. cbn [length]. rewrite length_take. cbn [length]. lia.
Qed.

Lemma shift_lookup_0 (s : list fnum) : s <> [] -> pd.shift s !! 0%nat = Some NaN.
Proof. destruct s; done. Qed.

Lemma shift_lookup_S (s : list fnum) (i : nat) :
  (S i < length s)%nat -> pd.shift s !! S i = s !! i.
Proof.
  intros Hi. destruct s as [|x s]; [cbn in Hi; lia|]. unfold pd.shift.
  rewrite removelast_firstn_len. cbn [lookup list_lookup]. 
  apply lookup_take_lt. cbn [length] in *. lia.
Qed.

Lemma monthly_growth_lookup (v : list fnum) (i : nat) :
  monthly_growth v !! i =
    c ← v !! i; p ← pd.shift v !! i; Some (growth_entry c p).
Proof.
  unfold monthly_growth, series_scale, series_div, series_sub, pd.replace0.
  rewrite list_lookup_fmap, !lookup_zip_with, list_lookup_fmap.
  destruct (v !! i) as [c|]; [|done]. cbn.
  destruct (pd.shift v !! i) as [p|]; done.
Qed.

(** ** Period-over-period change *)

Lemma monthly_growth_length (v : list fnum) : length (monthly_growth v) = length v.
Proof.
  unfold monthly_growth, series_scale, series_div, series_sub, pd.replace0.
  rewrite length_map, !length_zip_with, length_map, shift_length. lia.
Qed.

(** C1.  The growth column along a period series [v]: it is as long as the
    series; its first entry is null; at a position after the first it is
    [(v[i] / v[i-1] - 1) * 100] when both values are numbers and the
    preceding one is not [0], and null when the preceding value is [0] or
    null (or the value itself is null); on a series of no or one period it
    is all null.  The operation is a total function: nothing is raised. *)
Theorem monthly_growth_period_over_period (v : list fnum) :
  length (monthly_growth v) = length v
  /\ (v <> [] -> monthly_growth v !! 0%nat = Some NaN)
  /\ (forall (i : nat) (c p : Qc),
        v !! i = Some (Fin p) -> v !! S i = Some (Fin c) -> p <> 0%Qc ->
        monthly_growth v !! S i = Some (Fin ((c / p - 1) * Qc_of_Z 100)%Qc))
  /\ (forall (i : nat) (c p : fnum),
        v !! i = Some p -> v !! S i = Some c -> p = NaN \/ p = Fin 0%Qc \/ c = NaN ->
        monthly_growth v !! S i = Some NaN)
  /\ ((length v <= 1)%nat -> monthly_growth v = replicate (length v) NaN).
Proof.
  split; [|split; [|split; [|split]]].
  - apply monthly_growth_length.
  - intros Hv. rewrite monthly_growth_lookup, shift_lookup_0 by done.
    destruct v as [|c v]; [done|]. cbn. by rewrite growth_entry_nan.
  - intros i c p Hp Hc Hne.
    rewrite monthly_growth_lookup, shift_lookup_S, Hc, Hp
      by (apply lookup_lt_is_Some; eauto).
    cbn. rewrite growth_entry_fin by done. by rewrite Qc_of_Z_1.
  - intros i c p Hp Hc Hz.
    rewrite monthly_growth_lookup, shift_lookup_S, Hc, Hp
      by (apply lookup_lt_is_Some; eauto).
    cbn. destruct Hz as [-> | [-> | ->]];
      [by rewrite growth_entry_nan | by rewrite growth_entry_zero | by rewrite growth_entry_of_nan].
  - intros Hlen. destruct v as [|c [|c' v]]; [reflexivity | | cbn in Hlen; lia].
    cbn. by destruct c.
Qed.

Lemma monthly_growth_period_over_period_witness :
  monthly_growth [num.of_Z 100; num.of_Z 150] !! 1%nat
  = Some (Fin ((Qc_of_Z 150 / Qc_of_Z 100 - 1) * Qc_of_Z 100)%Qc).
Proof.
  apply (proj1 (proj2 (proj2
           (monthly_growth_period_over_period [num.of_Z 100; num.of_Z 150]))) 0%nat);
    [reflexivity | reflexivity | discriminate].
Defined.

(** The example of the specification: revenues [100] and [150] over two
    months give the growth [[null, 50.0]]. *)
Example monthly_growth_100_150 :
  monthly_growth [num.of_Z 100; num.of_Z 150] = [NaN; num.of_Z 50].
Proof. apply (bool_decide_eq_true_1 _). vm_compute. reflexivity. Qed.

Example monthly_growth_after_zero :
  monthly_growth [num.of_Z 0; num.of_Z 150; NaN; num.of_Z 3] = [NaN; NaN; NaN; NaN].
Proof. apply (bool_decide_eq_true_1 _). vm_compute. reflexivity. Qed.

(** ** The neutral midpoint of [normalize_series] *)

Lemma best_cons_nan (better : fnum -> fnum -> bool) (s : list fnum) :
  pd.best better (NaN :: s) = pd.best better s.
Proof. reflexivity. Qed.

Lemma best_cons_valid (better : fnum -> fnum -> bool) (x : fnum) (s : list fnum) :
  num.isna x = false ->
  pd.best better (x :: s) =
    if num.isna (pd.best better s) then x
    else if better x (pd.best better s) then x else pd.best better s.
Proof. intros Hx. unfold pd.best, pd.valid. cbn. by rewrite Hx. Qed.

Lemma best_constant (better : fnum -> fnum -> bool) (v : fnum) (s : list fnum) :
  v <> NaN ->
  Forall (fun x => x = NaN \/ x = v) s ->
  pd.best better s = (if bool_decide (v ∈ s) then v else NaN).
Proof.
  intros Hv Hs. induction Hs as [|x s Hx Hs IH]; [done|].
  destruct Hx as [-> | ->].
  - rewrite best_cons_nan, IH.
    case_bool_decide as H1; case_bool_decide as H2; try done.
    + exfalso. apply H2. by right.
    + apply elem_of_cons in H2 as [?|?]; done.
  - assert (num.isna v = false) as Hna by (by destruct v).
    rewrite best_cons_valid, IH by done.
    rewrite (bool_decide_eq_true_2 (v ∈ v :: s)) by left.
    case_bool_decide; [rewrite Hna; by destruct (better v v) | done].
Qed.

(** C6.  When the maximum and the minimum of a group are equal,
    [normalize_series] gives [50] for every element of the group. *)
Theorem normalize_series_max_eq_min (series : list fnum) :
  num.eqb (pd.max series) (pd.min series) = true ->
  normalize_series series = replicate (length series) (num.of_Z 50)
  /\ length (normalize_series series) = length series
  /\ forall (i : nat) (x : fnum), normalize_series series !! i = Some x -> x = num.of_Z 50.
Proof.
  intros Heq. unfold normalize_series. rewrite Heq.
  split; [reflexivity|]. split; [apply length_replicate|].
  intros i x Hx. by apply lookup_replicate in Hx as [-> _].
Qed.

(** A group whose valid values are all one number [v] is such a group. *)
Lemma constant_group_max_eq_min (v : Qc) (s : list fnum) :
  Forall (fun x => x = NaN \/ x = Fin v) s -> Fin v ∈ s ->
  num.eqb (pd.max s) (pd.min s) = true.
Proof.
  intros Hs Hin. unfold pd.max, pd.min.
  rewrite !(best_constant _ (Fin v)), !bool_decide_eq_true_2 by done.
  cbn. by apply bool_decide_eq_true_2.
Qed.

Lemma normalize_series_max_eq_min_witness :
  normalize_series [num.of_Z 7; NaN; num.of_Z 7]
  = replicate 3 (num.of_Z 50).
Proof.
  apply (normalize_series_max_eq_min [num.of_Z 7; NaN; num.of_Z 7]).
  apply (constant_group_max_eq_min (Qc_of_Z 7)).
  - apply Forall_cons_2; [by right|].
    apply Forall_cons_2; [by left|].
    apply Forall_cons_2; [by right|]. apply Forall_nil_2.
  - left.
Defined.

(** ** Percentage of the maximum *)

Lemma isna_true (a : fnum) : num.isna a = true <-> a = NaN.
Proof. destruct a; done. Qed.

Lemma isna_false (a : fnum) : num.isna a = false <-> a <> NaN.
Proof. destruct a; done. Qed.

Lemma best_not_nan (better : fnum -> fnum -> bool) (s : list fnum) (x : fnum) :
  x ∈ s -> x <> NaN -> pd.best better s <> NaN.
Proof.
  intros Hin Hx. induction s as [|h s IH]; [by apply elem_of_nil in Hin|].
  destruct (num.isna h) eqn:Hh.
  - apply isna_true in Hh as ->. rewrite best_cons_nan.
    apply elem_of_cons in Hin as [->|Hin]; [done | by apply IH].
  - rewrite best_cons_valid by done. apply isna_false in Hh.
    destruct (num.isna (pd.best better s)) eqn:Hacc; [done|].
    apply isna_false in Hacc. by destruct (better h _).
Qed.

Lemma best_in (better : fnum -> fnum -> bool) (s : list fnum) :
  pd.best better s <> NaN -> pd.best better s ∈ s.
Proof.
  induction s as [|h s IH]; [done|].
  destruct (num.isna h) eqn:Hh.
  - apply isna_true in Hh as ->. rewrite best_cons_nan. intros. right. by apply IH.
  - rewrite best_cons_valid by done.
    destruct (num.isna (pd.best better s)) eqn:Hacc; [intros; left|].
    apply isna_false in Hacc. destruct (better h _); [intros; left | intros; right; by apply IH].
Qed.

Lemma max_upper (s : list fnum) (x : fnum) :
  x ∈ s -> x <> NaN -> num.leb x (pd.max s) = true.
Proof.
  unfold pd.max. intros Hin Hx. induction s as [|h s IH]; [by apply elem_of_nil in Hin|].
  destruct (num.isna h) eqn:Hh.
  - apply isna_true in Hh as ->. rewrite best_cons_nan.
    apply elem_of_cons in Hin as [->|Hin]; [done | by apply IH].
  - rewrite best_cons_valid by done. apply isna_false in Hh.
    destruct (num.isna (pd.best _ s)) eqn:Hacc.
    + apply isna_true in Hacc.
      apply elem_of_cons in Hin as [->|Hin]; [by apply leb_refl|].
      by destruct (best_not_nan (fun x acc => num.leb acc x) s x).
    + apply isna_false in Hacc.
      destruct (num.leb (pd.best _ s) h) eqn:Hle.
      * apply elem_of_cons in Hin as [->|Hin]; [by apply leb_refl|].
        eapply leb_trans; [by apply IH | done].
      * apply elem_of_cons in Hin as [->|Hin]; [by apply leb_total | by apply IH].
Qed.

Lemma max_attained (s : list fnum) : pd.max s <> NaN -> pd.max s ∈ s.
Proof. apply best_in. Qed.

Lemma ltb_zero_fin (m : Qc) : num.ltb (num.of_Z 0) (Fin m) = bool_decide (0 < m)%Qc.
Proof. cbn. by rewrite Qc_of_Z_0. Qed.

Lemma percent_of_fin (q m : Qc) :
  m <> 0%Qc -> (Fin q / Fin m * num.of_Z 100)%F = Fin (q / m * Qc_of_Z 100)%Qc.
Proof. intros Hm. cbn. by rewrite decide_False. Qed.

(** C5, as the code has it.  The normalization of the marketing and admin
    dashboards is the percentage of the group's own maximum: when the
    maximum [m] is positive, a value [v] goes to [v / m * 100], which is at
    most [100], and the maximum goes to [100]; when the group has no
    positive maximum every entry is [0].  The admin dashboard computes the
    same entry row by row. *)
Theorem normalized_percent_of_max (metric : string) (df : frame) :
  length (normalized metric df) = length df
  /\ (forall m : Qc, pd.max (pd.col metric df) = Fin m -> (0 < m)%Qc ->
        (forall (i : nat) (q : Qc), pd.col metric df !! i = Some (Fin q) ->
           normalized metric df !! i = Some (Fin (q / m * Qc_of_Z 100)%Qc)
           /\ (q / m * Qc_of_Z 100 <= Qc_of_Z 100)%Qc)
        /\ (exists i : nat, pd.col metric df !! i = Some (Fin m)
                            /\ normalized metric df !! i = Some (num.of_Z 100))
        /\ (forall r : row, normalized_value metric r df
                            = (pd.cell metric r / Fin m * num.of_Z 100)%F))
  /\ (num.ltb (num.of_Z 0) (pd.max (pd.col metric df)) = false ->
        normalized metric df = replicate (length df) (num.of_Z 0)
        /\ forall r : row, normalized_value metric r df = num.of_Z 0).
Proof.
  split; [|split].
  - unfold normalized, series_scale, series_over, pd.col.
    destruct (num.ltb _ _); by rewrite ?length_replicate, ?length_map.
  - intros m Hmax Hm.
    assert (m <> 0%Qc) as Hm0 by (intros ->; by apply Qclt_not_eq in Hm).
    assert (forall (i : nat) (q : Qc), pd.col metric df !! i = Some (Fin q) ->
              normalized metric df !! i = Some (Fin (q / m * Qc_of_Z 100)%Qc)) as Hval.
    { intros i q Hq. unfold normalized, series_scale, series_over.
      rewrite Hmax, ltb_zero_fin, bool_decide_eq_true_2 by done.
      rewrite !list_lookup_fmap, Hq. cbn [fmap option_fmap option_map].
      by rewrite percent_of_fin. }
    split; [|split].
    + intros i q Hq. split; [by apply Hval|].
      apply percent_le_100; [done|].
      assert (num.leb (Fin q) (pd.max (pd.col metric df)) = true) as Hle.
      { apply max_upper; [|done]. apply list_elem_of_lookup. eauto. }
      rewrite Hmax in Hle. by apply bool_decide_eq_true_1 in Hle.
    + assert (Fin m ∈ pd.col metric df) as Hin
        by (rewrite <- Hmax; apply max_attained; by rewrite Hmax).
      apply list_elem_of_lookup in Hin as [i Hi]. exists i. split; [done|].
      rewrite (Hval i m Hi). unfold num.of_Z. do 2 f_equal. field. done.
    + intros r. unfold normalized_value.
      by rewrite Hmax, ltb_zero_fin, bool_decide_eq_true_2.
  - intros Hle. unfold normalized, normalized_value. by rewrite Hle.
Qed.

(** [normalize_series] of utils.py, which no dashboard calls, is that
    rescale on a group whose maximum and minimum differ. *)
Lemma normalize_series_min_max (s : list fnum) :
  num.eqb (pd.max s) (pd.min s) = false -> normalize_series s = min_max_rescale s.
Proof. intros Hne. unfold normalize_series. by rewrite Hne. Qed.

Ltac by_computation := apply (bool_decide_eq_true_1 _); vm_compute; reflexivity.

Lemma Qc_100_pos : (0 < Qc_of_Z 100)%Qc.
Proof. by_computation. Qed.

Lemma quarterly_example_max :
  pd.max (pd.col "TotalProfitInTheQuarter" quarterly_example) = Fin (Qc_of_Z 100).
Proof. by_computation. Defined.

Lemma normalized_percent_of_max_witness :
  normalized "TotalProfitInTheQuarter" quarterly_example !! 0%nat
  = Some (Fin (Qc_of_Z 50 / Qc_of_Z 100 * Qc_of_Z 100)%Qc).
Proof.
  apply (proj1 (proj1 (proj2 (normalized_percent_of_max
                                "TotalProfitInTheQuarter" quarterly_example))
                      (Qc_of_Z 100) quarterly_example_max Qc_100_pos)
               0%nat (Qc_of_Z 50)).
  reflexivity.
Defined.

(** C5, as the specification states it, fails: on the group [50, 100],
    whose maximum and minimum differ, the dashboards map the minimum [50]
    to [50], where the min-max rescale maps it to [0]. *)
Lemma normalized_is_not_min_max_rescale :
  let s := pd.col "TotalProfitInTheQuarter" quarterly_example in
  s = [num.of_Z 50; num.of_Z 100]
  /\ num.eqb (pd.max s) (pd.min s) = false
  /\ normalized "TotalProfitInTheQuarter" quarterly_example = [num.of_Z 50; num.of_Z 100]
  /\ min_max_rescale s = [num.of_Z 0; num.of_Z 100]
  /\ normalized "TotalProfitInTheQuarter" quarterly_example <> min_max_rescale s.
Proof.
  cbv zeta. repeat split; by_computation.
Qed.

(** On a group of equal positive values the dashboards give [100] to each,
    where [normalize_series] gives [50]. *)
Example normalized_constant_group :
  let df : frame := [ {[ "TotalUsers" := SNum (num.of_Z 5) ]};
                      {[ "TotalUsers" := SNum (num.of_Z 5) ]} ] in
  normalized "TotalUsers" df = [num.of_Z 100; num.of_Z 100]
  /\ normalize_series (pd.col "TotalUsers" df) = [num.of_Z 50; num.of_Z 50].
Proof. split; by_computation. Qed.

(** ** Columns of a frame *)

Lemma cell_insert_eq (F : string) (x : fnum) (r : row) :
  pd.cell F (<[F := SNum x]> r) = x.
Proof. unfold pd.cell. by rewrite lookup_insert_eq. Qed.

Lemma cell_insert_ne (F G : string) (x : fnum) (r : row) :
  F <> G -> pd.cell G (<[F := SNum x]> r) = pd.cell G r.
Proof. intros Hne. unfold pd.cell. by rewrite lookup_insert_ne. Qed.

Lemma length_assign (F : string) (s : list fnum) (df : frame) :
  length s = length df -> length (pd.assign F s df) = length df.
Proof. intros Hlen. unfold pd.assign. rewrite length_zip_with. lia. Qed.

Lemma col_assign_eq (F : string) (s : list fnum) (df : frame) :
  length s = length df -> pd.col F (pd.assign F s df) = s.
Proof.
  unfold pd.col, pd.assign. revert s.
  induction df as [|r df IH]; intros [|x s] Hlen; try done.
  cbn. rewrite cell_insert_eq. f_equal. apply IH. by injection Hlen.
Qed.

Lemma col_assign_ne (F G : string) (s : list fnum) (df : frame) :
  F <> G -> length s = length df -> pd.col G (pd.assign F s df) = pd.col G df.
Proof.
  intros Hne. unfold pd.col, pd.assign. revert s.
  induction df as [|r df IH]; intros [|x s] Hlen; try done.
  cbn. rewrite cell_insert_ne by done. f_equal. apply IH. by injection Hlen.
Qed.

Lemma lookup_assign (F : string) (s : list fnum) (df : frame) (i : nat) (r : row) (x : fnum) :
  df !! i = Some r -> s !! i = Some x ->
  pd.assign F s df !! i = Some (<[F := SNum x]> r).
Proof.
  intros Hr Hx. unfold pd.assign. rewrite lookup_zip_with, Hr. cbn. by rewrite Hx.
Qed.

Lemma lookup_col (F : string) (df : frame) (i : nat) (r : row) :
  df !! i = Some r -> pd.col F df !! i = Some (pd.cell F r).
Proof. intros Hr. unfold pd.col. by rewrite list_lookup_fmap, Hr. Qed.

(** ** Share of the total *)

Lemma valid_fin (qs : list Qc) : pd.valid (Fin <$> qs) = Fin <$> qs.
Proof. unfold pd.valid. induction qs as [|q qs IH]; [done|]. cbn. by rewrite IH. Qed.

Lemma sum_fin (qs : list Qc) : pd.sum (Fin <$> qs) = Fin (total qs).
Proof.
  unfold pd.sum. rewrite valid_fin.
  induction qs as [|q qs IH]; cbn; [unfold num.of_Z; by rewrite Qc_of_Z_0|].
  by rewrite IH.
Qed.

Lemma shares_fin (qs : list Qc) (t : Qc) :
  t <> 0%Qc ->
  series_scale (series_over (Fin <$> qs) (Fin t)) (num.of_Z 100) = Fin <$> (share t <$> qs).
Proof.
  intros Ht. unfold series_scale, series_over. rewrite <- !list_fmap_compose.
  apply list_fmap_ext. intros _ q _. exact (percent_of_fin q t Ht).
Qed.

Lemma total_shares (qs : list Qc) (t : Qc) :
  t <> 0%Qc -> total (share t <$> qs) = (total qs / t * Qc_of_Z 100)%Qc.
Proof.
  intros Ht. induction qs as [|q qs IH]; [cbn; field; done|].
  change (total (share t <$> q :: qs)) with (share t q + total (share t <$> qs))%Qc.
  change (total (q :: qs)) with (q + total qs)%Qc.
  rewrite IH. unfold share. field. done.
Qed.

Lemma total_rounded_close (es : list Qc) :
  (total es - Qc_of_Z (Z.of_nat (length es)) * Q2Qc (1 # 200) <= total (round2_Qc <$> es)
   /\ total (round2_Qc <$> es) <= total es + Qc_of_Z (Z.of_nat (length es)) * Q2Qc (1 # 200))%Qc.
Proof.
  induction es as [|e es [IHlo IHhi]].
  - split; apply (bool_decide_eq_true_1 _); vm_compute; reflexivity.
  - cbn [length fmap list_fmap total foldr]. fold (total es). fold (total (round2_Qc <$> es)).
    destruct (round2_close e) as [Hlo Hhi]. fold (round2_Qc e) in Hlo, Hhi.
    rewrite Nat2Z.inj_succ. unfold Z.succ.
    generalize dependent (round2_Qc e). generalize dependent (total (round2_Qc <$> es)).
    generalize dependent (total es). intros.
    qc_to_q. rewrite inject_Z_plus in *. change (inject_Z 1) with 1%Q in *.
    generalize dependent (inject_Z (Z.of_nat (length es))).
    generalize dependent (this e). generalize dependent (this q).
    generalize dependent (this q0). generalize dependent (this q1). intros. split; lra.
Qed.

Lemma percentage_fin (qs : list Qc) :
  total qs <> 0%Qc ->
  percentage (Fin <$> qs) = Fin <$> (round2_Qc <$> (share (total qs) <$> qs)).
Proof.
  intros Ht. unfold percentage. rewrite sum_fin, shares_fin by done.
  rewrite <- !list_fmap_compose. apply list_fmap_ext. by intros _ q _.
Qed.




(** ** The highlighted maximum and minimum *)

Section argbest.

(** [R a b]: [b] is at least as good as [a]. *)
Variable R : fnum -> fnum -> bool.
Hypothesis R_refl : forall a, a <> NaN -> R a a = true.
Hypothesis R_total : forall a b, a <> NaN -> b <> NaN -> R a b = false -> R b a = true.
Hypothesis R_trans : forall a b c, R a b = true -> R b c = true -> R a c = true.

Lemma argbest_None (s : list fnum) :
  pd.argbest (fun x b => R b x) s = None <-> Forall (fun x => x = NaN) s.
Proof.
  induction s as [|x s IH]; [done|]. cbn.
  destruct (pd.argbest _ s) as [[j b]|].
  - split.
    + destruct (num.isna x); [done|]. by destruct (R b x).
    + intros Hall. apply Forall_cons_1 in Hall as [_ Hall]. by apply IH in Hall.
  - destruct (num.isna x) eqn:Hx; split; try done.
    + intros _. apply isna_true in Hx. apply Forall_cons_2; [done | by apply IH].
    + intros Hall. apply Forall_cons_1 in Hall as [-> _]. done.
Qed.

Lemma argbest_Some (s : list fnum) (i : nat) (b : fnum) :
  pd.argbest (fun x b => R b x) s = Some (i, b) ->
  s !! i = Some b /\ b <> NaN
  /\ (forall (j : nat) (x : fnum), s !! j = Some x -> x <> NaN -> R x b = true)
  /\ (forall (j : nat) (x : fnum),
        (j < i)%nat -> s !! j = Some x -> x <> NaN -> R b x = false).
Proof.
  revert i b. induction s as [|x s IH]; intros i b; [done|]. cbn.
  destruct (pd.argbest _ s) as [[j b']|] eqn:Hs.
  - destruct (IH j b' eq_refl) as (Hj & Hb' & Hmax & Hfirst).
    destruct (num.isna x) eqn:Hx.
    + intros [= <- <-]. apply isna_true in Hx as ->.
      split; [done|]. split; [done|]. split.
      * intros [|k] y Hy Hval; [by injection Hy as <- | by eapply Hmax].
      * intros [|k] y Hk Hy Hval; [by injection Hy as <-|].
        eapply Hfirst; [|done..]. lia.
    + apply isna_false in Hx. destruct (R b' x) eqn:Hbx.
      * intros [= <- <-]. split; [done|]. split; [done|]. split.
        -- intros [|k] y Hy Hval; [injection Hy as <-; by apply R_refl|].
           eapply R_trans; [by eapply Hmax | done].
        -- intros k y Hk. lia.
      * intros [= <- <-]. split; [done|]. split; [done|]. split.
        -- intros [|k] y Hy Hval; [injection Hy as <-; by apply R_total | by eapply Hmax].
        -- intros [|k] y Hk Hy Hval; [by injection Hy as <-|].
           eapply Hfirst; [|done..]. lia.
  - apply argbest_None in Hs.
    destruct (num.isna x) eqn:Hx; [done|]. apply isna_false in Hx.
    intros [= <- <-]. split; [done|]. split; [done|]. split.
    + intros [|k] y Hy Hval; [injection Hy as <-; by apply R_refl|].
      cbn in Hy. apply list_elem_of_lookup_2 in Hy.
      rewrite Forall_forall in Hs. by apply Hs in Hy.
    + intros k y Hk. lia.
Qed.

End argbest.

Lemma idxmax_first (s : list fnum) (i : nat) :
  pd.idxmax s = Some i ->
  exists b : fnum,
    s !! i = Some b /\ b <> NaN
    /\ (forall (j : nat) (x : fnum), s !! j = Some x -> x <> NaN -> num.leb x b = true)
    /\ (forall (j : nat) (x : fnum),
          (j < i)%nat -> s !! j = Some x -> x <> NaN -> num.leb b x = false).
Proof.
  unfold pd.idxmax. destruct (pd.argbest _ s) as [[j b]|] eqn:Hs; [|done].
  intros [= <-]. exists b.
  apply (argbest_Some num.leb leb_refl leb_total leb_trans s j b Hs).
Qed.

Lemma idxmin_first (s : list fnum) (i : nat) :
  pd.idxmin s = Some i ->
  exists b : fnum,
    s !! i = Some b /\ b <> NaN
    /\ (forall (j : nat) (x : fnum), s !! j = Some x -> x <> NaN -> num.leb b x = true)
    /\ (forall (j : nat) (x : fnum),
          (j < i)%nat -> s !! j = Some x -> x <> NaN -> num.leb x b = false).
Proof.
  unfold pd.idxmin. destruct (pd.argbest _ s) as [[j b]|] eqn:Hs; [|done].
  intros [= <-]. exists b.
  apply (argbest_Some (fun a b => num.leb b a)); [apply leb_refl | | | done].
  - intros a c Ha Hc. by apply leb_total.
  - intros a c d Hac Hcd. by eapply leb_trans.
Qed.

Lemma idxmax_None (s : list fnum) : pd.idxmax s = None <-> Forall (fun x => x = NaN) s.
Proof.
  unfold pd.idxmax. rewrite <- (argbest_None num.leb).
  by destruct (pd.argbest _ s).
Qed.

Lemma idxmin_None (s : list fnum) : pd.idxmin s = None <-> Forall (fun x => x = NaN) s.
Proof.
  unfold pd.idxmin. rewrite <- (argbest_None (fun a b => num.leb b a)).
  by destruct (pd.argbest _ s).
Qed.

Lemma has_number_not_all_nan (s : list fnum) :
  has_number s <-> ~ Forall (fun x => x = NaN) s.
Proof.
  split.
  - intros (x & Hx & Hv) Hall. rewrite Forall_forall in Hall. by apply Hv, Hall.
  - intros Hall. apply not_Forall_Exists in Hall; [|intros x; apply _].
    apply Exists_exists in Hall as (x & Hx & Hv). by exists x.
Qed.

Lemma idxmax_is_Some (s : list fnum) : is_Some (pd.idxmax s) <-> has_number s.
Proof.
  rewrite has_number_not_all_nan, <- idxmax_None.
  destruct (pd.idxmax s); split; done.
Qed.

Lemma idxmin_is_Some (s : list fnum) : is_Some (pd.idxmin s) <-> has_number s.
Proof.
  rewrite has_number_not_all_nan, <- idxmin_None.
  destruct (pd.idxmin s); split; done.
Qed.

Lemma max_min_indices_entries (category_metrics : frame)
    (max_indices min_indices : gmap string nat) :
  max_min_indices category_metrics = Some (max_indices, min_indices) ->
  (forall col : string,
     col ∈ ["OrderCount"; "TotalQuantitySold"; "TotalRevenue"; "AvgSellingPrice"] ->
     max_indices !! col = pd.idxmax (pd.col col category_metrics)
     /\ min_indices !! col = pd.idxmin (pd.col col category_metrics))
  /\ max_indices !! "AvgDiscountPercentage"
     = pd.idxmin (pd.col "AvgDiscountPercentage" category_metrics)
  /\ min_indices !! "AvgDiscountPercentage"
     = pd.idxmax (pd.col "AvgDiscountPercentage" category_metrics).
Proof.
  unfold max_min_indices.
  destruct (pd.idxmax (pd.col "OrderCount" category_metrics)) eqn:E1; [|done].
  destruct (pd.idxmax (pd.col "TotalQuantitySold" category_metrics)) eqn:E3; [|done].
  destruct (pd.idxmax (pd.col "TotalRevenue" category_metrics)) eqn:E5; [|done].
  destruct (pd.idxmax (pd.col "AvgSellingPrice" category_metrics)) eqn:E7; [|done].
  destruct (pd.idxmin (pd.col "OrderCount" category_metrics)) eqn:E2; [|done].
  destruct (pd.idxmin (pd.col "TotalQuantitySold" category_metrics)) eqn:E4; [|done].
  destruct (pd.idxmin (pd.col "TotalRevenue" category_metrics)) eqn:E6; [|done].
  destruct (pd.idxmin (pd.col "AvgSellingPrice" category_metrics)) eqn:E8; [|done].
  destruct (pd.idxmin (pd.col "AvgDiscountPercentage" category_metrics)) eqn:E9; [|done].
  destruct (pd.idxmax (pd.col "AvgDiscountPercentage" category_metrics)) eqn:E10; [|done].
  cbn. intros [= <- <-]. split; [|by rewrite !lookup_insert_eq].
  intros col Hcol.
  repeat (apply elem_of_cons in Hcol as [-> | Hcol]); [| | | |by apply elem_of_nil in Hcol].
  all: rewrite ?E1, ?E3, ?E5, ?E7, ?E2, ?E4, ?E6, ?E8; by simplify_map_eq.
Qed.

(** [max_indices] and [min_indices] are there exactly when each of the
    five columns holds a number. *)
Lemma max_min_indices_is_Some (category_metrics : frame) :
  is_Some (max_min_indices category_metrics)
  <-> forall F : string,
        F ∈ ["OrderCount"; "TotalQuantitySold"; "TotalRevenue"; "AvgSellingPrice";
             "AvgDiscountPercentage"] ->
        has_number (pd.col F category_metrics).
Proof.
  split.
  - intros [[max_indices min_indices] Hidx] F HF.
    destruct (max_min_indices_entries _ _ _ Hidx) as (Hfour & Hdmax & Hdmin).
    assert (is_Some (max_indices !! F)) as Hsome.
    { unfold max_min_indices in Hidx.
      destruct (pd.idxmax (pd.col "OrderCount" category_metrics)); [|done].
      destruct (pd.idxmax (pd.col "TotalQuantitySold" category_metrics)); [|done].
      destruct (pd.idxmax (pd.col "TotalRevenue" category_metrics)); [|done].
      destruct (pd.idxmax (pd.col "AvgSellingPrice" category_metrics)); [|done].
      destruct (pd.idxmin (pd.col "OrderCount" category_metrics)); [|done].
      destruct (pd.idxmin (pd.col "TotalQuantitySold" category_metrics)); [|done].
      destruct (pd.idxmin (pd.col "TotalRevenue" category_metrics)); [|done].
      destruct (pd.idxmin (pd.col "AvgSellingPrice" category_metrics)); [|done].
      destruct (pd.idxmin (pd.col "AvgDiscountPercentage" category_metrics)); [|done].
      destruct (pd.idxmax (pd.col "AvgDiscountPercentage" category_metrics)); [|done].
      cbn in Hidx. injection Hidx as <- <-.
      repeat (apply elem_of_cons in HF as [-> | HF]); [| | | | |by apply elem_of_nil in HF];
        by simplify_map_eq. }
    apply elem_of_cons in HF as [-> | HF];
      [apply idxmax_is_Some; destruct (Hfour "OrderCount") as [<- _];
         [by_computation | done]|].
    apply elem_of_cons in HF as [-> | HF];
      [apply idxmax_is_Some; destruct (Hfour "TotalQuantitySold") as [<- _];
         [by_computation | done]|].
    apply elem_of_cons in HF as [-> | HF];
      [apply idxmax_is_Some; destruct (Hfour "TotalRevenue") as [<- _];
         [by_computation | done]|].
    apply elem_of_cons in HF as [-> | HF];
      [apply idxmax_is_Some; destruct (Hfour "AvgSellingPrice") as [<- _];
         [by_computation | done]|].
    apply elem_of_cons in HF as [-> | HF]; [|by apply elem_of_nil in HF].
    apply idxmin_is_Some. by rewrite <- Hdmax.
  - intros Hall. unfold max_min_indices.
    destruct (proj2 (idxmax_is_Some _) (Hall "OrderCount" ltac:(by_computation)))
      as [? ->].
    destruct (proj2 (idxmax_is_Some _) (Hall "TotalQuantitySold" ltac:(by_computation)))
      as [? ->].
    destruct (proj2 (idxmax_is_Some _) (Hall "TotalRevenue" ltac:(by_computation)))
      as [? ->].
    destruct (proj2 (idxmax_is_Some _) (Hall "AvgSellingPrice" ltac:(by_computation)))
      as [? ->].
    destruct (proj2 (idxmin_is_Some _) (Hall "OrderCount" ltac:(by_computation)))
      as [? ->].
    destruct (proj2 (idxmin_is_Some _) (Hall "TotalQuantitySold" ltac:(by_computation)))
      as [? ->].
    destruct (proj2 (idxmin_is_Some _) (Hall "TotalRevenue" ltac:(by_computation)))
      as [? ->].
    destruct (proj2 (idxmin_is_Some _) (Hall "AvgSellingPrice" ltac:(by_computation)))
      as [? ->].
    destruct (proj2 (idxmin_is_Some _) (Hall "AvgDiscountPercentage" ltac:(by_computation)))
      as [? ->].
    destruct (proj2 (idxmax_is_Some _) (Hall "AvgDiscountPercentage" ltac:(by_computation)))
      as [? ->].
    done.
Qed.

(** C7.  [max_indices] and [min_indices] are found exactly when each of
    the five columns of the table holds a number.  For the discount
    column, the one the dashboard inverts, [max_indices] holds the
    [idxmin] and [min_indices] the [idxmax] of the column; for the four
    others [max_indices] holds the [idxmax] and [min_indices] the
    [idxmin]: the positions of an inverted column are those of a column
    that is not, swapped.  Both [idxmax] and [idxmin] are the first
    position, in row order, that holds the extremum, in the inverted call
    as in the other. *)
Theorem max_min_inverted_swaps :
  (forall category_metrics : frame,
     is_Some (max_min_indices category_metrics)
     <-> forall F : string,
           F ∈ ["OrderCount"; "TotalQuantitySold"; "TotalRevenue"; "AvgSellingPrice";
                "AvgDiscountPercentage"] ->
           has_number (pd.col F category_metrics))
  /\ (forall (category_metrics : frame) (max_indices min_indices : gmap string nat),
        max_min_indices category_metrics = Some (max_indices, min_indices) ->
        (max_indices !! "AvgDiscountPercentage"
         = pd.idxmin (pd.col "AvgDiscountPercentage" category_metrics)
         /\ min_indices !! "AvgDiscountPercentage"
            = pd.idxmax (pd.col "AvgDiscountPercentage" category_metrics))
        /\ (forall F : string,
              F ∈ ["OrderCount"; "TotalQuantitySold"; "TotalRevenue"; "AvgSellingPrice"] ->
              max_indices !! F = pd.idxmax (pd.col F category_metrics)
              /\ min_indices !! F = pd.idxmin (pd.col F category_metrics))
        /\ (max_min true (pd.col "AvgDiscountPercentage" category_metrics)
            = (mx ← max_indices !! "AvgDiscountPercentage";
               mn ← min_indices !! "AvgDiscountPercentage"; Some (mx, mn)))
        /\ forall F : string,
             F ∈ ["OrderCount"; "TotalQuantitySold"; "TotalRevenue"; "AvgSellingPrice"] ->
             max_min false (pd.col F category_metrics)
             = (mx ← max_indices !! F; mn ← min_indices !! F; Some (mx, mn)))
  /\ (forall s : list fnum, max_min true s = prod_swap <$> max_min false s)
  /\ (forall (s : list fnum) (i : nat), pd.idxmax s = Some i ->
        exists b : fnum,
          s !! i = Some b /\ b <> NaN
          /\ (forall (j : nat) (x : fnum), s !! j = Some x -> x <> NaN -> num.leb x b = true)
          /\ (forall (j : nat) (x : fnum),
                (j < i)%nat -> s !! j = Some x -> x <> NaN -> num.leb b x = false))
  /\ (forall (s : list fnum) (i : nat), pd.idxmin s = Some i ->
        exists b : fnum,
          s !! i = Some b /\ b <> NaN
          /\ (forall (j : nat) (x : fnum), s !! j = Some x -> x <> NaN -> num.leb b x = true)
          /\ (forall (j : nat) (x : fnum),
                (j < i)%nat -> s !! j = Some x -> x <> NaN -> num.leb x b = false)).
Proof.
  split; [exact max_min_indices_is_Some|].
  split; [|split; [|split; [exact idxmax_first | exact idxmin_first]]].
  - intros cm mx mn Hidx.
    destruct (max_min_indices_entries _ _ _ Hidx) as (Hfour & Hdmax & Hdmin).
    split; [done|]. split; [done|]. unfold max_min. split.
    + rewrite Hdmax, Hdmin.
      by destruct (pd.idxmin _), (pd.idxmax _).
    + intros F HF. destruct (Hfour F HF) as [-> ->].
      by destruct (pd.idxmax _), (pd.idxmin _).
  - intros s. unfold max_min. by destruct (pd.idxmax s), (pd.idxmin s).
Qed.

Example max_min_100_300_100 :
  max_min false [num.of_Z 100; num.of_Z 300; num.of_Z 100] = Some (1%nat, 0%nat)
  /\ max_min true [num.of_Z 100; num.of_Z 300; num.of_Z 100] = Some (0%nat, 1%nat).
Proof. split; vm_compute; reflexivity. Qed.

Lemma max_min_inverted_swaps_witness :
  is_Some (max_min_indices category_table_example)
  /\ let indices := default (∅, ∅) (max_min_indices category_table_example) in
     indices.1 !! "AvgDiscountPercentage"
     = pd.idxmin (pd.col "AvgDiscountPercentage" category_table_example)
     /\ indices.2 !! "AvgDiscountPercentage"
        = pd.idxmax (pd.col "AvgDiscountPercentage" category_table_example).
Proof.
  split.
  - apply (proj1 max_min_inverted_swaps category_table_example).
    intros F HF.
    repeat (apply elem_of_cons in HF as [-> | HF]); [| | | | |by apply elem_of_nil in HF];
      (eexists; split; [left | by_computation]).
  - apply (proj1 (proj2 max_min_inverted_swaps) category_table_example
             (default (∅, ∅) (max_min_indices category_table_example)).1
             (default (∅, ∅) (max_min_indices category_table_example)).2).
    by_computation.
Defined.

(** ** The procedure gateway *)

Lemma call_stored_procedure_body_gateway (conn : option connection) (proc_name : string)
    (params : list scalar) (t : list event) :
  cursor_works conn ->
  call_stored_procedure_body conn proc_name params t
  = (Ok (gateway_rows conn proc_name params), t ++ gateway_errors conn proc_name params).
Proof.
  destruct conn as [c|]; [|intros _; cbn; by rewrite app_nil_r].
  intros [Hcursor Hclose].
  unfold gateway_rows, gateway_errors, call_stored_procedure_body, try_finally, try_except,
    lift, emit, mbind, page_bind, mret, page_ret.
  rewrite Hcursor, Hclose.
  replace (match params with
           | [] => callproc c proc_name []
           | _ :: _ => callproc c proc_name params
           end) with (callproc c proc_name params) by (by destruct params).
  destruct (callproc c proc_name params) as [results|e]; [|done].
  destruct (fetch_all results) as [[|first rest]|e]; by rewrite ?app_nil_r.
Qed.

Lemma cache_get_None (now : Z) (c : cache) (k : key) :
  cache_get now c k = None <-> forall e : entry, c k = Some e -> (stored e + ttl <= now)%Z.
Proof.
  unfold cache_get. destruct (c k) as [e|].
  - destruct (decide (now < stored e + ttl)%Z) as [Hlive|Hdead].
    + split; [done|]. intros Hc. specialize (Hc e eq_refl). lia.
    + split; [|done]. intros _ e' [= <-]. lia.
  - split; [|done]. by intros _ e.
Qed.

Lemma cache_get_set (now : Z) (k : key) (e : entry) (c : cache) :
  (now < stored e + ttl)%Z -> cache_get now (cache_set k e c) k = Some e.
Proof.
  intros Hlive. unfold cache_get, cache_set.
  rewrite decide_True by done. by rewrite decide_True.
Qed.

Lemma cache_get_set_ne (now : Z) (k k' : key) (e : entry) (c : cache) :
  k' <> k -> cache_get now (cache_set k e c) k' = cache_get now c k'.
Proof. intros Hne. unfold cache_get, cache_set. by rewrite decide_False. Qed.

(** The body writes [st.error] messages alone, so that a hit replays what
    the miss before it wrote. *)
Lemma errors_gateway_errors (conn : option connection) (proc_name : string)
    (params : list scalar) :
  Error <$> errors (gateway_errors conn proc_name params)
  = gateway_errors conn proc_name params.
Proof.
  unfold gateway_errors. destruct conn as [c|]; [|done].
  destruct (callproc c proc_name params) as [results|e]; [|done].
  by destruct (fetch_all results).
Qed.



Example call_stored_procedure_on_a_failing_procedure :
  exists c' : cache,
    run (call_stored_procedure (at_time 0) no_cache
           (Some (open_connection (fun _ _ => Raise (Exn "ProgrammingError")) []))
           "UserTierAnalysis" [])
    = (Ok ([], c'), [Error "Stored procedure error: ProgrammingError"])
    /\ value <$> c' ("UserTierAnalysis", []) = Some [].
Proof. eexists. split; reflexivity. Qed.


(** ** The sections of a render *)

Lemma call_stored_procedure_gateway (clock : key -> Z) (c : cache)
    (conn : option connection) (proc_name : string) (params : list scalar)
    (t : list event) :
  cursor_works conn ->
  call_stored_procedure clock c conn proc_name params t
  = (Ok (answer clock c conn proc_name params, cache_after clock c conn proc_name params),
     t ++ answer_events clock c conn proc_name params).
Proof.
  intros Hconn. unfold call_stored_procedure, answer, cache_after, answer_events.
  destruct (cache_get _ c _) as [e|]; [done|].
  by rewrite call_stored_procedure_body_gateway.
Qed.

Lemma answer_cache_after (clock : key -> Z) (c : cache) (conn conn' : option connection)
    (proc_name proc_name' : string) (params params' : list scalar) :
  (proc_name', params') <> (proc_name, params) ->
  answer clock (cache_after clock c conn proc_name params) conn' proc_name' params'
  = answer clock c conn' proc_name' params'.
Proof.
  intros Hne. unfold answer, cache_after.
  destruct (cache_get _ c (proc_name, params)); [done|].
  by rewrite cache_get_set_ne.
Qed.

Lemma entered_app (t1 t2 : list event) : entered (t1 ++ t2) = entered t1 ++ entered t2.
Proof. apply omap_app. Qed.

Lemma entered_errors (msgs : list string) : entered (Error <$> msgs) = [].
Proof. induction msgs as [|msg msgs IH]; [done | exact IH]. Qed.

Lemma entered_gateway_errors (conn : option connection) (proc_name : string)
    (params : list scalar) :
  entered (gateway_errors conn proc_name params) = [].
Proof. rewrite <- errors_gateway_errors. apply entered_errors. Qed.

Lemma entered_answer_events (clock : key -> Z) (c : cache) (conn : option connection)
    (proc_name : string) (params : list scalar) :
  entered (answer_events clock c conn proc_name params) = [].
Proof.
  unfold answer_events.
  destruct (cache_get _ c _); [apply entered_errors | apply entered_gateway_errors].
Qed.

Lemma placeholders_app (t1 t2 : list event) :
  placeholders (t1 ++ t2) = placeholders t1 ++ placeholders t2.
Proof. apply omap_app. Qed.

Lemma placeholders_errors (msgs : list string) : placeholders (Error <$> msgs) = [].
Proof. induction msgs as [|msg msgs IH]; [done | exact IH]. Qed.

Lemma placeholders_answer_events (clock : key -> Z) (c : cache)
    (conn : option connection) (proc_name : string) (params : list scalar) :
  placeholders (answer_events clock c conn proc_name params) = [].
Proof.
  unfold answer_events. destruct (cache_get _ c _); [apply placeholders_errors|].
  rewrite <- errors_gateway_errors. apply placeholders_errors.
Qed.

Lemma run_bind {A B} (m : page A) (f : A -> page B) (t : list event) :
  (m ≫= f) t = match m t with
               | (Ok a, t') => f a t'
               | (Raise e, t') => (Raise e, t')
               end.
Proof. reflexivity. Qed.

Lemma run_emit (ev : event) (t : list event) : emit ev t = (Ok tt, t ++ [ev]).
Proof. reflexivity. Qed.

Lemma run_ret {A} (a : A) (t : list event) : mret (M := page) a t = (Ok a, t).
Proof. reflexivity. Qed.

Lemma run_fetch_categories (c : connection) (categories : frame) (t : list event) :
  cursor c = Ok tt -> close c = Ok tt -> execute c categories_query = Ok categories ->
  fetch_categories (Some c) t = (Ok categories, t).
Proof.
  intros Hcursor Hclose Hexecute.
  unfold fetch_categories, lift, mbind, page_bind, mret, page_ret.
  by rewrite Hcursor, Hexecute, Hclose.
Qed.

(** *** What stops a render *)

Section what_stops_a_render.

Variable clock : key -> Z.
Variable draw : string -> list frame -> outcome unit.

Lemma run_section_body (name : string) (frames : list frame) (t : list event) :
  section_body draw name frames t
  = match draw name frames with
    | Ok _ => (Ok tt, t ++ [Chart name])
    | Raise e => (Raise e, t)
    end.
Proof.
  unfold section_body, lift, emit, mbind, page_bind.
  by destruct (draw name frames) as [[]|e].
Qed.

Lemma inside_no_header {A} (m : page A) : inside_section draw m -> writes_no_header m.
Proof. intros Hm t. destruct (Hm t) as (r & evs & Heq & Hevs & _). eauto. Qed.

Lemma inside_ret {A} (a : A) : inside_section draw (mret a).
Proof. intros t. exists (Ok a), []. by rewrite app_nil_r. Qed.

Lemma inside_nothing : inside_section draw nothing.
Proof. apply inside_ret. Qed.

Lemma inside_emit (ev : event) : entered [ev] = [] -> inside_section draw (emit ev).
Proof. intros Hev t. exists (Ok tt), [ev]. done. Qed.

Lemma inside_draw (name : string) (frames : list frame) :
  inside_section draw (lift (draw name frames)).
Proof.
  intros t. exists (draw name frames), []. rewrite app_nil_r.
  split; [done|]. split; [done|]. intros e He. by exists name, frames.
Qed.

Lemma inside_bind {A B} (m : page A) (f : A -> page B) :
  inside_section draw m -> (forall a : A, inside_section draw (f a)) ->
  inside_section draw (m ≫= f).
Proof.
  intros Hm Hf t. destruct (Hm t) as (r & evs & Heq & Hevs & Hr).
  rewrite run_bind, Heq. destruct r as [a|e].
  - destruct (Hf a (t ++ evs)) as (r' & evs' & Heq' & Hevs' & Hr').
    exists r', (evs ++ evs'). rewrite Heq', app_assoc, entered_app, Hevs, Hevs'. done.
  - exists (Raise e), evs. split; [done|]. split; [done|].
    intros e' [= <-]. by apply Hr.
Qed.

Lemma inside_section_body (name : string) (frames : list frame) :
  inside_section draw (section_body draw name frames).
Proof.
  apply inside_bind; [apply inside_draw|]. intros _. by apply inside_emit.
Qed.

Lemma inside_if_rows {A} (rows : frame) (body otherwise : page A) :
  inside_section draw body -> inside_section draw otherwise ->
  inside_section draw (if_rows rows body otherwise).
Proof. by destruct rows. Qed.

Lemma inside_try_except {A} (body : page A) (handler : exn -> page A) :
  writes_no_header body -> (forall e : exn, inside_section draw (handler e)) ->
  inside_section draw (try_except body handler).
Proof.
  intros Hbody Hhandler t. unfold try_except.
  destruct (Hbody t) as (r & evs & -> & Hevs). destruct r as [a|e].
  - exists (Ok a), evs. done.
  - destruct (Hhandler e (t ++ evs)) as (r' & evs' & Heq' & Hevs' & Hr').
    exists r', (evs ++ evs'). by rewrite Heq', app_assoc, entered_app, Hevs, Hevs'.
Qed.

Lemma inside_call_stored_procedure (c : cache) (conn : option connection)
    (proc_name : string) (params : list scalar) :
  cursor_works conn ->
  inside_section draw (call_stored_procedure clock c conn proc_name params).
Proof.
  intros Hconn t. rewrite call_stored_procedure_gateway by done.
  eexists _, _. split; [reflexivity|]. split; [apply entered_answer_events | done].
Qed.

Lemma inside_fetch_categories (c : connection) (categories : frame) :
  cursor c = Ok tt -> close c = Ok tt -> execute c categories_query = Ok categories ->
  inside_section draw (fetch_categories (Some c)).
Proof.
  intros Hcursor Hclose Hexecute t.
  rewrite (run_fetch_categories c categories) by done.
  exists (Ok categories), []. by rewrite app_nil_r.
Qed.

Lemma renders_ret {A} (a : A) : renders draw [] (mret a).
Proof. intros t. exists (Ok a), []. by rewrite app_nil_r. Qed.

Lemma renders_inside {A B} (sections : list string) (m : page A) (f : A -> page B) :
  inside_section draw m -> (forall a : A, renders draw sections (f a)) ->
  renders draw sections (m ≫= f).
Proof.
  intros Hm Hf t. destruct (Hm t) as (r & evs & Heq & Hevs & Hr).
  rewrite run_bind, Heq. destruct r as [a|e].
  - destruct (Hf a (t ++ evs)) as (r' & evs' & Heq' & Hok & Hraise).
    exists r', (evs ++ evs'). rewrite Heq', app_assoc, entered_app, Hevs. done.
  - exists (Raise e), evs. split; [done|]. split; [done|].
    intros e' [= <-]. split; [by apply Hr|]. rewrite Hevs. apply prefix_nil.
Qed.

Lemma renders_subheader {B} (s : string) (sections : list string) (f : unit -> page B) :
  renders draw sections (f tt) ->
  renders draw (s :: sections) (emit (Subheader s) ≫= f).
Proof.
  intros Hf t. rewrite run_bind, run_emit.
  destruct (Hf (t ++ [Subheader s])) as (r & evs & Heq & Hok & Hraise).
  exists r, (Subheader s :: evs). rewrite Heq, <- app_assoc. split; [done|]. split.
  - intros a Ha. change (entered (Subheader s :: evs)) with (s :: entered evs).
    by rewrite (Hok a).
  - intros e He. destruct (Hraise e He) as [Hdraw Hprefix].
    split; [done|]. change (entered (Subheader s :: evs)) with (s :: entered evs).
    by apply prefix_cons.
Qed.

Lemma renders_after {A B} (sections : list string) (m : page A) (f : A -> page B)
    (a : A) :
  (forall t : list event, m t = (Ok a, t)) -> renders draw sections (f a) ->
  renders draw sections (m ≫= f).
Proof.
  intros Hm Hf t. rewrite run_bind, Hm. apply Hf.
Qed.

(** What a render that [renders] its sections says of a run. *)
Lemma renders_run {A} (sections : list string) (m : page A) :
  renders draw sections m ->
  (forall a : A, (run m).1 = Ok a -> entered (run m).2 = sections)
  /\ (forall e : exn,
        (run m).1 = Raise e ->
        raised_by draw e /\ entered (run m).2 `prefix_of` sections)
  /\ ((forall (name : string) (frames : list frame), draw name frames = Ok tt) ->
      (exists a : A, (run m).1 = Ok a) /\ entered (run m).2 = sections).
Proof.
  intros Hm. unfold run. destruct (Hm []) as (r & evs & -> & Hok & Hraise).
  cbn [fst snd app]. split; [done|]. split; [done|].
  intros Hdraw. destruct r as [a|e]; [eauto|].
  destruct (Hraise e eq_refl) as [(name & frames & He) _]. by rewrite Hdraw in He.
Qed.

End what_stops_a_render.

(** The steps of a render, from the head of the computation: the header
    of a section, a step inside a section, the end. *)
Ltac inside :=
  repeat first
    [ apply inside_ret
    | apply inside_nothing
    | apply inside_emit; reflexivity
    | apply inside_section_body
    | apply inside_draw
    | apply inside_call_stored_procedure; assumption
    | eapply inside_fetch_categories; eassumption
    | apply inside_if_rows
    | apply inside_try_except; [eapply inside_no_header | intros ?]
    | apply inside_bind; [|intros ?]
    | match goal with
      | |- inside_section _ (match ?x with _ => _ end) => destruct x
      | |- inside_section _ (let '(_, _) := ?x in _) => destruct x
      end
    | progress cbv beta iota zeta ].

Ltac rendering :=
  repeat first
    [ apply renders_ret
    | apply renders_subheader
    | apply renders_inside; [solve [inside] | intros ?]
    | match goal with
      | |- renders _ _ (match ?x with _ => _ end) => destruct x
      | |- renders _ _ (let '(_, _) := ?x in _) => destruct x
      end
    | progress cbv beta iota zeta ].

Section the_four_renders.

Variable clock : key -> Z.
Variable draw : string -> list frame -> outcome unit.

Lemma finance_dashboard_renders (conn : option connection) (start_date end_date : Z)
    (c : cache) :
  cursor_works conn ->
  renders draw finance_sections (finance_dashboard clock draw conn start_date end_date c).
Proof. intros Hconn. unfold finance_dashboard, finance_sections. rendering. Qed.

Lemma user_dashboard_renders (conn : option connection) (start_date end_date : Z)
    (c : cache) :
  cursor_works conn ->
  renders draw user_sections (user_dashboard clock draw conn start_date end_date c).
Proof. intros Hconn. unfold user_dashboard, user_sections. rendering. Qed.

Lemma admin_dashboard_renders (ui : widgets) (conn : connection) (categories : frame)
    (start_date end_date : Z) (c : cache) :
  cursor conn = Ok tt -> close conn = Ok tt ->
  execute conn categories_query = Ok categories ->
  renders draw admin_sections
    (admin_dashboard clock draw ui (Some conn) start_date end_date c).
Proof.
  intros Hcursor Hclose Hexecute.
  assert (cursor_works (Some conn)) as Hconn by done.
  unfold admin_dashboard, admin_sections. rendering.
Qed.

Lemma marketing_dashboard_renders (ui : widgets) (conn : connection)
    (categories : frame) (start_date end_date : Z) (c : cache) :
  cursor conn = Ok tt -> close conn = Ok tt ->
  execute conn categories_query = Ok categories -> categories <> [] ->
  renders draw marketing_sections
    (marketing_dashboard clock draw ui (Some conn) start_date end_date c).
Proof.
  intros Hcursor Hclose Hexecute Hne.
  assert (cursor_works (Some conn)) as Hconn by done.
  unfold marketing_dashboard, marketing_sections.
  apply renders_inside; [inside|]. intros _.
  apply (renders_after _ _ _ _ categories);
    [intros t; by apply run_fetch_categories|].
  destruct categories as [|cat cats]; [done|]. rendering.
Qed.

End the_four_renders.

(** *** The placeholders of a render whose bodies return *)

Section when_the_bodies_return.

Variable clock : key -> Z.
Variable draw : string -> list frame -> outcome unit.
Hypothesis draw_returns : forall (name : string) (frames : list frame),
  draw name frames = Ok tt.

Lemma run_if_rows_body_info (rows : frame) (name : string) (frames : list frame)
    (b : event) (t : list event) :
  if_rows rows (section_body draw name frames) (emit b) t
  = (Ok tt, t ++ shown rows [Chart name] [b]).
Proof. destruct rows; [done|]. cbn. by rewrite run_section_body, draw_returns. Qed.

Lemma run_if_rows_body (rows : frame) (name : string) (frames : list frame)
    (t : list event) :
  if_rows rows (section_body draw name frames) nothing t
  = (Ok tt, t ++ shown rows [Chart name] []).
Proof.
  destruct rows; [cbn; by rewrite app_nil_r|].
  cbn. by rewrite run_section_body, draw_returns.
Qed.

Lemma run_guarded_body (rows : frame) (name : string) (frames : list frame) (a : event)
    (handler : exn -> page unit) (t : list event) :
  try_except (_ ← lift (draw name frames); if_rows rows (emit a) nothing) handler t
  = (Ok tt, t ++ shown rows [a] []).
Proof.
  unfold try_except, lift, mbind, page_bind. rewrite draw_returns.
  destruct rows; [cbn; by rewrite app_nil_r | done].
Qed.

Lemma run_retention_section (retention_data : frame) (t : list event) :
  if_rows retention_data
    (_ ← section_body draw "User Retention Analysis" [retention_data];
     if_rows (List.filter (fun r : row => contains "-Total" (text "RegMonth" r))
                          retention_data)
       (section_body draw "Annual Retention Summary"
          [List.filter (fun r : row => contains "-Total" (text "RegMonth" r))
                       retention_data])
       (emit (Info "No retention data available for 2024.")))
    nothing t
  = (Ok tt,
     t ++ shown retention_data
            ([Chart "User Retention Analysis"]
               ++ shown (total_row retention_data)
                    [Chart "Annual Retention Summary"]
                    [Info "No retention data available for 2024."])
            []).
Proof.
  destruct retention_data as [|r rows]; [cbn; by rewrite app_nil_r|].
  unfold if_rows at 1.
  rewrite run_bind, run_section_body, draw_returns, run_if_rows_body_info.
  unfold shown at 1. by rewrite <- app_assoc.
Qed.

Lemma placeholders_chart_info (rows : frame) (a b : string) :
  placeholders (shown rows [Chart a] [Info b]) = when_empty rows b.
Proof. by destruct rows. Qed.

Lemma placeholders_chart (rows : frame) (a : string) :
  placeholders (shown rows [Chart a] []) = [].
Proof. by destruct rows. Qed.

Lemma placeholders_title (s : string) : placeholders [Title s] = [].
Proof. reflexivity. Qed.

Lemma placeholders_subheader (s : string) : placeholders [Subheader s] = [].
Proof. reflexivity. Qed.

Lemma placeholders_shown (rows : frame) (body otherwise : list event) :
  placeholders (shown rows body otherwise)
  = match rows with
    | _ :: _ => placeholders body
    | [] => placeholders otherwise
    end.
Proof. by destruct rows. Qed.

(** One step of a render whose bodies return: a bind, then the outcome of
    an [emit], of a gateway call, of a guarded section or of a
    [return]. *)
Ltac render_step :=
  first
    [ rewrite run_bind
    | rewrite run_emit
    | rewrite run_ret
    | rewrite run_if_rows_body_info
    | rewrite run_if_rows_body
    | rewrite run_guarded_body
    | rewrite call_stored_procedure_gateway by assumption
    | progress cbv beta iota ].

Ltac render := unfold run; repeat render_step.

Ltac shown_placeholders :=
  rewrite ?placeholders_app, ?placeholders_answer_events, ?placeholders_chart_info,
    ?placeholders_chart, ?placeholders_title, ?placeholders_subheader;
  rewrite ?app_nil_l, ?app_nil_r, ?answer_cache_after by done.

Lemma finance_dashboard_placeholders (conn : option connection) (start_date end_date : Z)
    (c : cache) :
  cursor_works conn ->
  placeholders (run (finance_dashboard clock draw conn start_date end_date c)).2
  = when_empty (answer clock c conn "PaymentMethodAnalysis" [])
               "No payment method data available."
    ++ when_empty (answer clock c conn "UserTierAnalysis" [])
                  "No user tier data available.".
Proof.
  intros Hconn. unfold finance_dashboard. render. cbn [snd].
  shown_placeholders. reflexivity.
Qed.

Lemma user_dashboard_placeholders (conn : option connection) (start_date end_date : Z)
    (c : cache) :
  cursor_works conn ->
  placeholders (run (user_dashboard clock draw conn start_date end_date c)).2
  = when_empty (answer clock c conn "ProvincialUserAnalysis" [])
               "No provincial data available."
    ++ match answer clock c conn "UserRetentionAnalysis" [SNum (num.of_Z 2024)] with
       | [] => []
       | _ :: _ =>
           when_empty (total_row (answer clock c conn "UserRetentionAnalysis"
                                         [SNum (num.of_Z 2024)]))
                      "No retention data available for 2024."
       end
    ++ when_empty (answer clock c conn "UserActivityAnalysis" [])
                  "No user activity data available.".
Proof.
  intros Hconn. unfold user_dashboard. render.
  rewrite run_retention_section. render. cbn [snd].
  shown_placeholders.
  rewrite placeholders_shown, ?app_nil_l, ?app_nil_r.
  rewrite <- app_assoc. do 2 f_equal.
  destruct (answer clock c conn "UserRetentionAnalysis" _); [done|].
  by rewrite placeholders_app, placeholders_chart_info.
Qed.

Lemma marketing_dashboard_placeholders (ui : widgets) (conn : connection)
    (categories : frame) (start_date end_date : Z) (c : cache) :
  cursor conn = Ok tt -> close conn = Ok tt ->
  execute conn categories_query = Ok categories -> categories <> [] ->
  let r := run (marketing_dashboard clock draw ui (Some conn) start_date end_date c) in
  let category_options := map (text "Category") categories in
  let period := discount_period ui start_date end_date in
  (exists c' : cache, r.1 = Ok (true, c'))
  /\ placeholders r.2
     = when_empty (answer clock c (Some conn) "AnalyzeDiscountProfitability"
                     [SStr (selectbox ui "discount_category" category_options);
                      date period.1; date period.2])
                  ("No discount data available for "
                     +:+ selectbox ui "discount_category" category_options
                     +:+ " in the selected period.")
       ++ when_empty (answer clock c (Some conn) "QuarterlySalesAnalysis"
                        [SStr (selectbox ui "quarterly_category" category_options)])
                     ("No quarterly sales data available for "
                        +:+ selectbox ui "quarterly_category" category_options +:+ ".")
       ++ when_empty (answer clock c (Some conn) "ProductPriceElasticityAnalysis"
                        [SStr (selectbox ui "elasticity_category" category_options)])
                     ("No price elasticity data available for "
                        +:+ selectbox ui "elasticity_category" category_options +:+ ".").
Proof.
  intros Hcursor Hclose Hexecute Hne r category_options period.
  subst r category_options period.
  assert (cursor_works (Some conn)) as Hconn by done.
  unfold marketing_dashboard. render.
  rewrite (run_fetch_categories conn categories) by done. render.
  destruct categories as [|cat cats]; [done|].
  change (match date_input ui "discount_period" (start_date, end_date) with
          | [period_start; period_end] => (period_start, period_end)
          | _ => (start_date, end_date)
          end) with (discount_period ui start_date end_date).
  destruct (discount_period ui start_date end_date) as [period_start period_end].
  render. cbn [fst snd]. split; [eauto|].
  shown_placeholders. by rewrite <- ?app_assoc.
Qed.

End when_the_bodies_return.

(** *** A body that raises stops the render *)

Lemma finance_dashboard_stops (clock : key -> Z)
    (draw : string -> list frame -> outcome unit) (conn : option connection)
    (start_date end_date : Z) (c : cache) (e : exn) :
  cursor_works conn ->
  answer clock c conn "MonthlyRevenueTrendAnalysis" [] <> [] ->
  draw "Monthly Revenue Trend" [answer clock c conn "MonthlyRevenueTrendAnalysis" []]
  = Raise e ->
  let r := run (finance_dashboard clock draw conn start_date end_date c) in
  r.1 = Raise e /\ entered r.2 = ["Monthly Revenue Trend"].
Proof.
  intros Hconn Hrows Hdraw r. subst r. unfold run, finance_dashboard.
  rewrite run_bind, run_emit. cbv beta iota. rewrite run_bind, run_emit. cbv beta iota.
  rewrite run_bind, call_stored_procedure_gateway by done. cbv beta iota.
  destruct (answer clock c conn "MonthlyRevenueTrendAnalysis" []) as [|r rows]; [done|].
  rewrite run_bind. unfold if_rows. rewrite run_section_body, Hdraw. cbn [fst snd].
  split; [done|]. by rewrite !entered_app, entered_answer_events.
Qed.

Lemma user_dashboard_stops (clock : key -> Z)
    (draw : string -> list frame -> outcome unit) (conn : option connection)
    (start_date end_date : Z) (c : cache) (e : exn) :
  cursor_works conn ->
  answer clock c conn "ProvincialUserAnalysis" [] <> [] ->
  draw "User Distribution by Province" [answer clock c conn "ProvincialUserAnalysis" []]
  = Raise e ->
  let r := run (user_dashboard clock draw conn start_date end_date c) in
  r.1 = Raise e /\ entered r.2 = ["User Distribution by Province"].
Proof.
  intros Hconn Hrows Hdraw r. subst r. unfold run, user_dashboard.
  rewrite run_bind, run_emit. cbv beta iota. rewrite run_bind, run_emit. cbv beta iota.
  rewrite run_bind, call_stored_procedure_gateway by done. cbv beta iota.
  destruct (answer clock c conn "ProvincialUserAnalysis" []) as [|r rows]; [done|].
  rewrite run_bind. unfold if_rows. rewrite run_section_body, Hdraw. cbn [fst snd].
  split; [done|]. by rewrite !entered_app, entered_answer_events.
Qed.




(** ** The formatters *)

Lemma uint_chars_digits (u : Decimal.uint) : Forall (fun c => c ∈ digit_chars) (uint_chars u).
Proof.
  induction u; cbn; constructor; try done;
    apply list_elem_of_In; cbn; tauto.
Qed.

Lemma digit_in_digit_chars (d : N) : digit d ∈ digit_chars.
Proof.
  unfold digit. apply list_elem_of_In.
  destruct (nth_in_or_default (N.to_nat d) digit_chars "0"%char) as [Hin | ->]; [done|].
  by left.
Qed.

Lemma group3_chars (P : ascii -> Prop) (ds : list ascii) :
  P ","%char -> Forall P ds -> Forall P (group3 ds).
Proof.
  intros Hcomma. remember (length ds) as n eqn:Hn. revert ds Hn.
  induction (lt_wf n) as [n _ IH]. intros ds -> Hds.
  destruct ds as [|a [|b [|c [|d rest]]]]; try done.
  apply Forall_cons_1 in Hds as [Ha Hds]. apply Forall_cons_1 in Hds as [Hb Hds].
  apply Forall_cons_1 in Hds as [Hc Hds].
  change (group3 (a :: b :: c :: d :: rest))
    with (a :: b :: c :: ","%char :: group3 (d :: rest)).
  repeat (apply Forall_cons_2; [done|]).
  eapply IH; [|reflexivity|done]. cbn. lia.
Qed.

Lemma grouped_chars (P : ascii -> Prop) (ds : list ascii) :
  P ","%char -> Forall P ds -> Forall P (grouped ds).
Proof.
  intros Hcomma Hds. unfold grouped.
  apply Forall_rev, group3_chars; [done | by apply Forall_rev].
Qed.

Lemma digit_number_of_digit (d : N) : (d < 10)%N -> digit_number (digit d) = Some d.
Proof.
  intros Hd.
  assert (exists k : nat, (k < 10)%nat /\ d = N.of_nat k) as (k & Hk & ->)
    by (exists (N.to_nat d); lia).
  unfold digit. rewrite Nat2N.id.
  do 10 (destruct k as [|k]; [reflexivity|]). lia.
Qed.

Lemma digit_chars_value (c : ascii) : c ∈ digit_chars <-> is_Some (digit_number c).
Proof.
  split.
  - intros Hc%list_elem_of_In. cbn in Hc.
    repeat (destruct Hc as [<- | Hc]; [by eexists|]). done.
  - intros [d Hd]. unfold digit_number in Hd. apply list_elem_of_In.
    repeat (destruct (decide _) as [-> | _] in Hd; [cbn; tauto|]). done.
Qed.

Lemma digit_is_no_comma (c : ascii) : c ∈ digit_chars -> c <> ","%char.
Proof. intros Hc%digit_chars_value ->. by destruct Hc. Qed.

Lemma number_lsd_uint_chars (u : Decimal.uint) :
  number_lsd (uint_chars u) = Some (DecimalPos.Unsigned.of_lu u).
Proof. induction u; [done | cbn [uint_chars number_lsd]; by rewrite IHu ..]. Qed.

Lemma uint_chars_revapp (u u' : Decimal.uint) :
  uint_chars (Decimal.revapp u u') = rev (uint_chars u) ++ uint_chars u'.
Proof.
  revert u'. induction u; intros u'; [done | cbn; rewrite IHu, <- app_assoc; done ..].
Qed.

Lemma number_of_digits (n : N) : number_of (digits n) = Some n.
Proof.
  unfold number_of, digits.
  rewrite <- (app_nil_r (rev _)).
  change [] with (uint_chars Decimal.Nil). rewrite <- uint_chars_revapp.
  change (Decimal.revapp (N.to_uint n) Decimal.Nil) with (Decimal.rev (N.to_uint n)).
  rewrite number_lsd_uint_chars, <- DecimalPos.Unsigned.of_uint_alt.
  f_equal. apply DecimalN.Unsigned.of_to.
Qed.

Lemma number_of_two_more (ds : list ascii) (n a b : N) :
  number_of ds = Some n -> (a < 10)%N -> (b < 10)%N ->
  number_of (ds ++ [digit a; digit b]) = Some (100 * n + 10 * a + b)%N.
Proof.
  unfold number_of. intros Hn Ha Hb. rewrite rev_app_distr. cbn [rev app number_lsd].
  rewrite !digit_number_of_digit, Hn by done. cbn [mbind option_bind]. f_equal. lia.
Qed.

Lemma digits_nonempty (n : N) : digits n <> [].
Proof.
  unfold digits. destruct n as [|p]; [done|]. cbn.
  pose proof (DecimalPos.Unsigned.to_uint_nonnil p) as Hp.
  by destruct (Pos.to_uint p).
Qed.

Lemma filter_rev {A : Type} (P : A -> Prop) `{!forall x, Decision (P x)} (l : list A) :
  filter P (rev l) = rev (filter P l).
Proof.
  induction l as [|x l IH]; [done|]. cbn [rev].
  rewrite filter_app, IH, filter_cons.
  destruct (decide (P x)).
  - rewrite filter_cons_True by done. reflexivity.
  - rewrite filter_cons_False, app_nil_r by done. reflexivity.
Qed.

Lemma ungrouped_id (l : list ascii) :
  Forall (fun c => c <> ","%char) l -> ungrouped l = l.
Proof.
  unfold ungrouped. induction 1 as [|c l Hc Hl IH]; [done|].
  rewrite filter_cons_True by done. by rewrite IH.
Qed.

Lemma no_comma_at (l : list ascii) (i : nat) :
  Forall (fun c => c <> ","%char) l -> (length l <= 3)%nat ->
  l !! i = Some ","%char <-> (i < length l)%nat /\ i mod 4 = 3.
Proof.
  intros Hl Hlen. split.
  - intros Hi%list_elem_of_lookup_2. rewrite Forall_forall in Hl. by destruct (Hl _ Hi).
  - intros [Hi Hmod]. rewrite Nat.mod_small in Hmod by lia. lia.
Qed.

(** What [group3] does to a numeral: it leaves the digits in their
    order, puts a comma after every third of them that is not the last,
    and ends with the last digit. *)
Lemma group3_spec (ds : list ascii) :
  Forall (fun c => c <> ","%char) ds ->
  ungrouped (group3 ds) = ds
  /\ (forall i : nat,
        group3 ds !! i = Some ","%char <-> (i < length (group3 ds))%nat /\ i mod 4 = 3)
  /\ last (group3 ds) = last ds.
Proof.
  remember (length ds) as n eqn:Hn. revert ds Hn.
  induction (lt_wf n) as [n _ IH]. intros ds -> Hds.
  destruct ds as [|a [|b [|c [|d rest]]]];
    try (split; [by apply ungrouped_id | split; [|done]];
         intros i; apply no_comma_at; [done | cbn; lia]).
  change (group3 (a :: b :: c :: d :: rest))
    with (a :: b :: c :: ","%char :: group3 (d :: rest)).
  apply Forall_cons_1 in Hds as [Ha Hds]. apply Forall_cons_1 in Hds as [Hb Hds].
  apply Forall_cons_1 in Hds as [Hc Hds].
  destruct (IH (length (d :: rest)) ltac:(cbn; lia) (d :: rest) eq_refl Hds)
    as (Hun & Hat & Hlast).
  split; [|split].
  - unfold ungrouped in *.
    rewrite !filter_cons_True, filter_cons_False, Hun by (done || tauto). reflexivity.
  - intros i. destruct i as [|[|[|[|i]]]]; cbn [lookup list_lookup length].
    + split; [intros [= ->]; done | intros [_ Hmod]; done].
    + split; [intros [= ->]; done | intros [_ Hmod]; done].
    + split; [intros [= ->]; done | intros [_ Hmod]; done].
    + split; [intros _; split; [lia | done] | done].
    + change (S (S (S (S i)))) with (4 + i)%nat.
      replace ((4 + i) mod 4) with (i mod 4)
        by (rewrite <- (Nat.Div0.mod_add i 1 4); f_equal; lia).
      rewrite (Hat i). split; intros [Hi Hmod]; (split; [lia | done]).
  - destruct (group3 (d :: rest)) as [|x l] eqn:Hg.
    + apply (f_equal ungrouped) in Hg. by rewrite Hun in Hg.
    + by rewrite !last_cons_cons.
Qed.

Lemma head_rev {A : Type} (l : list A) : head (rev l) = last l.
Proof. rewrite rev_alt. apply head_reverse. Qed.

Lemma last_rev {A : Type} (l : list A) : last (rev l) = head l.
Proof. rewrite rev_alt. apply last_reverse. Qed.

Lemma grouped_spec (ds : list ascii) :
  Forall (fun c => c <> ","%char) ds ->
  ungrouped (grouped ds) = ds
  /\ (forall i : nat,
        rev (grouped ds) !! i = Some ","%char
        <-> (i < length (grouped ds))%nat /\ i mod 4 = 3)
  /\ head (grouped ds) = head ds.
Proof.
  intros Hds. unfold grouped.
  assert (Forall (fun c => c <> ","%char) (rev ds)) as Hrev by (by apply Forall_rev).
  destruct (group3_spec (rev ds) Hrev) as (Hun & Hat & Hlast).
  split; [|split].
  - unfold ungrouped in *. by rewrite filter_rev, Hun, rev_involutive.
  - intros i. rewrite rev_involutive, length_rev. apply Hat.
  - by rewrite head_rev, Hlast, last_rev.
Qed.

Lemma rint_nonneg (x : Qc) : (0 <= x)%Qc -> (0 <= num.rint x)%Z.
Proof.
  intros Hx. unfold num.rint.
  assert (0 <= Qfloor x)%Z as Hf.
  { change 0%Z with (Qfloor 0). by apply Qfloor_resp_le. }
  repeat destruct (decide _); try destruct (Z.even _); lia.
Qed.

(** A formatted finite number: the sign, the integer digits, grouped by
    three from the right when [comma] asks for it, the point and two
    decimals; the digits write the number of cents. *)
Lemma fixed2_spec (q : Qc) :
  let negative := bool_decide (q < 0)%Qc in
  let sign := if negative then ["-"%char] else [] in
  let magnitude := if negative then (- q)%Qc else q in
  let cents := Z.to_N (num.rint (magnitude * Qc_of_Z 100)) in
  exists (whole : list ascii) (d1 d2 : ascii),
    fixed2 true q = sign ++ whole ++ ["."%char; d1; d2]
    /\ fixed2 false q = sign ++ ungrouped whole ++ ["."%char; d1; d2]
    /\ number_of (ungrouped whole ++ [d1; d2]) = Some cents
    /\ (forall i : nat,
          rev whole !! i = Some ","%char <-> (i < length whole)%nat /\ i mod 4 = 3)
    /\ (exists c : ascii, head whole = Some c /\ c ∈ digit_chars)
    /\ Forall (fun c => c ∈ digit_chars \/ c = ","%char) whole.
Proof.
  intros negative sign magnitude cents.
  assert (Forall (fun c => c ∈ digit_chars) (digits (cents / 100))) as Hdigits
    by apply uint_chars_digits.
  assert (Forall (fun c => c <> ","%char) (digits (cents / 100))) as Hplain.
  { eapply Forall_impl; [exact Hdigits|]. apply digit_is_no_comma. }
  destruct (grouped_spec _ Hplain) as (Hun & Hat & Hhead).
  exists (grouped (digits (cents / 100))), (digit (cents / 10 mod 10)), (digit (cents mod 10)).
  split; [reflexivity|]. split; [by rewrite Hun|]. split; [|split; [done|split]].
  - rewrite Hun.
    rewrite (number_of_two_more _ (cents / 100))
      by (apply number_of_digits || apply N.mod_lt; done).
    f_equal. replace (cents / 100)%N with (cents / 10 / 10)%N
      by (by rewrite N.Div0.div_div).
    pose proof (N.div_mod cents 10 ltac:(done)) as H1.
    pose proof (N.div_mod (cents / 10) 10 ltac:(done)) as H2. lia.
  - rewrite Hhead. pose proof (digits_nonempty (cents / 100)) as Hne.
    destruct (digits (cents / 100)) as [|c ds]; [done|].
    exists c. split; [done|]. by apply Forall_cons_1 in Hdigits as [Hc _].
  - apply grouped_chars; [by right|].
    eapply Forall_impl; [exact Hdigits|]. intros c Hc. by left.
Qed.

Lemma cents_close (x : Qc) :
  (0 <= x)%Qc ->
  (x - Q2Qc (1 # 2) <= Qc_of_Z (Z.of_N (Z.to_N (num.rint x)))
   /\ Qc_of_Z (Z.of_N (Z.to_N (num.rint x))) <= x + Q2Qc (1 # 2))%Qc.
Proof.
  intros Hx. rewrite Z2N.id by (by apply rint_nonneg). apply rint_close.
Qed.



Example format_currency_1234_5 :
  format_currency (SNum (Fin (Q2Qc (12345 # 10)))) = Ok "$1,234.50".
Proof. vm_compute. reflexivity. Qed.

Example format_currency_negative :
  format_currency (SNum (Fin (Q2Qc (-1234567891 # 1000)))) = Ok "$-1,234,567.89".
Proof. vm_compute. reflexivity. Qed.

Example format_percentage_half_even :
  format_percentage (SNum (Fin (Q2Qc (125 # 1000)))) = Ok "0.12%".
Proof. vm_compute. reflexivity. Qed.


(** ** Sorting *)

Lemma key_leb_total (asc : bool) (a b : fnum) :
  pd.key_leb asc a b = false -> pd.key_leb asc b a = true.
Proof.
  destruct a as [x| | |], b as [y| | |], asc; cbn; try done.
  all: intros Hab; apply (leb_total (Fin _) (Fin _)); done.
Qed.

Lemma Sorted_col (by_ : string) (asc : bool) (df : frame) :
  Sorted (pd.row_le by_ asc) df
  <-> Sorted (fun a b => pd.key_leb asc a b = true) (pd.col by_ df).
Proof.
  unfold pd.col. induction df as [|r df IH]; [split; constructor|].
  split; intros Hs; apply Sorted_inv in Hs as [Hs Hhd].
  - cbn. constructor; [by apply IH|]. destruct Hhd; constructor. done.
  - constructor; [by apply IH|]. destruct df; constructor.
    by apply HdRel_inv in Hhd.
Qed.

Lemma Sorted_assign (by_ F : string) (asc : bool) (s : list fnum) (df : frame) :
  F <> by_ -> length s = length df ->
  Sorted (pd.row_le by_ asc) df -> Sorted (pd.row_le by_ asc) (pd.assign F s df).
Proof. intros Hne Hlen. rewrite !Sorted_col. by rewrite col_assign_ne. Qed.

(** Insertion sort gives a permutation of its input, sorted when [before]
    agrees with the order.  The two sorts of the examples differ on a tie
    only: one puts a row before its equals, which keeps the order of the
    input, the other after them, which reverses it. *)
Section insertion.

Variable before : row -> row -> bool.

Lemma insert_row_perm (r : row) (sorted : frame) : insert_row before r sorted ≡ₚ r :: sorted.
Proof.
  induction sorted as [|r' rest IH]; [done|]. cbn.
  destruct (before r r'); [done|]. rewrite IH. apply Permutation_swap.
Qed.

Lemma insertion_sort_perm (df : frame) : insertion_sort before df ≡ₚ df.
Proof.
  induction df as [|r df IH]; [done|]. cbn. rewrite insert_row_perm. by constructor.
Qed.

Variable le : row -> row -> Prop.
Hypothesis before_le : forall r r', before r r' = true -> le r r'.
Hypothesis not_before_le : forall r r', before r r' = false -> le r' r.

Lemma insert_row_sorted (r : row) (sorted : frame) :
  Sorted le sorted -> Sorted le (insert_row before r sorted).
Proof.
  induction sorted as [|r' rest IH]; intros Hs; [by repeat constructor|]. cbn.
  destruct (before r r') eqn:Hb.
  - constructor; [done|]. constructor. by apply before_le.
  - apply Sorted_inv in Hs as [Hs Hhd]. constructor; [by apply IH|].
    destruct rest as [|r'' rest]; cbn.
    + constructor. by apply not_before_le.
    + destruct (before r r''); constructor.
      * by apply not_before_le.
      * by apply HdRel_inv in Hhd.
Qed.

Lemma insertion_sort_sorted (df : frame) : Sorted le (insertion_sort before df).
Proof. induction df as [|r df IH]; [constructor|]. cbn. by apply insert_row_sorted. Qed.

End insertion.

(** pandas with a stable sort. *)
Definition stable_pandas : Pandas.
Proof.
  refine {| to_datetime := parse_date;
            sort_values := fun by_ asc =>
              insertion_sort (fun r r' => pd.key_leb asc (pd.cell by_ r) (pd.cell by_ r')) |}.
  - intros by_ asc df. apply insertion_sort_perm.
  - intros by_ asc df. apply insertion_sort_sorted.
    + intros r r' Hb. exact Hb.
    + intros r r' Hb. by apply key_leb_total.
Defined.

(** pandas with a sort that is not stable: equal keys come out in the
    reverse of their input order. *)
Definition tie_reversing_pandas : Pandas.
Proof.
  refine {| to_datetime := parse_date;
            sort_values := fun by_ asc =>
              insertion_sort
                (fun r r' => negb (pd.key_leb asc (pd.cell by_ r') (pd.cell by_ r))) |}.
  - intros by_ asc df. apply insertion_sort_perm.
  - intros by_ asc df. apply insertion_sort_sorted.
    + intros r r' Hb. apply key_leb_total. by apply negb_true_iff in Hb.
    + intros r r' Hb. by apply negb_false_iff in Hb.
Defined.

Lemma key_leb_trans (asc : bool) (a b c : fnum) :
  pd.key_leb asc a b = true -> pd.key_leb asc b c = true -> pd.key_leb asc a c = true.
Proof.
  destruct a as [x| | |], b as [y| | |], c as [z| | |], asc; cbn; try done.
  - apply (leb_trans (Fin x) (Fin y) (Fin z)).
  - intros Hab Hbc. by apply (leb_trans (Fin z) (Fin y) (Fin x)).
Qed.

#[local] Instance row_le_trans (by_ : string) (asc : bool) : Transitive (pd.row_le by_ asc).
Proof. intros r1 r2 r3. apply key_leb_trans. Qed.

(** ** Top 10 *)



(** With a stable sort, such as [kind='stable'] would ask for, equal values
    do stay in input order. *)
Lemma key_leb_refl (asc : bool) (a : fnum) : pd.key_leb asc a a = true.
Proof. destruct a, asc; try done; by apply (leb_refl (Fin _)). Qed.

Lemma stable_insert_filter (F : string) (asc : bool) (k : fnum) (r : row) (sorted : frame) :
  filter (fun r : row => pd.cell F r = k)
         (insert_row (fun r r' => pd.key_leb asc (pd.cell F r) (pd.cell F r')) r sorted)
  = filter (fun r : row => pd.cell F r = k) (r :: sorted).
Proof.
  induction sorted as [|r' rest IH]; [done|]. cbn [insert_row].
  destruct (pd.key_leb asc (pd.cell F r) (pd.cell F r')) eqn:Hb; [done|].
  rewrite (filter_cons _ r'), IH, !(filter_cons _ r), (filter_cons _ r').
  destruct (decide (pd.cell F r = k)) as [Hr|Hr], (decide (pd.cell F r' = k)) as [Hr'|Hr'];
    try done.
  rewrite Hr, Hr', key_leb_refl in Hb. done.
Qed.

Lemma stable_sort_keeps_ties (F : string) (asc : bool) (k : fnum) (df : frame) :
  filter (fun r : row => pd.cell F r = k) (@sort_values stable_pandas F asc df)
  = filter (fun r : row => pd.cell F r = k) df.
Proof.
  cbn. induction df as [|r df IH]; [done|].
  cbn [insertion_sort foldr]. fold (insertion_sort
    (fun r r' => pd.key_leb asc (pd.cell F r) (pd.cell F r')) df).
  by rewrite stable_insert_filter, !(filter_cons _ r), IH.
Qed.

Lemma top_n_stable_keeps_ties (F : string) (R : frame) :
  ties_in_input_order F R (@top_n stable_pandas F 10 R).
Proof.
  intros k. unfold top_n, pd.head.
  rewrite <- (stable_sort_keeps_ties F false k R).
  rewrite <- (take_drop 10 (@sort_values stable_pandas F false R)) at 2.
  rewrite filter_app. by apply sublist_inserts_r.
Qed.

Example top_n_stable_example :
  text "Province" <$> @top_n stable_pandas "UserCount" 10 provinces_example
  = ["Guangdong"; "Anhui"; "Beijing"].
Proof. vm_compute. reflexivity. Qed.

Lemma not_sublist_swapped {A} (x y : A) : x <> y -> ~ [y; x] `sublist_of` [x; y].
Proof.
  intros Hne Hsub. inversion Hsub as [| ? ? ? Hrest | ? ? ? Hrest]; subst; [done|].
  apply sublist_length in Hrest. cbn in Hrest. lia.
Qed.


(** ** Periods are sorted before a delta is taken *)

Lemma Forall_assign (P : row -> Prop) (F : string) (s : list fnum) (df : frame) :
  (forall (r : row) (x : fnum), P r -> P (<[F := SNum x]> r)) ->
  Forall P df -> Forall P (pd.assign F s df).
Proof.
  intros HP Hdf. unfold pd.assign. revert s.
  induction Hdf as [|r df Hr Hdf IH]; intros [|x s]; cbn; try done.
  constructor; [by apply HP | apply IH].
Qed.

Section periods.

Context `{Pandas}.

Lemma month_dates_length (df : frame) (dates : list fnum) :
  mapM (fun r : row => month_start (r !! "Month")) df = Some dates ->
  length dates = length df.
Proof. intros Hdates. symmetry. by eapply length_mapM. Qed.

Lemma month_dates_keyed (df : frame) (dates : list fnum) :
  mapM (fun r : row => month_start (r !! "Month")) df = Some dates ->
  Forall keyed_by_month (pd.assign "MonthDate" dates df).
Proof.
  intros Hdates. apply mapM_Some in Hdates. unfold pd.assign.
  induction Hdates as [|r d df dates Hd Hdates IH]; [done|].
  cbn. constructor; [|done]. unfold keyed_by_month.
  by rewrite cell_insert_eq, lookup_insert_ne.
Qed.

Lemma keyed_insert (F : string) (r : row) (x : fnum) :
  F <> "Month" -> F <> "MonthDate" ->
  keyed_by_month r -> keyed_by_month (<[F := SNum x]> r).
Proof.
  intros H1 H2. unfold keyed_by_month.
  by rewrite cell_insert_ne, lookup_insert_ne.
Qed.

Lemma month_dates_parse (df : frame) :
  is_Some (mapM (fun r : row => month_start (r !! "Month")) df)
  <-> Forall (fun r : row => is_Some (month_start (r !! "Month"))) df.
Proof.
  split.
  - intros [dates Hdates]. apply mapM_Some in Hdates.
    induction Hdates; constructor; eauto.
  - intros Hparse.
    destruct (mapM _ df) as [dates|] eqn:Hdates; [done|].
    apply mapM_None in Hdates. apply Exists_exists in Hdates as (r & Hin & Hnone).
    rewrite Forall_forall in Hparse.
    destruct (Hparse r Hin) as [d Hd]. congruence.
Qed.


End periods.


Example revenue_example_growth :
  (fun out => (text "Month" <$> out, pd.col "MonthlyGrowth" out))
    <$> @df_revenue stable_pandas revenue_example
  = Some (["2024-01"; "2024-02"], [NaN; num.of_Z 50]).
Proof. by_computation. Qed.

Example revenue_example_bad_month :
  @df_revenue stable_pandas [ {[ "Month" := SStr "January"; "TotalRevenue" := SNum (num.of_Z 1) ]} ]
  = None.
Proof. vm_compute. reflexivity. Qed.

(** Of the bodies, the derivation of the revenue trend alone: the body
    raises when [pd.to_datetime] does. *)
Definition revenue_trend_only (name : string) (frames : list frame) : outcome unit :=
  match frames with
  | [revenue_data] =>
      if decide (name = "Monthly Revenue Trend")
      then match @df_revenue stable_pandas revenue_data with
           | Some _ => Ok tt
           | None => Raise (Exn "ValueError")
           end
      else Ok tt
  | _ => Ok tt
  end.

Example a_bad_month_stops_the_finance_render :
  let f := run (finance_dashboard (at_time 0) revenue_trend_only
                  (Some (open_connection
                           (fun _ _ => Ok [Ok [ {[ "Month" := SStr "2024-13";
                                                   "TotalRevenue" := SNum (num.of_Z 1) ]} ]])
                           []))
                  0 0 no_cache) in
  f.1 = Raise (Exn "ValueError") /\ entered f.2 = ["Monthly Revenue Trend"].
Proof. split; vm_compute; reflexivity. Qed.

(** ** user_dashboard.py: the three readings of the user count *)

Lemma province_columns_lookup (r : row) (k : string) :
  province_columns r !! k
  = if bool_decide (k ∈ ["Province"; "UserCount"; "TotalRevenue"; "AvgOrderValue"])
    then r !! k else None.
Proof.
  unfold province_columns. case_bool_decide as Hk.
  - destruct (r !! k) as [v|] eqn:Hv.
    + by apply map_lookup_filter_Some.
    + apply map_lookup_filter_None. left. done.
  - apply map_lookup_filter_None. right. intros v _. done.
Qed.

Lemma province_columns_cell (r : row) (k : string) :
  k ∈ ["Province"; "UserCount"; "TotalRevenue"; "AvgOrderValue"] ->
  pd.cell k (province_columns r) = pd.cell k r.
Proof.
  intros Hk. unfold pd.cell. rewrite province_columns_lookup.
  by rewrite bool_decide_eq_true_2.
Qed.

(** The filter on the user type (user_dashboard.py, lines 43-59).  Each of
    the three choices keeps one row per province, with the four columns
    of the chart and no other; the province, the revenue and the order
    value of a row are those of the procedure; the user count is the
    count of all users, of the VIP users, or their difference, so that on
    a row whose two counts are numbers the VIP and the non-VIP count add
    up to the count of all users. *)
Theorem by_user_type_splits_the_count (df_province : frame) :
  (forall ut : user_type, length (by_user_type ut df_province) = length df_province)
  /\ (forall (ut : user_type) (r' : row) (k : string),
        r' ∈ by_user_type ut df_province -> is_Some (r' !! k) ->
        k ∈ ["Province"; "UserCount"; "TotalRevenue"; "AvgOrderValue"])
  /\ (forall (i : nat) (r : row), df_province !! i = Some r ->
        exists r_all r_vip r_non : row,
          by_user_type All_Users df_province !! i = Some r_all
          /\ by_user_type VIP_Users_Only df_province !! i = Some r_vip
          /\ by_user_type Non_VIP_Users_Only df_province !! i = Some r_non
          /\ (forall k : string, k ∈ ["Province"; "TotalRevenue"; "AvgOrderValue"] ->
                r_all !! k = r !! k /\ r_vip !! k = r !! k /\ r_non !! k = r !! k)
          /\ pd.cell "UserCount" r_all = pd.cell "UserCount" r
          /\ pd.cell "UserCount" r_vip = pd.cell "VIPUserCount" r
          /\ pd.cell "UserCount" r_non
             = (pd.cell "UserCount" r - pd.cell "VIPUserCount" r)%F
          /\ (forall u v : Qc,
                pd.cell "UserCount" r = Fin u -> pd.cell "VIPUserCount" r = Fin v ->
                (pd.cell "UserCount" r_vip + pd.cell "UserCount" r_non)%F
                = pd.cell "UserCount" r_all)).
Proof.
  split; [|split].
  - intros []; cbn; rewrite ?length_map, ?length_assign; try done.
    + unfold pd.col. by rewrite length_map.
    + unfold series_sub, pd.col. by rewrite length_zip_with, !length_map, Nat.min_id.
  - intros ut r' k Hin [v Hv].
    assert (exists r0 : row, r' = province_columns r0) as [r0 ->].
    { destruct ut; cbn in Hin; apply list_elem_of_fmap in Hin as (r0 & -> & _); by exists r0. }
    rewrite province_columns_lookup in Hv. by case_bool_decide.
  - intros i r Hr.
    pose proof (lookup_col "UserCount" _ _ _ Hr) as Hu.
    pose proof (lookup_col "VIPUserCount" _ _ _ Hr) as Hv.
    assert (series_sub (pd.col "UserCount" df_province) (pd.col "VIPUserCount" df_province)
              !! i = Some (pd.cell "UserCount" r - pd.cell "VIPUserCount" r)%F) as Hd.
    { unfold series_sub. rewrite lookup_zip_with, Hu. cbn. by rewrite Hv. }
    eexists _, _, _. cbn.
    rewrite !list_lookup_fmap, Hr.
    rewrite (lookup_assign _ _ _ _ _ _ Hr Hv), (lookup_assign _ _ _ _ _ _ Hr Hd). cbn.
    split; [done|]. split; [done|]. split; [done|].
    assert (pd.cell "UserCount" (province_columns r) = pd.cell "UserCount" r) as Hall.
    { apply province_columns_cell. by_computation. }
    assert (pd.cell "UserCount"
              (province_columns (<["UserCount" := SNum (pd.cell "VIPUserCount" r)]> r))
            = pd.cell "VIPUserCount" r) as Hvip.
    { rewrite province_columns_cell by by_computation. apply cell_insert_eq. }
    assert (pd.cell "UserCount"
              (province_columns
                 (<["UserCount" :=
                      SNum (pd.cell "UserCount" r - pd.cell "VIPUserCount" r)%F]> r))
            = (pd.cell "UserCount" r - pd.cell "VIPUserCount" r)%F) as Hnon.
    { rewrite province_columns_cell by by_computation. apply cell_insert_eq. }
    split; [|split; [done|split; [done|split; [done|]]]].
    + intros k Hk. rewrite !province_columns_lookup.
      assert (k ≠ "UserCount") as Hne.
      { intros ->. apply (bool_decide_eq_true_2 _) in Hk. vm_compute in Hk. done. }
      rewrite bool_decide_eq_true_2 by (revert Hk; rewrite !elem_of_cons; tauto).
      by rewrite !lookup_insert_ne.
    + intros u v Eu Ev. rewrite Hall, Hvip, Hnon, Eu, Ev. cbn. f_equal. ring.
Qed.

Lemma by_user_type_splits_the_count_witness :
  exists r_all r_vip r_non : row,
    by_user_type All_Users [ {[ "Province" := SStr "Anhui"; "UserCount" := SNum (num.of_Z 5);
                                "VIPUserCount" := SNum (num.of_Z 2) ]} ] !! 0%nat = Some r_all
    /\ by_user_type VIP_Users_Only
         [ {[ "Province" := SStr "Anhui"; "UserCount" := SNum (num.of_Z 5);
              "VIPUserCount" := SNum (num.of_Z 2) ]} ] !! 0%nat = Some r_vip
    /\ by_user_type Non_VIP_Users_Only
         [ {[ "Province" := SStr "Anhui"; "UserCount" := SNum (num.of_Z 5);
              "VIPUserCount" := SNum (num.of_Z 2) ]} ] !! 0%nat = Some r_non
    /\ (pd.cell "UserCount" r_vip + pd.cell "UserCount" r_non)%F
       = pd.cell "UserCount" r_all.
Proof.
  destruct (proj2 (proj2 (by_user_type_splits_the_count
    [ {[ "Province" := SStr "Anhui"; "UserCount" := SNum (num.of_Z 5);
         "VIPUserCount" := SNum (num.of_Z 2) ]} ])) 0%nat _ eq_refl)
    as (r_all & r_vip & r_non & Hall & Hvip & Hnon & _ & _ & _ & _ & Hsum).
  exists r_all, r_vip, r_non. repeat split; try assumption.
  apply (Hsum (Qc_of_Z 5) (Qc_of_Z 2)); reflexivity.
Defined.

(** ** utils.py: [normalize_series] on a series that is not constant *)

Lemma min_lower (s : list fnum) (x : fnum) :
  x ∈ s -> x <> NaN -> num.leb (pd.min s) x = true.
Proof.
  unfold pd.min. intros Hin Hx. induction s as [|h s IH]; [by apply elem_of_nil in Hin|].
  destruct (num.isna h) eqn:Hh.
  - apply isna_true in Hh as ->. rewrite best_cons_nan.
    apply elem_of_cons in Hin as [->|Hin]; [done | by apply IH].
  - rewrite best_cons_valid by done. apply isna_false in Hh.
    destruct (num.isna (pd.best _ s)) eqn:Hacc.
    + apply isna_true in Hacc.
      apply elem_of_cons in Hin as [->|Hin]; [by apply leb_refl|].
      by destruct (best_not_nan (fun x acc => num.leb x acc) s x).
    + apply isna_false in Hacc.
      destruct (num.leb h (pd.best _ s)) eqn:Hle.
      * apply elem_of_cons in Hin as [->|Hin]; [by apply leb_refl|].
        eapply leb_trans; [done | by apply IH].
      * apply elem_of_cons in Hin as [->|Hin]; [by apply leb_total | by apply IH].
Qed.

Lemma percent_nonneg (x d : Qc) :
  (0 < d -> 0 <= x -> 0 <= x / d * Qc_of_Z 100)%Qc.
Proof.
  intros Hd Hx.
  assert (0 <= x / d)%Qc as Hr.
  { apply Qcnot_lt_le. intros Hlt.
    apply (Qcmult_lt_compat_r _ _ d) in Hlt; [|done].
    rewrite Qcmult_0_l in Hlt.
    replace (x / d * d)%Qc with x in Hlt
      by (field; intros ->; by apply Qclt_not_eq in Hd).
    by apply Qclt_not_le in Hlt. }
  generalize dependent (x / d)%Qc. intros r Hr.
  qc_to_q. generalize dependent (this r). intros. lra.
Qed.

(** The extremum of a series of numbers is one of them. *)
Lemma best_of_numbers (better : fnum -> fnum -> bool) (qs : list Qc) :
  qs <> [] -> exists b : Qc, pd.best better (Fin <$> qs) = Fin b /\ b ∈ qs.
Proof.
  intros Hne. destruct qs as [|q0 qs]; [done|].
  assert (pd.best better (Fin <$> q0 :: qs) <> NaN) as Hb.
  { apply (best_not_nan _ _ (Fin q0)); [left | done]. }
  pose proof (best_in _ _ Hb) as Hin.
  apply list_elem_of_fmap in Hin as (b & Heq & Hin). by exists b.
Qed.

(** [normalize_series] (utils.py, lines 137-150) keeps the length of the
    series, and gives the empty series for the empty one.  On a series of
    numbers that are not all equal it takes the branch of the rescale:
    with [lo] the least and [hi] the greatest of them, [lo < hi] and each
    value [q] becomes [(q - lo) / (hi - lo) * 100], a number between [0]
    and [100]; [0] and [100] are both reached, and the order of the
    values is kept. *)
Theorem normalize_series_rescales :
  (forall s : list fnum, length (normalize_series s) = length s)
  /\ normalize_series [] = []
  /\ forall qs : list Qc,
       qs <> [] ->
       num.eqb (pd.max (Fin <$> qs)) (pd.min (Fin <$> qs)) = false ->
       exists lo hi : Qc,
         pd.min (Fin <$> qs) = Fin lo /\ pd.max (Fin <$> qs) = Fin hi
         /\ lo ∈ qs /\ hi ∈ qs /\ (lo < hi)%Qc
         /\ normalize_series (Fin <$> qs) = Fin <$> (position lo hi <$> qs)
         /\ (forall q : Qc, q ∈ qs ->
               (0 <= position lo hi q)%Qc /\ (position lo hi q <= Qc_of_Z 100)%Qc)
         /\ position lo hi lo = 0%Qc /\ position lo hi hi = Qc_of_Z 100
         /\ (forall q q' : Qc, (q <= q')%Qc -> (position lo hi q <= position lo hi q')%Qc).
Proof.
  split; [|split].
  - intros s. unfold normalize_series.
    destruct (num.eqb _ _); [apply length_replicate | apply length_map].
  - reflexivity.
  - intros qs Hne Hneq.
    destruct (best_of_numbers (fun x acc => num.leb x acc) qs Hne) as (lo & Hlo & Hlo_in).
    destruct (best_of_numbers (fun x acc => num.leb acc x) qs Hne) as (hi & Hhi & Hhi_in).
    fold (pd.min (Fin <$> qs)) in Hlo. fold (pd.max (Fin <$> qs)) in Hhi.
    assert (forall q : Qc, q ∈ qs -> (lo <= q)%Qc /\ (q <= hi)%Qc) as Hbounds.
    { intros q Hq.
      assert (Fin q ∈ Fin <$> qs) as Hin by (apply list_elem_of_fmap; by exists q).
      pose proof (min_lower _ _ Hin (ltac:(done))) as H1.
      pose proof (max_upper _ _ Hin (ltac:(done))) as H2.
      rewrite Hlo in H1. rewrite Hhi in H2. cbn in H1, H2.
      split; by apply (bool_decide_eq_true_1 _). }
    assert (lo <> hi) as Hd.
    { intros ->. rewrite Hlo, Hhi in Hneq. cbn in Hneq.
      by rewrite bool_decide_eq_true_2 in Hneq. }
    assert (lo < hi)%Qc as Hlt.
    { destruct (Qclt_le_dec lo hi) as [|Hle]; [done|].
      destruct Hd. apply Qcle_antisym; [by apply Hbounds | done]. }
    assert (0 < hi - lo)%Qc as Hpos.
    { revert Hlt. clear. intros Hlt. qc_to_q.
      generalize dependent (this lo). generalize dependent (this hi). intros. lra. }
    exists lo, hi. repeat split; try done.
    + unfold normalize_series. rewrite Hneq, Hlo, Hhi.
      rewrite <- !list_fmap_compose. apply list_fmap_ext. intros _ q _. cbn.
      destruct (decide (hi + - lo = 0)%Qc) as [E|_].
      { fold (Qcminus hi lo) in E. rewrite E in Hpos. by apply Qclt_not_eq in Hpos. }
      reflexivity.
    + apply percent_nonneg; [done|].
      destruct (Hbounds q) as [Hl _]; [done|]. revert Hl. clear. intros Hl. qc_to_q.
      generalize dependent (this lo). generalize dependent (this q). intros. lra.
    + apply percent_le_100; [done|].
      destruct (Hbounds q) as [_ Hh]; [done|]. revert Hh. clear. intros Hh. qc_to_q.
      generalize dependent (this lo). generalize dependent (this q).
      generalize dependent (this hi). intros. lra.
    + unfold position. field. intros E. rewrite E in Hpos. by apply Qclt_not_eq in Hpos.
    + unfold position. field. intros E. rewrite E in Hpos. by apply Qclt_not_eq in Hpos.
    + intros q q' Hq.
      assert (0 <= (q' - q) / (hi - lo) * Qc_of_Z 100)%Qc as Hdelta.
      { apply percent_nonneg; [done|]. revert Hq. clear. intros Hq. qc_to_q.
        generalize dependent (this q). generalize dependent (this q'). intros. lra. }
      replace (position lo hi q')
        with (position lo hi q + (q' - q) / (hi - lo) * Qc_of_Z 100)%Qc
        by (unfold position; field; intros E; rewrite E in Hpos;
            by apply Qclt_not_eq in Hpos).
      rewrite <- (Qcplus_0_r (position lo hi q)) at 1.
      apply Qcplus_le_compat; [apply Qcle_refl | done].
Qed.

Lemma normalize_series_rescales_witness :
  exists lo hi : Qc,
    pd.min (Fin <$> [Qc_of_Z 50; Qc_of_Z 75; Qc_of_Z 100]) = Fin lo
    /\ pd.max (Fin <$> [Qc_of_Z 50; Qc_of_Z 75; Qc_of_Z 100]) = Fin hi
    /\ normalize_series (Fin <$> [Qc_of_Z 50; Qc_of_Z 75; Qc_of_Z 100])
       = Fin <$> (position lo hi <$> [Qc_of_Z 50; Qc_of_Z 75; Qc_of_Z 100]).
Proof.
  destruct (proj2 (proj2 normalize_series_rescales) [Qc_of_Z 50; Qc_of_Z 75; Qc_of_Z 100])
    as (lo & hi & Hlo & Hhi & _ & _ & _ & Hs & _).
  - done.
  - vm_compute. reflexivity.
  - exists lo, hi. repeat split; assumption.
Defined.

Example normalize_series_50_75_100 :
  normalize_series [num.of_Z 50; num.of_Z 75; num.of_Z 100]
  = [num.of_Z 0; num.of_Z 50; num.of_Z 100].
Proof. by_computation. Qed.

(** ** admin_dashboard.py: the change of the last month *)

Lemma iloc_back_1 (s : list fnum) (x : fnum) : iloc_back 1 (s ++ [x]) = x.
Proof.
  unfold iloc_back. rewrite length_app. cbn.
  replace (length s + 1 - 1)%nat with (length s) by lia.
  rewrite app_nth2 by lia. by rewrite Nat.sub_diag.
Qed.

Lemma iloc_back_2 (s : list fnum) (x y : fnum) : iloc_back 2 (s ++ [x; y]) = x.
Proof.
  unfold iloc_back. rewrite length_app. cbn.
  replace (length s + 2 - 2)%nat with (length s) by lia.
  rewrite app_nth2 by lia. by rewrite Nat.sub_diag.
Qed.

Lemma col_app (F : string) (df1 df2 : frame) :
  pd.col F (df1 ++ df2) = pd.col F df1 ++ pd.col F df2.
Proof. apply map_app. Qed.



Example month_over_month_after_zero :
  month_over_month numbers "Revenue"
    [ {[ "Revenue" := SNum (num.of_Z 0) ]}; {[ "Revenue" := SNum (num.of_Z 150) ]} ]
  = Ok PosInf
  /\ month_over_month decimals "Revenue"
       [ {[ "Revenue" := SNum (num.of_Z 0) ]}; {[ "Revenue" := SNum (num.of_Z 150) ]} ]
     = Raise (Exn "DivisionByZero")
  /\ @month_over_month_changes stable_pandas (fun _ => decimals)
       [ {[ "Month" := SStr "2024-01"; "Revenue" := SNum (num.of_Z 0);
            "OrderCount" := SNum (num.of_Z 0); "UniqueCustomers" := SNum (num.of_Z 0);
            "AvgOrderValue" := SNum (num.of_Z 0) ]};
         {[ "Month" := SStr "2024-02"; "Revenue" := SNum (num.of_Z 150);
            "OrderCount" := SNum (num.of_Z 3); "UniqueCustomers" := SNum (num.of_Z 2);
            "AvgOrderValue" := SNum (num.of_Z 50) ]} ]
     = None
  /\ monthly_growth [num.of_Z 0; num.of_Z 150] = [NaN; NaN].
Proof. repeat split; vm_compute; reflexivity. Qed.

(** ** finance_dashboard.py: the latest monthly growth *)

Section latest_growth.

Context `{Pandas}.

Lemma df_revenue_growth_column (revenue_data out : frame) :
  df_revenue revenue_data = Some out ->
  length out = length revenue_data
  /\ pd.col "MonthlyGrowth" out = monthly_growth (pd.col "TotalRevenue" out).
Proof.
  unfold df_revenue.
  destruct (mapM _ revenue_data) as [dates|] eqn:Hdates; [|done].
  cbn. intros [= <-].
  assert (length dates = length revenue_data) as Hlen
    by (symmetry; by eapply length_mapM).
  set (df1 := pd.assign "MonthDate" dates revenue_data).
  set (df2 := sort_values "MonthDate" true df1).
  set (df3 := pd.assign "PrevRevenue" (pd.shift (pd.col "TotalRevenue" df2)) df2).
  assert (length df1 = length revenue_data) as Hlen1 by (by apply length_assign).
  assert (length df2 = length df1) as Hlen2
    by apply (Permutation_length (sort_values_perm _ _ _)).
  assert (length (pd.shift (pd.col "TotalRevenue" df2)) = length df2) as Hshift
    by (rewrite shift_length; unfold pd.col; by rewrite length_map).
  assert (length df3 = length df2) as Hlen3 by (by apply length_assign).
  assert (pd.col "TotalRevenue" df3 = pd.col "TotalRevenue" df2) as Hrev
    by (by apply col_assign_ne).
  assert (pd.col "PrevRevenue" df3 = pd.shift (pd.col "TotalRevenue" df2)) as Hprev
    by (by apply col_assign_eq).
  set (growth := series_scale _ _).
  assert (growth = monthly_growth (pd.col "TotalRevenue" df2)) as Hgrowth
    by (subst growth; by rewrite Hrev, Hprev).
  assert (length growth = length df3) as Hlen4.
  { rewrite Hgrowth, monthly_growth_length. unfold pd.col. rewrite length_map. lia. }
  split.
  - rewrite length_assign by done. lia.
  - rewrite col_assign_eq, col_assign_ne, Hrev by done. exact Hgrowth.
Qed.

Lemma monthly_growth_last (revenue : list fnum) (p c : fnum) :
  iloc_back 1 (monthly_growth (revenue ++ [p; c])) = growth_entry c p.
Proof.
  unfold iloc_back. rewrite monthly_growth_length, length_app. cbn [length].
  replace (length revenue + 2 - 1)%nat with (S (length revenue)) by lia.
  rewrite nth_lookup, monthly_growth_lookup.
  rewrite shift_lookup_S by (rewrite length_app; cbn; lia).
  rewrite !(lookup_app_r revenue) by lia.
  replace (S (length revenue) - length revenue)%nat with 1%nat by lia.
  by rewrite Nat.sub_diag.
Qed.


End latest_growth.


Example latest_growth_examples :
  (fun out => latest_growth_metric (latest_growth out))
    <$> @df_revenue stable_pandas revenue_example
  = Some ("50.00%", Some "normal")
  /\ (fun out => latest_growth_metric (latest_growth out))
       <$> @df_revenue stable_pandas
             [ {[ "Month" := SStr "2024-02"; "TotalRevenue" := SNum (num.of_Z 150) ]};
               {[ "Month" := SStr "2024-01"; "TotalRevenue" := SNum (num.of_Z 0) ]} ]
     = Some ("nan%", Some "inverse")
  /\ (fun out => latest_growth_metric (latest_growth out))
       <$> @df_revenue stable_pandas
             [ {[ "Month" := SStr "2024-02"; "TotalRevenue" := SNum (num.of_Z 150) ]} ]
     = Some ("N/A", None).
Proof. repeat split; by_computation. Qed.

(** ** user_dashboard.py: the activity labels in their order *)

Lemma index_lookup (x : string) (l : list string) (i : nat) :
  index x l = Some i -> l !! i = Some x.
Proof.
  revert i. induction l as [|y l IH]; intros i; cbn; [done|].
  case_bool_decide as Hxy.
  - intros [= <-]. by subst.
  - destruct (index x l) as [j|]; [|done]. cbn. intros [= <-]. by apply IH.
Qed.

Lemma index_None (x : string) (l : list string) : index x l = None <-> x ∉ l.
Proof.
  induction l as [|y l IH]; cbn.
  - split; [intros _; apply not_elem_of_nil | done].
  - rewrite not_elem_of_cons. case_bool_decide as Hxy.
    + split; [done | by intros [? _]].
    + destruct (index x l) as [j|]; cbn.
      * split; [done|]. intros [_ Hl]. by apply IH in Hl.
      * split; [|done]. intros _. split; [done | by apply IH].
Qed.

Lemma Qc_of_Z_le (a b : Z) : (Qc_of_Z a <= Qc_of_Z b)%Qc <-> (a <= b)%Z.
Proof.
  rewrite Zle_Qle. unfold Qcle, Qc_of_Z, Q2Qc. cbn [this]. reflexivity.
Qed.

Lemma StronglySorted_impl_Forall {A} (R R' : relation A) (P : A -> Prop) (l : list A) :
  (forall a b, P a -> P b -> R a b -> R' a b) ->
  Forall P l -> StronglySorted R l -> StronglySorted R' l.
Proof.
  intros HR HP Hs. induction Hs as [|a l Hs IH Hall]; [constructor|].
  apply Forall_cons in HP as [Ha HP]. constructor; [by apply IH|].
  rewrite Forall_forall in Hall, HP |- *. intros b Hb. apply HR; auto.
Qed.

Lemma text_insert_ne (F G : string) (x : fnum) (r : row) :
  F <> G -> text G (<[F := SNum x]> r) = text G r.
Proof. intros Hne. unfold text. by rewrite lookup_insert_ne. Qed.

Section activity.

Context `{Pandas}.

(** The rank of a row of [df_activity], and the frame before the sort. *)
Let rank (r : row) : nat := sort_order (text "ActivityLabel" r).
Let ranked (activity_data : frame) : frame :=
  pd.assign "SortOrder" (map (fun r : row => num.of_Z (Z.of_nat (rank r))) activity_data)
            activity_data.

Lemma ranked_labels (activity_data : frame) :
  text "ActivityLabel" <$> ranked activity_data = text "ActivityLabel" <$> activity_data.
Proof.
  unfold ranked, pd.assign. induction activity_data as [|r df IH]; [done|].
  cbn. rewrite text_insert_ne by done. f_equal. exact IH.
Qed.

Lemma ranked_sort_order (activity_data : frame) :
  Forall (fun r : row => pd.cell "SortOrder" r = num.of_Z (Z.of_nat (rank r)))
         (ranked activity_data).
Proof.
  unfold ranked, pd.assign. induction activity_data as [|r df IH]; [constructor|].
  cbn. constructor; [|exact IH].
  rewrite cell_insert_eq. unfold rank. by rewrite text_insert_ne.
Qed.

(** The activity rows (user_dashboard.py, lines 263-268) come out in the
    order of [activity_order]: the rank of a listed label is its
    position in the list, which holds that label, and every other label,
    a missing one too, has the rank after the last.  The frame that is
    sorted holds each row of the data with its rank in [SortOrder] and
    its other cells as they were; the sort keeps these rows, each as
    often as it was there, and puts them in ascending rank, whatever
    pandas does with equal ranks, so that no row with a listed label
    comes after a row with another label. *)
Theorem df_activity_in_the_order_of_the_labels (activity_data : frame) :
  let with_rank := fun r : row =>
    <["SortOrder" := SNum (num.of_Z (Z.of_nat (sort_order (text "ActivityLabel" r))))]> r in
  (forall x : string, x ∈ activity_order ->
     activity_order !! sort_order x = Some x /\ (sort_order x < 4)%nat)
  /\ (forall x : string, x ∉ activity_order -> sort_order x = 4%nat)
  /\ df_activity activity_data ≡ₚ with_rank <$> activity_data
  /\ length (df_activity activity_data) = length activity_data
  /\ text "ActivityLabel" <$> df_activity activity_data
     ≡ₚ text "ActivityLabel" <$> activity_data
  /\ StronglySorted
       (fun r r' : row => (sort_order (text "ActivityLabel" r)
                           <= sort_order (text "ActivityLabel" r'))%nat)
       (df_activity activity_data)
  /\ (forall (before after : frame) (r : row),
        df_activity activity_data = before ++ r :: after ->
        text "ActivityLabel" r ∉ activity_order ->
        Forall (fun r' : row => text "ActivityLabel" r' ∉ activity_order) after).
Proof.
  intros with_rank.
  assert (forall x : string, x ∈ activity_order ->
            activity_order !! sort_order x = Some x /\ (sort_order x < 4)%nat) as Hin.
  { intros x Hx. unfold sort_order.
    destruct (index x activity_order) as [i|] eqn:Hi.
    - pose proof (index_lookup _ _ _ Hi) as Hl. split; [done|].
      apply lookup_lt_Some in Hl. exact Hl.
    - by apply index_None in Hi. }
  assert (forall x : string, x ∉ activity_order -> sort_order x = 4%nat) as Hout.
  { intros x Hx. unfold sort_order. apply index_None in Hx. by rewrite Hx. }
  assert (df_activity activity_data ≡ₚ ranked activity_data) as Hperm
    by apply sort_values_perm.
  assert (ranked activity_data = with_rank <$> activity_data) as Hranked.
  { unfold ranked, pd.assign, with_rank, rank. clear.
    induction activity_data as [|r df IH]; [done|]. cbn. by rewrite IH. }
  assert (StronglySorted (fun r r' : row => (rank r <= rank r')%nat)
            (df_activity activity_data)) as Hsorted.
  { apply (StronglySorted_impl_Forall (pd.row_le "SortOrder" true) _
             (fun r : row => pd.cell "SortOrder" r = num.of_Z (Z.of_nat (rank r)))).
    - intros a b Ha Hb. unfold pd.row_le. rewrite Ha, Hb. cbn.
      intros Hle. apply (bool_decide_eq_true_1 _) in Hle.
      apply (proj1 (Qc_of_Z_le _ _)) in Hle. lia.
    - rewrite Hperm. apply ranked_sort_order.
    - apply Sorted_StronglySorted; [apply row_le_trans | apply sort_values_sorted]. }
  split; [done|]. split; [done|]. split; [by rewrite Hperm, Hranked|].
  split; [|split; [|split]].
  - rewrite Hperm. unfold ranked. apply length_assign. by rewrite length_map.
  - rewrite Hperm. by rewrite ranked_labels.
  - exact Hsorted.
  - intros before after r Hsplit Hr. rewrite Hsplit in Hsorted.
    apply StronglySorted_app in Hsorted as (_ & _ & Hs).
    apply StronglySorted_inv in Hs as [_ Hall].
    eapply Forall_impl; [exact Hall|]. intros r' Hle Hr'. cbn in Hle. unfold rank in Hle.
    rewrite (Hout _ Hr) in Hle. apply Hin in Hr' as [_ Hlt]. lia.
Qed.

End activity.

Lemma df_activity_in_the_order_of_the_labels_witness :
  Forall (fun r' : row => text "ActivityLabel" r' ∉ activity_order)
         [ <["SortOrder" := SNum (num.of_Z 4)]>
             ({[ "ActivityLabel" := SNull; "UserCount" := SNum (num.of_Z 2) ]} : row) ].
Proof.
  apply (proj2 (proj2 (proj2 (proj2 (proj2 (proj2
           (@df_activity_in_the_order_of_the_labels stable_pandas activity_example))))))
           [ <["SortOrder" := SNum (num.of_Z 0)]>
               ({[ "ActivityLabel" := SStr "Active"; "UserCount" := SNum (num.of_Z 7) ]}
                : row) ]
           _
           (<["SortOrder" := SNum (num.of_Z 4)]>
              ({[ "ActivityLabel" := SStr "Churned"; "UserCount" := SNum (num.of_Z 3) ]}
               : row)));
    by_computation.
Defined.

Example df_activity_example :
  text "ActivityLabel"
    <$> @df_activity stable_pandas
          [ {[ "ActivityLabel" := SStr "Churned" ]}; {[ "ActivityLabel" := SStr "Lost" ]};
            {[ "ActivityLabel" := SNull ]}; {[ "ActivityLabel" := SStr "Active" ]} ]
  = ["Active"; "Lost"; "Churned"; EmptyString].
Proof. by_computation. Qed.

(** ** admin_dashboard.py: the cells the category table highlights *)

Lemma highlight_max_min_lookup (max_indices min_indices : gmap string nat)
    (col_name col : string) (len_s i : nat) :
  original_col col_name = Some col ->
  highlight_max_min max_indices min_indices col_name len_s !! i
  = if decide (i < len_s)%nat
    then Some (if bool_decide (Some i = max_indices !! col) then max_style
               else if bool_decide (Some i = min_indices !! col) then min_style
               else EmptyString)
    else None.
Proof.
  intros Hcol. unfold highlight_max_min. rewrite Hcol.
  change (map ?f ?l) with (f <$> l). rewrite list_lookup_fmap.
  case_decide as Hi.
  - by rewrite lookup_seq_lt.
  - by rewrite lookup_seq_ge by lia.
Qed.

Lemma idxmax_lt (s : list fnum) (i : nat) : pd.idxmax s = Some i -> (i < length s)%nat.
Proof.
  intros Hi. apply idxmax_first in Hi as (b & Hb & _). by apply lookup_lt_Some in Hb.
Qed.

Lemma idxmin_lt (s : list fnum) (i : nat) : pd.idxmin s = Some i -> (i < length s)%nat.
Proof.
  intros Hi. apply idxmin_first in Hi as (b & Hb & _). by apply lookup_lt_Some in Hb.
Qed.

(** What one column of the table shows, from the two positions the code
    looks up for it. *)
Lemma highlight_max_min_cells (max_indices min_indices : gmap string nat)
    (col_name col : string) (len_s : nat) (hi lo : option nat) :
  original_col col_name = Some col ->
  max_indices !! col = hi -> min_indices !! col = lo ->
  (forall i : nat, hi = Some i -> (i < len_s)%nat) ->
  (forall i : nat, lo = Some i -> (i < len_s)%nat) ->
  forall i : nat,
    (highlight_max_min max_indices min_indices col_name len_s !! i = Some max_style
     <-> hi = Some i)
    /\ (highlight_max_min max_indices min_indices col_name len_s !! i = Some min_style
        <-> lo = Some i /\ hi <> Some i).
Proof.
  intros Hcol Hhi Hlo Hhi_lt Hlo_lt i.
  rewrite (highlight_max_min_lookup _ _ _ _ _ _ Hcol), Hhi, Hlo.
  case_decide as Hi.
  - repeat case_bool_decide; split; split; try done; try (intros [= E]; by vm_compute in E).
    + by intros [? ?].
    + by intros [? ?].
  - split; split; try done.
    + intros E. by apply Hhi_lt in E.
    + intros [E _]. by apply Hlo_lt in E.
Qed.

(** The highlighting of the category table (admin_dashboard.py, lines
    221-274), with the positions [max_min_indices] found.  Every column
    gets one style per row.  A column the dictionary of the function does
    not name, such as the category itself, is left without style.  In the
    columns of the orders, the units, the revenue and the price the red
    cell is the row of the first greatest value of the metric and the
    green cell the row of its first least value; in the column of the
    discount the red cell is the row of the least discount and the green
    cell the row of the greatest.  Red wins where both fall on one row,
    as they do in a column of equal values. *)
Theorem highlight_max_min_marks_the_extremes (category_metrics : frame)
    (max_indices min_indices : gmap string nat) :
  max_min_indices category_metrics = Some (max_indices, min_indices) ->
  let n := length category_metrics in
  let styles := fun col_name => highlight_max_min max_indices min_indices col_name n in
  (forall col_name : string, length (styles col_name) = n)
  /\ (forall col_name : string, original_col col_name = None ->
        styles col_name = replicate n EmptyString)
  /\ (forall (col_name col : string) (i : nat),
        (col_name, col) ∈ [("Order Count", "OrderCount"); ("Units Sold", "TotalQuantitySold");
                           ("Revenue", "TotalRevenue"); ("Avg Price", "AvgSellingPrice")] ->
        (styles col_name !! i = Some max_style
         <-> pd.idxmax (pd.col col category_metrics) = Some i)
        /\ (styles col_name !! i = Some min_style
            <-> pd.idxmin (pd.col col category_metrics) = Some i
                /\ pd.idxmax (pd.col col category_metrics) <> Some i))
  /\ (forall i : nat,
        (styles "Avg Discount" !! i = Some max_style
         <-> pd.idxmin (pd.col "AvgDiscountPercentage" category_metrics) = Some i)
        /\ (styles "Avg Discount" !! i = Some min_style
            <-> pd.idxmax (pd.col "AvgDiscountPercentage" category_metrics) = Some i
                /\ pd.idxmin (pd.col "AvgDiscountPercentage" category_metrics) <> Some i)).
Proof.
  intros Hidx n styles.
  destruct (max_min_indices_entries _ _ _ Hidx) as (Hfour & Hdmax & Hdmin).
  assert (forall (col : string) (i : nat),
            pd.idxmax (pd.col col category_metrics) = Some i -> (i < n)%nat) as Hmax_lt.
  { intros col i Hi. apply idxmax_lt in Hi. unfold pd.col in Hi. by rewrite length_map in Hi. }
  assert (forall (col : string) (i : nat),
            pd.idxmin (pd.col col category_metrics) = Some i -> (i < n)%nat) as Hmin_lt.
  { intros col i Hi. apply idxmin_lt in Hi. unfold pd.col in Hi. by rewrite length_map in Hi. }
  split; [|split; [|split]].
  - intros col_name. unfold styles, highlight_max_min.
    destruct (original_col col_name); [|apply length_replicate].
    by rewrite length_map, length_seq.
  - intros col_name Hnone. unfold styles, highlight_max_min. by rewrite Hnone.
  - intros col_name col i Hin.
    assert (original_col col_name = Some col
            /\ col ∈ ["OrderCount"; "TotalQuantitySold"; "TotalRevenue"; "AvgSellingPrice"])
      as [Hcol Hcol_in].
    { repeat (apply elem_of_cons in Hin as [[= -> ->] | Hin]);
        [| | | |by apply elem_of_nil in Hin]; (split; [reflexivity | by_computation]). }
    destruct (Hfour col Hcol_in) as [Hhi Hlo].
    apply (highlight_max_min_cells _ _ _ _ _ _ _ Hcol Hhi Hlo); eauto.
  - intros i.
    apply (highlight_max_min_cells _ _ "Avg Discount" _ _ _ _ eq_refl Hdmax Hdmin); eauto.
Qed.

Lemma highlight_max_min_marks_the_extremes_witness :
  let indices := default (∅, ∅) (max_min_indices category_table_example) in
  highlight_max_min indices.1 indices.2 "Avg Discount" 2 !! 1%nat = Some max_style
  <-> pd.idxmin (pd.col "AvgDiscountPercentage" category_table_example) = Some 1%nat.
Proof.
  refine (proj1 (proj2 (proj2 (proj2
    (highlight_max_min_marks_the_extremes category_table_example
       (default (∅, ∅) (max_min_indices category_table_example)).1
       (default (∅, ∅) (max_min_indices category_table_example)).2 _))) 1%nat)).
  by_computation.
Defined.

(** ** marketing_dashboard.py: the colours of the levels *)

Section unique.

Context {A : Type} `{EqDecision A}.

Lemma elem_of_filter_ne (x y : A) (l : list A) :
  y ∈ List.filter (fun z => negb (bool_decide (z = x))) l <-> y ∈ l /\ y <> x.
Proof.
  rewrite !list_elem_of_In, filter_In, negb_true_iff, bool_decide_eq_false. done.
Qed.

Lemma unique_elem_of (x : A) (l : list A) : x ∈ unique l <-> x ∈ l.
Proof.
  induction l as [|y l IH]; [done|]. cbn.
  rewrite !elem_of_cons, elem_of_filter_ne, IH.
  destruct (decide (x = y)); tauto.
Qed.

Lemma NoDup_filter_ne (x : A) (l : list A) :
  NoDup l -> NoDup (List.filter (fun z => negb (bool_decide (z = x))) l).
Proof.
  induction 1 as [|y l Hy Hl IH]; cbn; [constructor|].
  destruct (negb (bool_decide (y = x))); [|done].
  constructor; [|done]. rewrite elem_of_filter_ne. by intros [? _].
Qed.

Lemma unique_NoDup (l : list A) : NoDup (unique l).
Proof.
  induction l as [|x l IH]; cbn; constructor.
  - rewrite elem_of_filter_ne. by intros [_ ?].
  - by apply NoDup_filter_ne.
Qed.

Lemma filter_ne_sublist (x : A) (l : list A) :
  List.filter (fun z => negb (bool_decide (z = x))) l `sublist_of` l.
Proof.
  induction l as [|y l IH]; cbn; [done|].
  destruct (negb (bool_decide (y = x))); [by apply sublist_skip | by apply sublist_cons].
Qed.

Lemma unique_sublist (l : list A) : unique l `sublist_of` l.
Proof.
  induction l as [|x l IH]; cbn; [done|].
  apply sublist_skip. etrans; [apply filter_ne_sublist | done].
Qed.

Lemma unique_head (x : A) (l : list A) : head (unique (x :: l)) = Some x.
Proof. done. Qed.

End unique.

Lemma length_omap_le {A B} (f : A -> option B) (l : list A) :
  (length (omap f l) <= length l)%nat.
Proof. induction l as [|x l IH]; cbn; [done|]. destruct (f x); cbn; lia. Qed.

Lemma length_omap_lt {A B} (f : A -> option B) (l : list A) (x : A) :
  x ∈ l -> f x = None -> (length (omap f l) < length l)%nat.
Proof.
  induction l as [|y l IH]; [by intros ?%elem_of_nil|].
  intros [-> | Hin]%elem_of_cons Hx; cbn.
  - rewrite Hx. pose proof (length_omap_le f l). lia.
  - specialize (IH Hin Hx). destruct (f y); cbn; lia.
Qed.

Lemma omap_all_Some {A B} (f : A -> option B) (l : list A) :
  (forall x : A, x ∈ l -> is_Some (f x)) -> Some <$> omap f l = f <$> l.
Proof.
  induction l as [|y l IH]; [done|]. intros Hall. cbn.
  destruct (Hall y) as [b Hb]; [left|]. rewrite Hb. cbn. f_equal.
  apply IH. intros x Hx. apply Hall. by right.
Qed.

(** The colour sequence of the discount and of the markup charts
    (marketing_dashboard.py, lines 76-87 and 368-378).  The levels it is
    built from are the distinct values of the column, each once, in the
    order of the frame.  When every level of the data is a key of the
    dictionary, the sequence holds, position by position, the colour of
    each level.  As soon as one level is not a key (another text, or a
    missing value), the sequence is shorter than the levels and no
    longer lines up with them. *)
Theorem color_sequence_follows_the_levels (colors : gmap string string) (F : string)
    (df : frame) :
  let levels := unique (values F df) in
  let sequence := color_sequence colors levels in
  NoDup levels
  /\ (forall v : scalar, v ∈ levels <-> v ∈ values F df)
  /\ levels `sublist_of` values F df
  /\ (length sequence <= length levels)%nat
  /\ ((forall v : scalar, v ∈ values F df -> is_Some (color_of colors v)) ->
        Some <$> sequence = color_of colors <$> levels)
  /\ (forall v : scalar, v ∈ values F df -> color_of colors v = None ->
        (length sequence < length levels)%nat).
Proof.
  intros levels sequence. split; [apply unique_NoDup|].
  split; [intros v; apply unique_elem_of|].
  split; [apply unique_sublist|].
  split; [apply length_omap_le|]. split.
  - intros Hall. apply (omap_all_Some (color_of colors)).
    intros v Hv. apply Hall. by apply unique_elem_of.
  - intros v Hv Hnone. apply (length_omap_lt (color_of colors) _ v); [|done].
    by apply unique_elem_of.
Qed.

Lemma color_sequence_follows_the_levels_witness :
  Some <$> discount_color_sequence
             [ {[ "DiscountLevel" := SStr "Over 40.00%" ]};
               {[ "DiscountLevel" := SStr "0% (No Discount)" ]};
               {[ "DiscountLevel" := SStr "Over 40.00%" ]} ]
  = color_of discount_colors
      <$> unique (values "DiscountLevel"
                    [ {[ "DiscountLevel" := SStr "Over 40.00%" ]};
                      {[ "DiscountLevel" := SStr "0% (No Discount)" ]};
                      {[ "DiscountLevel" := SStr "Over 40.00%" ]} ]).
Proof.
  apply (proj1 (proj2 (proj2 (proj2 (proj2
           (color_sequence_follows_the_levels discount_colors "DiscountLevel"
              [ {[ "DiscountLevel" := SStr "Over 40.00%" ]};
                {[ "DiscountLevel" := SStr "0% (No Discount)" ]};
                {[ "DiscountLevel" := SStr "Over 40.00%" ]} ])))))).
  intros v Hv.
  change (v ∈ [SStr "Over 40.00%"; SStr "0% (No Discount)"; SStr "Over 40.00%"]) in Hv.
  repeat (apply elem_of_cons in Hv as [-> | Hv]); [| | |by apply elem_of_nil in Hv].
  all: eexists; vm_compute; reflexivity.
Defined.

Example discount_color_sequence_example :
  discount_color_sequence
    [ {[ "DiscountLevel" := SStr "Over 40.00%" ]};
      {[ "DiscountLevel" := SStr "0% (No Discount)" ]};
      {[ "DiscountLevel" := SStr "Over 40.00%" ]} ]
  = ["#8c564b"; "#1f77b4"]
  /\ discount_color_sequence
       [ {[ "DiscountLevel" := SNull ]}; {[ "DiscountLevel" := SStr "0% (No Discount)" ]} ]
     = ["#1f77b4"]
  /\ discount_colors = get_discount_colors /\ markup_colors = get_markup_colors.
Proof. repeat split; by_computation. Qed.

(** ** The row of the greatest value *)

(** The row the recommendations and the worst day are read from
    (marketing_dashboard.py, lines 493-495; finance_dashboard.py, line
    390).  When some row holds a number in the column, it is a row of the
    frame with a number at least as great as every other, and the first
    such row.  When no row holds a number, [idxmax] raises: the
    expression has no row to give. *)
Theorem loc_idxmax_is_the_first_greatest (F : string) (df : frame) :
  ((exists r : row, r ∈ df /\ pd.cell F r <> NaN) ->
     exists (i : nat) (r : row),
       loc_idxmax F df = Ok r /\ df !! i = Some r /\ pd.cell F r <> NaN
       /\ (forall r' : row, r' ∈ df -> pd.cell F r' <> NaN ->
             num.leb (pd.cell F r') (pd.cell F r) = true)
       /\ (forall (j : nat) (r' : row), (j < i)%nat -> df !! j = Some r' ->
             pd.cell F r' <> NaN -> num.leb (pd.cell F r) (pd.cell F r') = false))
  /\ (Forall (fun r : row => pd.cell F r = NaN) df ->
        loc_idxmax F df = Raise (Exn "ValueError")).
Proof.
  split.
  - intros (r0 & Hr0 & Hv0). unfold loc_idxmax.
    destruct (pd.idxmax (pd.col F df)) as [i|] eqn:Hi.
    + destruct (idxmax_first _ _ Hi) as (b & Hb & Hnan & Hupper & Hfirst).
      unfold pd.col in Hb. change (map ?f ?l) with (f <$> l) in Hb.
      rewrite list_lookup_fmap in Hb.
      destruct (df !! i) as [r|] eqn:Hr; [|done]. cbn in Hb. injection Hb as <-.
      exists i, r. repeat split; try done.
      * intros r' Hr' Hv'. apply list_elem_of_lookup in Hr' as [j Hj].
        apply (Hupper j); [|done]. by apply lookup_col.
      * intros j r' Hlt Hj Hv'. apply (Hfirst j); [done| |done]. by apply lookup_col.
    + apply idxmax_None in Hi. rewrite Forall_forall in Hi.
      destruct Hv0. apply Hi. unfold pd.col. change (map ?f ?l) with (f <$> l).
      apply list_elem_of_fmap. by exists r0.
  - intros Hall. unfold loc_idxmax.
    assert (pd.idxmax (pd.col F df) = None) as ->; [|done].
    apply idxmax_None. unfold pd.col. change (map ?f ?l) with (f <$> l).
    by apply Forall_fmap.
Qed.

Lemma loc_idxmax_is_the_first_greatest_witness :
  exists (i : nat) (r : row),
    loc_idxmax "TotalProfitInTheQuarter" quarterly_example = Ok r
    /\ quarterly_example !! i = Some r.
Proof.
  destruct (proj1 (loc_idxmax_is_the_first_greatest "TotalProfitInTheQuarter"
                     quarterly_example)) as (i & r & Hr & Hi & _).
  - eexists. split; [left|]. vm_compute. done.
  - by exists i, r.
Defined.

(** ** Sums by group *)

Lemma sum_addends (s : list fnum) :
  Forall not_infinite s -> pd.sum s = Fin (total (addend <$> s)).
Proof.
  induction 1 as [|x s [Hp Hn] Hs IH].
  - cbn. unfold pd.sum, num.of_Z. cbn. by rewrite Qc_of_Z_0.
  - destruct x as [q| | |]; try done.
    + change (pd.sum (Fin q :: s)) with (Fin q + pd.sum s)%F. by rewrite IH.
    + change (pd.sum (NaN :: s)) with (pd.sum s). rewrite IH. cbn.
      f_equal. symmetry. apply Qcplus_0_l.
Qed.

Lemma total_cons (q : Qc) (qs : list Qc) : total (q :: qs) = (q + total qs)%Qc.
Proof. reflexivity. Qed.

Lemma total_zero {A} (l : list A) : total ((fun _ => 0%Qc) <$> l) = 0%Qc.
Proof.
  induction l as [|x l IH]; [done|].
  rewrite fmap_cons, total_cons, IH. apply Qcplus_0_l.
Qed.

Lemma total_fmap_plus {A} (f g : A -> Qc) (l : list A) :
  total ((fun x => f x + g x)%Qc <$> l) = (total (f <$> l) + total (g <$> l))%Qc.
Proof.
  induction l as [|x l IH]; [done|].
  rewrite !fmap_cons, !total_cons, IH. ring.
Qed.

Lemma total_indicator (k0 : string) (c : Qc) (ks : list string) :
  NoDup ks ->
  total ((fun k => if bool_decide (k0 = k) then c else 0%Qc) <$> ks)
  = if bool_decide (k0 ∈ ks) then c else 0%Qc.
Proof.
  induction 1 as [|k ks Hk Hks IH]; [done|].
  rewrite fmap_cons, total_cons, IH.
  destruct (decide (k0 = k)) as [->|Hne].
  - rewrite (bool_decide_eq_true_2 (k = k)) by done.
    rewrite (bool_decide_eq_false_2 (k ∈ ks)) by done.
    rewrite (bool_decide_eq_true_2 (k ∈ k :: ks)) by left. ring.
  - rewrite (bool_decide_eq_false_2 (k0 = k)) by done.
    destruct (decide (k0 ∈ ks)) as [Hin|Hout].
    + rewrite (bool_decide_eq_true_2 (k0 ∈ ks)) by done.
      rewrite (bool_decide_eq_true_2 (k0 ∈ k :: ks)) by (by right). ring.
    + rewrite (bool_decide_eq_false_2 (k0 ∈ ks)) by done.
      rewrite (bool_decide_eq_false_2 (k0 ∈ k :: ks)); [ring|].
      by intros [?|?]%elem_of_cons.
Qed.

Lemma groups_total (w : row -> Qc) (key : row -> option string) (ks : list string)
    (df : frame) :
  NoDup ks ->
  (forall (r : row) (k : string), r ∈ df -> key r = Some k -> k ∈ ks) ->
  total ((fun k => total (w <$> List.filter (fun r => bool_decide (key r = Some k)) df))
           <$> ks)
  = total (w <$> with_key key df).
Proof.
  intros Hnd. induction df as [|r df IH]; intros Hks.
  - exact (total_zero ks).
  - assert (forall (r' : row) (k : string), r' ∈ df -> key r' = Some k -> k ∈ ks) as Hks'.
    { intros r' k Hr'. apply Hks. by right. }
    specialize (IH Hks').
    rewrite (list_fmap_ext _
               (fun k => (if bool_decide (key r = Some k) then w r else 0)
                         + total (w <$> List.filter
                                          (fun r => bool_decide (key r = Some k)) df))%Qc).
    2:{ intros _ k _. cbn [List.filter]. destruct (bool_decide (key r = Some k)).
        - by rewrite fmap_cons, total_cons.
        - by rewrite Qcplus_0_l. }
    rewrite total_fmap_plus, IH. unfold with_key. cbn [List.filter].
    destruct (key r) as [k0|] eqn:Hkey.
    + rewrite (bool_decide_eq_true_2 (is_Some (Some k0))) by done.
      rewrite fmap_cons, total_cons. f_equal.
      rewrite (list_fmap_ext _ (fun k => if bool_decide (k0 = k) then w r else 0%Qc)).
      2:{ intros _ k _. apply (f_equal (fun b : bool => if b then w r else 0%Qc)).
          apply bool_decide_ext. split; [by intros [= ->] | by intros ->]. }
      rewrite total_indicator by done.
      rewrite bool_decide_eq_true_2; [done|]. apply (Hks r); [left | done].
    + rewrite (bool_decide_eq_false_2 (is_Some None)) by (by intros [? ?]).
      rewrite (list_fmap_ext _ (fun _ => 0%Qc)).
      2:{ intros _ k _. by rewrite bool_decide_eq_false_2. }
      rewrite total_zero. apply Qcplus_0_l.
Qed.

#[local] Instance string_le_total : Total string_le.
Proof. intros a b. apply String.leb_total. Qed.

(** The keys of the groups: each key of the frame once, in order. *)
Lemma groupby_keys (key : row -> option string) (df : frame) :
  let keys := (groupby key df).*1 in
  NoDup keys /\ Sorted string_le keys
  /\ forall k : string, k ∈ keys <-> exists r : row, r ∈ df /\ key r = Some k.
Proof.
  assert ((groupby key df).*1 = merge_sort string_le (unique (omap key df))) as ->.
  { unfold groupby. rewrite <- list_fmap_compose. apply list_fmap_id. }
  split; [|split].
  - rewrite merge_sort_Permutation. apply unique_NoDup.
  - apply Sorted_merge_sort. apply _.
  - intros k. rewrite merge_sort_Permutation, unique_elem_of, list_elem_of_omap.
    done.
Qed.

Lemma with_key_all (key : row -> option string) (df : frame) :
  Forall (fun r => is_Some (key r)) df -> with_key key df = df.
Proof.
  unfold with_key. induction 1 as [|r df Hr Hdf IH]; [done|]. cbn.
  rewrite bool_decide_eq_true_2 by done. by rewrite IH.
Qed.

Lemma Forall_filter_list {A} (P : A -> Prop) (f : A -> bool) (l : list A) :
  Forall P l -> Forall P (List.filter f l).
Proof.
  induction 1 as [|x l Hx Hl IH]; cbn; [constructor|].
  destruct (f x); [by constructor | done].
Qed.

Lemma not_infinite_col (F : string) (f : row -> bool) (df : frame) :
  Forall not_infinite (pd.col F df) -> Forall not_infinite (pd.col F (List.filter f df)).
Proof.
  unfold pd.col. change (map ?g ?l) with (g <$> l). rewrite !Forall_fmap.
  apply Forall_filter_list.
Qed.

(** The sums of the groups add up to the sum over the rows with a key. *)
Lemma groupby_sums (key : row -> option string) (F : string) (df : frame) :
  Forall not_infinite (pd.col F df) ->
  pd.sum ((fun g : string * frame => pd.sum (pd.col F g.2)) <$> groupby key df)
  = pd.sum (pd.col F (with_key key df)).
Proof.
  intros Hfin. destruct (groupby_keys key df) as (Hnd & _ & Hkeys).
  cbn zeta in Hnd, Hkeys. unfold groupby in *.
  rewrite <- list_fmap_compose in Hnd, Hkeys. rewrite list_fmap_id in Hnd, Hkeys.
  rewrite <- list_fmap_compose.
  rewrite (list_fmap_ext _
             (Fin ∘ (fun k => total ((addend ∘ pd.cell F)
                                      <$> List.filter (fun r => bool_decide (key r = Some k))
                                                      df)))).
  2:{ intros _ k _. unfold compose. cbn [snd].
      rewrite sum_addends by (by apply not_infinite_col).
      unfold pd.col. change (map ?g ?l) with (g <$> l). by rewrite <- list_fmap_compose. }
  rewrite list_fmap_compose, sum_fin, groups_total.
  - rewrite sum_addends by (by apply not_infinite_col).
    unfold pd.col. change (map ?g ?l) with (g <$> l). by rewrite <- list_fmap_compose.
  - done.
  - intros r k Hr Hk. apply Hkeys. by exists r.
Qed.

(** The category table (admin_dashboard.py, lines 212-218) has one row
    per category of the products, each category once and in the order of
    the strings.  The order count, the units and the revenue of a row are
    the sums over the products of its category, its price and discount
    their means.  A product without a category is in no row; over the
    products that have one, each of the three sums of the table adds up
    to the sum over the products, as long as the column holds no
    infinite value. *)
Theorem category_metrics_sums_by_category (df_products : frame) :
  let table := category_metrics df_products in
  let categories := text "Category" <$> table in
  let of_category := fun c : string =>
    List.filter (fun r => bool_decide (group_key "Category" r = Some c)) df_products in
  NoDup categories /\ Sorted string_le categories
  /\ (forall c : string,
        c ∈ categories
        <-> exists r : row, r ∈ df_products /\ group_key "Category" r = Some c)
  /\ (forall (i : nat) (r : row), table !! i = Some r ->
        exists c : string,
          categories !! i = Some c
          /\ (forall F : string, F ∈ ["OrderCount"; "TotalQuantitySold"; "TotalRevenue"] ->
                pd.cell F r = pd.sum (pd.col F (of_category c)))
          /\ (forall F : string, F ∈ ["AvgSellingPrice"; "AvgDiscountPercentage"] ->
                pd.cell F r = mean (pd.col F (of_category c))))
  /\ (forall F : string, F ∈ ["OrderCount"; "TotalQuantitySold"; "TotalRevenue"] ->
        Forall not_infinite (pd.col F df_products) ->
        pd.sum (pd.col F table)
        = pd.sum (pd.col F (with_key (group_key "Category") df_products))
        /\ (Forall (fun r => is_Some (group_key "Category" r)) df_products ->
              pd.sum (pd.col F table) = pd.sum (pd.col F df_products))).
Proof.
  intros table categories of_category.
  destruct (groupby_keys (group_key "Category") df_products) as (Hnd & Hsorted & Hkeys).
  cbn zeta in Hnd, Hsorted, Hkeys.
  assert (categories = (groupby (group_key "Category") df_products).*1) as Hcat.
  { unfold categories, table, category_metrics. change (map ?g ?l) with (g <$> l).
    rewrite <- list_fmap_compose. apply list_fmap_ext. intros _ g _. cbn.
    unfold text. by simplify_map_eq. }
  rewrite Hcat. split; [done|]. split; [done|]. split; [done|]. split.
  - intros i r Hr. unfold table, category_metrics in Hr.
    change (map ?g ?l) with (g <$> l) in Hr. rewrite list_lookup_fmap in Hr.
    destruct (groupby (group_key "Category") df_products !! i) as [g|] eqn:Hg; [|done].
    cbn in Hr. injection Hr as <-. exists g.1.
    assert (g.2 = of_category g.1) as Hrows.
    { unfold groupby in Hg. change (map ?f ?l) with (f <$> l) in Hg.
      rewrite list_lookup_fmap in Hg.
      destruct (merge_sort _ _ !! i) as [k|]; [|done]. cbn in Hg. by injection Hg as <-. }
    rewrite <- Hrows. split; [by rewrite list_lookup_fmap, Hg|]. split.
    + intros F HF. repeat (apply elem_of_cons in HF as [-> | HF]);
        [| | |by apply elem_of_nil in HF]; unfold pd.cell; by simplify_map_eq.
    + intros F HF. repeat (apply elem_of_cons in HF as [-> | HF]);
        [| |by apply elem_of_nil in HF]; unfold pd.cell; by simplify_map_eq.
  - intros F HF Hfin.
    assert (pd.col F table
            = (fun g : string * frame => pd.sum (pd.col F g.2))
                <$> groupby (group_key "Category") df_products) as Hcol.
    { unfold table, category_metrics, pd.col. change (map ?g ?l) with (g <$> l).
      rewrite <- list_fmap_compose. apply list_fmap_ext. intros _ g _. cbn.
      repeat (apply elem_of_cons in HF as [-> | HF]);
        [| | |by apply elem_of_nil in HF]; unfold pd.cell; by simplify_map_eq. }
    rewrite Hcol, groupby_sums by done. split; [done|].
    intros Hall. by rewrite with_key_all.
Qed.

Lemma category_metrics_sums_by_category_witness :
  pd.sum (pd.col "TotalRevenue" (category_metrics category_table_example))
  = pd.sum (pd.col "TotalRevenue" category_table_example).
Proof.
  apply (proj2 (proj2 (proj2 (proj2 (proj2 (category_metrics_sums_by_category
                                               category_table_example))))
                 "TotalRevenue" ltac:(by_computation) ltac:(by_computation))).
  by_computation.
Defined.

Example category_metrics_example :
  let df_products : frame :=
    [ {[ "Category" := SStr "Toys"; "TotalRevenue" := SNum (num.of_Z 10) ]};
      {[ "Category" := SStr "Books"; "TotalRevenue" := SNum (num.of_Z 5) ]};
      {[ "Category" := SStr "Toys"; "TotalRevenue" := SNum (num.of_Z 7) ]};
      {[ "Category" := SNull; "TotalRevenue" := SNum (num.of_Z 100) ]} ] in
  text "Category" <$> category_metrics df_products = ["Books"; "Toys"]
  /\ pd.col "TotalRevenue" (category_metrics df_products) = [num.of_Z 5; num.of_Z 17]
  /\ pd.sum (pd.col "TotalRevenue" df_products) = num.of_Z 122.
Proof. repeat split; by_computation. Qed.

(** ** finance_dashboard.py: the failed payments by month and by quarter *)

Lemma groupby_sum_col (K F : string) (key : row -> option string) (df : frame) :
  K <> F ->
  pd.col F (groupby_sum K key F df)
  = (fun g : string * frame => pd.sum (pd.col F g.2)) <$> groupby key df.
Proof.
  intros Hne. unfold groupby_sum, pd.col. change (map ?g ?l) with (g <$> l).
  rewrite <- list_fmap_compose. apply list_fmap_ext. intros _ g _. cbn.
  unfold pd.cell. rewrite lookup_insert_ne by done. by rewrite lookup_singleton_eq.
Qed.

Lemma groupby_sum_keys (K F : string) (key : row -> option string) (df : frame) :
  K <> F -> text K <$> groupby_sum K key F df = (groupby key df).*1.
Proof.
  intros Hne. unfold groupby_sum. change (map ?g ?l) with (g <$> l).
  rewrite <- list_fmap_compose. apply list_fmap_ext. intros _ g _. cbn.
  unfold text. by rewrite lookup_insert_eq.
Qed.

(** The monthly and the quarterly view of the failed payments
    (finance_dashboard.py, lines 248-253) hold each month and each
    quarter of the daily data once, in the order of their texts.  A day
    without a date is in neither view.  Over the days that have one, the
    monthly and the quarterly counts add up to the same total, the one
    the summary shows as [total_failed], as long as no count is
    infinite. *)
Theorem failed_payments_add_up (month_of quarter_of : fnum -> option string)
    (df_daily : frame) :
  let month := fun r : row => month_of (pd.cell "FailedDate" r) in
  let quarter := fun r : row => quarter_of (pd.cell "FailedDate" r) in
  let monthly := df_monthly month_of df_daily in
  let quarterly := df_quarterly quarter_of df_daily in
  (NoDup (text "Month" <$> monthly) /\ Sorted string_le (text "Month" <$> monthly)
   /\ forall m : string,
        m ∈ text "Month" <$> monthly <-> exists r : row, r ∈ df_daily /\ month r = Some m)
  /\ (NoDup (text "Quarter" <$> quarterly) /\ Sorted string_le (text "Quarter" <$> quarterly)
      /\ forall q : string,
           q ∈ text "Quarter" <$> quarterly
           <-> exists r : row, r ∈ df_daily /\ quarter r = Some q)
  /\ (Forall not_infinite (pd.col "FailedPayments" df_daily) ->
        pd.sum (pd.col "FailedPayments" monthly)
        = pd.sum (pd.col "FailedPayments" (with_key month df_daily))
        /\ pd.sum (pd.col "FailedPayments" quarterly)
           = pd.sum (pd.col "FailedPayments" (with_key quarter df_daily))
        /\ (Forall (fun r => is_Some (month r) /\ is_Some (quarter r)) df_daily ->
              let total_failed := pd.sum (pd.col "FailedPayments" df_daily) in
              pd.sum (pd.col "FailedPayments" monthly) = total_failed
              /\ pd.sum (pd.col "FailedPayments" quarterly) = total_failed)).
Proof.
  intros month quarter monthly quarterly.
  split; [|split].
  - unfold monthly, df_monthly. rewrite groupby_sum_keys by done. apply groupby_keys.
  - unfold quarterly, df_quarterly. rewrite groupby_sum_keys by done. apply groupby_keys.
  - intros Hfin.
    assert (pd.sum (pd.col "FailedPayments" monthly)
            = pd.sum (pd.col "FailedPayments" (with_key month df_daily))) as Hm.
    { unfold monthly, df_monthly. rewrite groupby_sum_col by done. by apply groupby_sums. }
    assert (pd.sum (pd.col "FailedPayments" quarterly)
            = pd.sum (pd.col "FailedPayments" (with_key quarter df_daily))) as Hq.
    { unfold quarterly, df_quarterly. rewrite groupby_sum_col by done.
      by apply groupby_sums. }
    split; [done|]. split; [done|]. intros Hall total_failed. rewrite Hm, Hq.
    rewrite !with_key_all; [done| |].
    + eapply Forall_impl; [exact Hall|]. by intros r [_ ?].
    + eapply Forall_impl; [exact Hall|]. by intros r [? _].
Qed.

Lemma failed_payments_add_up_witness :
  pd.sum (pd.col "FailedPayments" (df_monthly month_of_early_2024 failed_payments_example))
  = pd.sum (pd.col "FailedPayments" failed_payments_example)
  /\ pd.sum (pd.col "FailedPayments"
               (df_quarterly quarter_of_early_2024 failed_payments_example))
     = pd.sum (pd.col "FailedPayments" failed_payments_example).
Proof.
  apply (proj2 (proj2 (proj2 (proj2 (failed_payments_add_up month_of_early_2024
                                       quarter_of_early_2024 failed_payments_example))
                               ltac:(by_computation)))).
  by_computation.
Defined.

Example failed_payments_example_views :
  (fun r => (text "Month" r, pd.cell "FailedPayments" r))
    <$> df_monthly month_of_early_2024 failed_payments_example
  = [("2024-01", num.of_Z 6); ("2024-02", num.of_Z 1); ("2024-03", num.of_Z 5)]
  /\ (fun r => (text "Quarter" r, pd.cell "FailedPayments" r))
       <$> df_quarterly quarter_of_early_2024 failed_payments_example
     = [("2024Q1", num.of_Z 12)].
Proof. split; by_computation. Qed.

(** ** utils.py: the categories and the date range *)

Lemma getitems_Ok (k : string) (rows : frame) (vs : list scalar) :
  getitems k rows = Ok vs <-> Forall2 (fun (r : row) v => r !! k = Some v) rows vs.
Proof.
  revert vs. induction rows as [|r rows IH]; intros vs; cbn.
  - split; [intros [= <-]; constructor | by intros ->%Forall2_nil_inv_l].
  - unfold getitem. destruct (r !! k) as [v|] eqn:Hv.
    + destruct (getitems k rows) as [vs'|e].
      * split.
        -- intros [= <-]. constructor; [done | by apply IH].
        -- intros (v' & vs'' & Hv' & Hrest & ->)%Forall2_cons_inv_l.
           apply IH in Hrest. congruence.
      * split; [done|].
        intros (v' & vs'' & _ & Hrest & ->)%Forall2_cons_inv_l. by apply IH in Hrest.
    + split; [done|]. intros (v' & vs'' & Hv' & _)%Forall2_cons_inv_l. congruence.
Qed.

Lemma getitems_Raise (k : string) (rows : frame) (e : exn) :
  getitems k rows = Raise e ->
  e = KeyError k /\ exists r : row, r ∈ rows /\ r !! k = None.
Proof.
  induction rows as [|r rows IH]; cbn; [done|].
  unfold getitem. destruct (r !! k) as [v|] eqn:Hv.
  - destruct (getitems k rows) as [vs'|e']; [done|]. intros [= <-].
    destruct IH as (-> & r' & Hr' & Hnone); [done|]. split; [done|].
    exists r'. split; [by right | done].
  - intros [= <-]. split; [done|]. exists r. split; [left | done].
Qed.

Lemma run_lift {A} (o : outcome A) (t : list event) : lift o t = (o, t).
Proof. reflexivity. Qed.

(** A reader of the connection of utils.py: the cursor before the [try],
    the body under [try] and [except], the cursor closed in
    [finally]. *)
Lemma run_reader {A} (c : connection) (body : page A) (handler : exn -> page A)
    (t : list event) :
  cursor c = Ok tt -> close c = Ok tt ->
  (_ ← lift (cursor c); try_finally (try_except body handler) (lift (close c))) t
  = match body t with
    | (Ok a, t') => (Ok a, t')
    | (Raise e, t') => handler e t'
    end.
Proof.
  intros Hcursor Hclose. rewrite run_bind, run_lift, Hcursor.
  unfold try_finally, try_except.
  destruct (body t) as [[a|e] t'].
  - by rewrite run_lift, Hclose.
  - destruct (handler e t') as [r t'']. by rewrite run_lift, Hclose.
Qed.

Lemma run_handler {A} (msg : string) (a : A) (t : list event) :
  (_ ← emit (Error msg); mret a) t = (Ok a, t ++ [Error msg]).
Proof. by rewrite run_bind, run_emit, run_ret. Qed.

(** [get_categories] (utils.py, lines 98-112) answers the empty list
    without a connection.  On a connection whose cursor opens and closes
    it never raises: it answers the [Category] cell of every row, in the
    order of the rows, when the query succeeds and every row has one, and
    the empty list after an error message when the query raises or a row
    has no such cell; the message ends with what [str(e)] prints, which
    for the missing cell is the key in quotes.  The query of the dashboards themselves, run under
    no [try], raises where [get_categories] answers the empty list.  An
    exception at the opening of the cursor is not caught. *)
Theorem get_categories_answers_or_reports (t : list event) :
  get_categories None t = (Ok [], t)
  /\ (forall c : connection, cursor c = Ok tt -> close c = Ok tt ->
        (forall (rows : frame) (names : list scalar),
           execute c categories_query = Ok rows ->
           Forall2 (fun (r : row) v => r !! "Category" = Some v) rows names ->
           get_categories (Some c) t = (Ok names, t))
        /\ (forall (rows : frame) (r : row),
              execute c categories_query = Ok rows ->
              r ∈ rows -> r !! "Category" = None ->
              get_categories (Some c) t
              = (Ok [], t ++ [Error "Error fetching categories: 'Category'"]))
        /\ (forall e : exn,
              execute c categories_query = Raise e ->
              get_categories (Some c) t
              = (Ok [], t ++ [Error ("Error fetching categories: " +:+ exn_name e)])
              /\ fetch_categories (Some c) t = (Raise e, t)))
  /\ (forall (c : connection) (e : exn), cursor c = Raise e ->
        get_categories (Some c) t = (Raise e, t)).
Proof.
  split; [done|]. split.
  - intros c Hcursor Hclose. unfold get_categories.
    rewrite (run_reader c _ _ t Hcursor Hclose), run_bind, run_lift.
    split; [|split].
    + intros rows names -> Hnames. apply getitems_Ok in Hnames.
      by rewrite run_lift, Hnames.
    + intros rows r -> Hr Hnone. rewrite run_lift.
      destruct (getitems "Category" rows) as [names|e] eqn:Hget.
      * apply getitems_Ok in Hget.
        apply list_elem_of_lookup in Hr as [i Hi].
        destruct (Forall2_lookup_l _ _ _ _ _ Hget Hi) as (v & _ & Hv). congruence.
      * apply getitems_Raise in Hget as [-> _]. apply run_handler.
    + intros e He. rewrite He. split; [apply run_handler|].
      unfold fetch_categories. rewrite run_bind, run_lift, Hcursor.
      by rewrite run_bind, run_lift, He.
  - intros c e Hcursor. unfold get_categories. by rewrite run_bind, run_lift, Hcursor.
Qed.

Lemma get_categories_answers_or_reports_witness :
  get_categories (Some no_product_table_connection) []
  = (Ok [], [] ++ [Error ("Error fetching categories: " +:+ exn_name (Exn "ProgrammingError"))])
  /\ fetch_categories (Some no_product_table_connection) []
     = (Raise (Exn "ProgrammingError"), []).
Proof.
  apply (proj2 (proj2 (proj1 (proj2 (get_categories_answers_or_reports []))
                         no_product_table_connection eq_refl eq_refl))
           (Exn "ProgrammingError") eq_refl).
Defined.

Example get_categories_example :
  run (get_categories
         (Some (open_connection failing_procedures
                  [ {[ "Category" := SStr "Books" ]}; {[ "Category" := SStr "Toys" ]} ])))
  = (Ok [SStr "Books"; SStr "Toys"], []).
Proof. reflexivity. Qed.

(** [get_date_range] (utils.py, lines 45-67) answers the last 365 days
    without a connection.  On a connection whose cursor opens and closes
    it never raises.  It answers the two dates of the first row of the
    query when that row holds both; the last 365 days, without a message,
    when the query answers no row or a row with a [NULL] date, as on an
    empty table; and the last 365 days after an error message when the
    query raises.  The range it falls back to ends on the day of the call
    and starts 365 days before it.  An exception at the opening of the
    cursor is not caught. *)
Theorem get_date_range_answers_or_falls_back (now : Z) (t : list event) :
  get_date_range now None t = (Ok (last_365_days now), t)
  /\ last_365_days now = (SNum (num.of_Z (now - 365)), SNum (num.of_Z now))
  /\ (forall c : connection, cursor c = Ok tt -> close c = Ok tt ->
        (exists (range : scalar * scalar) (t' : list event),
           get_date_range now (Some c) t = (Ok range, t'))
        /\ (forall (result : row) (rest : frame) (min_date max_date : scalar),
              execute c date_range_query = Ok (result :: rest) ->
              result !! "min_date" = Some min_date ->
              result !! "max_date" = Some max_date ->
              min_date <> SNull -> max_date <> SNull ->
              get_date_range now (Some c) t = (Ok (min_date, max_date), t))
        /\ (execute c date_range_query = Ok [] ->
              get_date_range now (Some c) t = (Ok (last_365_days now), t))
        /\ (forall (result : row) (rest : frame),
              execute c date_range_query = Ok (result :: rest) ->
              result !! "min_date" = Some SNull
              \/ (exists min_date : scalar,
                    result !! "min_date" = Some min_date /\ min_date <> SNull
                    /\ result !! "max_date" = Some SNull) ->
              get_date_range now (Some c) t = (Ok (last_365_days now), t))
        /\ (forall e : exn,
              execute c date_range_query = Raise e ->
              get_date_range now (Some c) t
              = (Ok (last_365_days now),
                 t ++ [Error ("Error fetching date range: " +:+ exn_name e)])))
  /\ (forall (c : connection) (e : exn), cursor c = Raise e ->
        get_date_range now (Some c) t = (Raise e, t)).
Proof.
  assert (forall v : scalar, v <> SNull -> is_date v = true) as Hdate
    by (by intros []).
  split; [done|]. split; [done|]. split.
  - intros c Hcursor Hclose. unfold get_date_range.
    rewrite (run_reader c _ _ t Hcursor Hclose), run_bind, run_lift.
    split; [|split; [|split; [|split]]].
    + destruct (execute c date_range_query) as [[|result rest]|e].
      * eexists _, _. by rewrite run_ret.
      * case_bool_decide; [eexists _, _; by rewrite run_ret|].
        rewrite run_bind, run_lift. unfold getitem.
        destruct (result !! "min_date") as [min_date|]; [|by eexists _, _; rewrite run_handler].
        destruct (is_date min_date); [|eexists _, _; by rewrite run_ret].
        rewrite run_bind, run_lift.
        destruct (result !! "max_date") as [max_date|]; [|by eexists _, _; rewrite run_handler].
        destruct (is_date max_date); eexists _, _; by rewrite run_ret.
      * eexists _, _. by rewrite run_handler.
    + intros result rest min_date max_date -> Hmin Hmax Hmin_date Hmax_date.
      rewrite bool_decide_eq_false_2 by (intros ->; by rewrite lookup_empty in Hmin).
      rewrite run_bind, run_lift. unfold getitem. rewrite Hmin, (Hdate _ Hmin_date).
      rewrite run_bind, run_lift, Hmax, (Hdate _ Hmax_date). by rewrite run_ret.
    + intros ->. by rewrite run_ret.
    + intros result rest -> Hnull.
      case_bool_decide; [by rewrite run_ret|].
      rewrite run_bind, run_lift. unfold getitem.
      destruct Hnull as [-> | (min_date & -> & Hmin_date & Hmax)].
      * cbn [is_date]. by rewrite run_ret.
      * rewrite (Hdate _ Hmin_date), run_bind, run_lift, Hmax. cbn [is_date].
        by rewrite run_ret.
    + intros e ->. apply run_handler.
  - intros c e Hcursor. unfold get_date_range. by rewrite run_bind, run_lift, Hcursor.
Qed.

Lemma get_date_range_answers_or_falls_back_witness :
  get_date_range 19800
    (Some (open_connection failing_procedures
             [ {[ "min_date" := SNum (num.of_Z 19000); "max_date" := SNum (num.of_Z 19700) ]} ]))
    []
  = (Ok (SNum (num.of_Z 19000), SNum (num.of_Z 19700)), []).
Proof.
  apply (proj1 (proj2 (proj1 (proj2 (proj2 (get_date_range_answers_or_falls_back 19800 [])))
                         (open_connection failing_procedures
                            [ {[ "min_date" := SNum (num.of_Z 19000);
                                 "max_date" := SNum (num.of_Z 19700) ]} ])
                         eq_refl eq_refl))
           {[ "min_date" := SNum (num.of_Z 19000); "max_date" := SNum (num.of_Z 19700) ]}
           [] (SNum (num.of_Z 19000)) (SNum (num.of_Z 19700)) eq_refl);
    by_computation.
Defined.

Example get_date_range_on_an_empty_table :
  run (get_date_range 19800
         (Some (open_connection failing_procedures
                  [ {[ "min_date" := SNull; "max_date" := SNull ]} ])))
  = (Ok (SNum (num.of_Z 19435), SNum (num.of_Z 19800)), []).
Proof. vm_compute. reflexivity. Qed.

(** ** app.py: the session *)

Lemma credentials_users (username password : string) :
  app.credentials !! username = Some password ->
  exists role : string, (username, role) ∈ roles.
Proof.
  unfold app.credentials, roles. intros Hlookup.
  destruct (decide (username = "db_admin")) as [->|H1];
    [exists "admin_role"; by_computation|].
  destruct (decide (username = "user_analyst")) as [->|H2];
    [exists "user_analyst_role"; by_computation|].
  destruct (decide (username = "finance_analyst")) as [->|H3];
    [exists "finance_analyst_role"; by_computation|].
  destruct (decide (username = "marketing_analyst")) as [->|H4];
    [exists "marketing_analyst_role"; by_computation|].
  rewrite !lookup_insert_ne in Hlookup by done.
  by rewrite lookup_singleton_ne in Hlookup.
Qed.

Lemma run_init_connection (connect : string -> string -> outcome connection)
    (username password : string) (t : list event) :
  app.init_connection connect username password t
  = match connect username password with
    | Ok c => (Ok (Some c), t)
    | Raise e => (Ok None, t ++ [Error ("Database connection error: " +:+ exn_name e)])
    end.
Proof.
  unfold app.init_connection, try_except. rewrite run_bind, run_lift.
  destruct (connect username password) as [c|e]; [by rewrite run_ret|].
  apply run_handler.
Qed.

(** The three ways [login] ends. *)
Lemma login_cases (connect : string -> string -> outcome connection)
    (username password : string) (s : app.session_state) (t : list event) :
  let r := app.login connect username password s t in
  (app.credentials !! username <> Some password /\ r = (Ok (false, s), t))
  \/ (app.credentials !! username = Some password
      /\ exists e : exn,
           connect username password = Raise e
           /\ r = (Ok (false, s),
                   t ++ [Error ("Database connection error: " +:+ exn_name e)]))
  \/ (app.credentials !! username = Some password
      /\ exists (c : connection) (role : string),
           connect username password = Ok c /\ (username, role) ∈ roles
           /\ r = (Ok (true, {| app.authenticated := true; app.username := username;
                                app.user_role := role; app.conn := Some c |}), t)).
Proof.
  intros r. unfold r, app.login.
  destruct (decide (app.credentials !! username = Some password)) as [Hok|Hwrong].
  - right. rewrite Hok. rewrite (bool_decide_eq_true_2 (is_Some _)) by done.
    rewrite (bool_decide_eq_true_2 (Some password = Some password)) by done.
    cbn [andb]. rewrite run_bind, run_init_connection.
    destruct (connect username password) as [c|e].
    + right. split; [done|]. rewrite run_ret.
      destruct (credentials_users _ _ Hok) as [role Hrole]. exists c, role.
      split; [done|]. split; [done|]. do 4 f_equal. unfold roles in Hrole.
      repeat (apply elem_of_cons in Hrole as [[= -> ->] | Hrole]);
        [done..|by apply elem_of_nil in Hrole].
    + left. split; [done|]. exists e. by rewrite run_ret.
  - left. split; [done|].
    assert (bool_decide (is_Some (app.credentials !! username))
            && bool_decide (Some password = app.credentials !! username) = false) as ->.
    { apply andb_false_iff. right. apply bool_decide_eq_false_2. congruence. }
    by rewrite run_ret.
Qed.

(** [login] (app.py, lines 54-82) never raises.  It answers true exactly
    when the password is the one of the user and the database accepts the
    connection: the session is then authenticated under that user, holds
    the connection, and has the role of the user, one of the four roles.
    With another user name or password it answers false with the session
    and the page as they were, and no connection is tried; when the
    connection fails it answers false with the session as it was, after
    an error message. *)
Theorem login_sets_the_session (connect : string -> string -> outcome connection)
    (username password : string) (s : app.session_state) (t : list event) :
  let r := app.login connect username password s t in
  (forall c : connection,
     app.credentials !! username = Some password -> connect username password = Ok c ->
     exists role : string,
       (username, role) ∈ roles
       /\ r = (Ok (true, {| app.authenticated := true; app.username := username;
                            app.user_role := role; app.conn := Some c |}), t))
  /\ (app.credentials !! username <> Some password -> r = (Ok (false, s), t))
  /\ (forall e : exn,
        app.credentials !! username = Some password -> connect username password = Raise e ->
        r = (Ok (false, s), t ++ [Error ("Database connection error: " +:+ exn_name e)]))
  /\ (forall s' : app.session_state, r.1 = Ok (true, s') ->
        app.credentials !! username = Some password
        /\ exists c : connection, connect username password = Ok c).
Proof.
  intros r.
  destruct (login_cases connect username password s t)
    as [[Hwrong Hr] | [(Hok & e & He & Hr) | (Hok & c & role & Hc & Hrole & Hr)]];
    fold r in Hr; rewrite Hr.
  - split; [done|]. split; [done|]. split; [done|]. by intros s' [= ? ?].
  - split; [intros; congruence|]. split; [done|].
    split; [intros e' _ He'; congruence|]. by intros s' [= ? ?].
  - split.
    + intros c' _ Hc'. exists role. split; [done|]. congruence.
    + split; [done|]. split; [intros; congruence|]. intros s' _. split; [done|]. by exists c.
Qed.

Lemma login_sets_the_session_witness :
  exists role : string,
    (("finance_analyst" : string), role) ∈ roles
    /\ app.login (fun _ _ => Ok (open_connection failing_procedures []))
         "finance_analyst" "Finance@2025!Secure" app.init_auth_state []
       = (Ok (true, {| app.authenticated := true; app.username := "finance_analyst";
                       app.user_role := role;
                       app.conn := Some (open_connection failing_procedures []) |}), []).
Proof.
  apply (proj1 (login_sets_the_session (fun _ _ => Ok (open_connection failing_procedures []))
                  "finance_analyst" "Finance@2025!Secure" app.init_auth_state [])
           (open_connection failing_procedures [])).
  - by_computation.
  - reflexivity.
Defined.

(** [main] (app.py, lines 192-204) shows the login page alone to a
    session that is not authenticated, and no dashboard.  The session a
    successful [login] leaves is sent, after the sidebar, to the dashboard
    of the role of its user, with the connection [login] obtained: each
    of the four roles [login] gives is a role [main] knows.  A session
    whose login failed is shown the login page again. *)
Theorem main_renders_the_dashboard_of_the_user (clock : key -> Z)
    (draw : string -> list frame -> outcome unit) (cached : cache) (ui : widgets)
    (display_login_page : page unit) (setup_sidebar : page (Z * Z))
    (connect : string -> string -> outcome connection) (username password : string)
    (s : app.session_state) (t : list event) :
  (app.authenticated s = false ->
     app.main clock draw ui display_login_page setup_sidebar s cached = display_login_page)
  /\ (forall (s' : app.session_state) (t' : list event),
        app.login connect username password s t = (Ok (true, s'), t') ->
        exists (role : string) (c : connection),
          (username, role) ∈ roles /\ connect username password = Ok c
          /\ app.user_role s' = role /\ app.conn s' = Some c
          /\ app.main clock draw ui display_login_page setup_sidebar s' cached
             = (dates ← setup_sidebar;
                dashboard_of_role clock draw ui role (Some c) dates.1 dates.2 cached))
  /\ (forall (s' : app.session_state) (t' : list event),
        app.authenticated s = false ->
        app.login connect username password s t = (Ok (false, s'), t') ->
        app.main clock draw ui display_login_page setup_sidebar s' cached = display_login_page).
Proof.
  split; [|split].
  - intros Hs. unfold app.main. by rewrite Hs.
  - intros s' t' Hlogin.
    destruct (login_cases connect username password s t)
      as [[_ Hr] | [(_ & e & _ & Hr) | (_ & c & role & Hc & Hrole & Hr)]];
      cbn zeta in Hr; rewrite Hr in Hlogin; try done.
    injection Hlogin as <- <-. exists role, c.
    split; [done|]. split; [done|]. split; [done|]. split; [done|].
    unfold roles in Hrole.
    repeat (apply elem_of_cons in Hrole as [[= -> ->] | Hrole]);
      [reflexivity..|by apply elem_of_nil in Hrole].
  - intros s' t' Hs Hlogin.
    destruct (login_cases connect username password s t)
      as [[_ Hr] | [(_ & e & _ & Hr) | (_ & c & role & _ & _ & Hr)]];
      cbn zeta in Hr; rewrite Hr in Hlogin; try done.
    + injection Hlogin as <- <-. unfold app.main. by rewrite Hs.
    + injection Hlogin as <- <-. unfold app.main. by rewrite Hs.
Qed.

Lemma main_renders_the_dashboard_of_the_user_witness :
  exists (role : string) (c : connection),
    (("finance_analyst" : string), role) ∈ roles
    /\ app.main (at_time 0) drawn default_widgets nothing (mret (19000, 19700)%Z)
         {| app.authenticated := true; app.username := "finance_analyst";
            app.user_role := "finance_analyst_role";
            app.conn := Some (open_connection failing_procedures []) |} no_cache
       = (dates ← mret (19000, 19700)%Z;
          dashboard_of_role (at_time 0) drawn default_widgets role (Some c)
            dates.1 dates.2 no_cache).
Proof.
  destruct (proj1 (proj2 (main_renders_the_dashboard_of_the_user (at_time 0) drawn no_cache
                            default_widgets nothing
                            (mret (19000, 19700)%Z)
                            (fun _ _ => Ok (open_connection failing_procedures []))
                            "finance_analyst" "Finance@2025!Secure" app.init_auth_state []))
              {| app.authenticated := true; app.username := "finance_analyst";
                 app.user_role := "finance_analyst_role";
                 app.conn := Some (open_connection failing_procedures []) |} [] eq_refl)
    as (role & c & Hrole & _ & _ & _ & Hmain).
  by exists role, c.
Defined.

(** [logout] (app.py, lines 86-95) leaves a session that is not
    authenticated, with no user and no role, whatever happens to the
    connection: [main] shows it the login page.  The session holds no
    connection after a logout that returns.  When closing the connection
    raises, the exception leaves [logout] and the connection stays in the
    session. *)
Theorem logout_ends_the_session (conn_close : connection -> outcome unit)
    (s : app.session_state) :
  let r := app.logout conn_close s in
  app.authenticated r.1 = false /\ app.username r.1 = EmptyString
  /\ app.user_role r.1 = EmptyString
  /\ (forall (clock : key -> Z) (draw : string -> list frame -> outcome unit)
             (ui : widgets) (display_login_page : page unit)
             (setup_sidebar : page (Z * Z)) (cached : cache),
        app.main clock draw ui display_login_page setup_sidebar r.1 cached
        = display_login_page)
  /\ (r.2 = Ok tt -> app.conn r.1 = None)
  /\ (app.conn s = None -> r.2 = Ok tt)
  /\ (forall c : connection, app.conn s = Some c -> r.2 = conn_close c)
  /\ (forall (c : connection) (e : exn), app.conn s = Some c -> conn_close c = Raise e ->
        r.2 = Raise e /\ app.conn r.1 = Some c).
Proof.
  intros r. unfold r, app.logout. cbn [app.conn].
  destruct (app.conn s) as [c|] eqn:Hconn.
  - destruct (conn_close c) as [[]|e] eqn:Hclose; cbn; repeat split; try done.
    all: intros; simplify_eq; congruence.
  - cbn. repeat split; done.
Qed.

Lemma logout_ends_the_session_witness :
  (app.logout (fun _ => Ok tt)
     {| app.authenticated := true; app.username := "db_admin"; app.user_role := "admin_role";
        app.conn := Some lost_connection |}).2 = Ok tt
  /\ app.conn (app.logout (fun _ => Ok tt)
                 {| app.authenticated := true; app.username := "db_admin";
                    app.user_role := "admin_role"; app.conn := Some lost_connection |}).1
     = None.
Proof.
  split.
  - reflexivity.
  - apply (proj1 (proj2 (proj2 (proj2 (proj2 (logout_ends_the_session (fun _ => Ok tt)
             {| app.authenticated := true; app.username := "db_admin";
                app.user_role := "admin_role"; app.conn := Some lost_connection |})))))).
    reflexivity.
Defined.

(** ** finance_dashboard.py: the ten worst days *)

Lemma leb_antisym (a b : fnum) : num.leb a b = true -> num.leb b a = true -> a = b.
Proof.
  destruct a as [x| | |], b as [y| | |]; cbn; try done.
  intros Hxy Hyx. apply (bool_decide_eq_true_1 _) in Hxy, Hyx.
  f_equal. by apply Qcle_antisym.
Qed.

(** The greatest value is the valid value no valid value exceeds. *)
Lemma max_unique (s : list fnum) (b : fnum) :
  b ∈ s -> b <> NaN ->
  (forall x : fnum, x ∈ s -> x <> NaN -> num.leb x b = true) ->
  pd.max s = b.
Proof.
  intros Hin Hb Hupper.
  assert (pd.max s <> NaN) as Hmax by (by apply (best_not_nan _ _ b)).
  apply leb_antisym.
  - apply Hupper; [by apply max_attained | done].
  - by apply max_upper.
Qed.

Lemma key_leb_descending (q : Qc) (b : fnum) :
  pd.key_leb false (Fin q) b = true -> b <> NaN -> num.leb b (Fin q) = true.
Proof. by destruct b. Qed.

Section worst_days.

Context `{Pandas}.

(** The first row of a frame sorted descending holds the greatest value
    of the column, when it holds a number. *)
Lemma sorted_head_max (F : string) (df : frame) (r0 : row) (rest : frame) (q : Qc) :
  sort_values F false df = r0 :: rest -> pd.cell F r0 = Fin q ->
  forall x : fnum, x ∈ pd.col F df -> x <> NaN -> num.leb x (Fin q) = true.
Proof.
  intros Hsorted Hq x Hx Hvalid.
  pose proof (Sorted_StronglySorted _ _ (sort_values_sorted F false df)) as Hs.
  rewrite Hsorted in Hs. apply StronglySorted_inv in Hs as [_ Hall].
  unfold pd.col in Hx. change (map ?f ?l) with (f <$> l) in Hx.
  apply list_elem_of_fmap in Hx as (r & -> & Hr).
  rewrite <- (sort_values_perm F false df), Hsorted in Hr.
  apply elem_of_cons in Hr as [-> | Hr].
  - rewrite Hq. by apply leb_refl.
  - rewrite Forall_forall in Hall. specialize (Hall r Hr).
    unfold pd.row_le in Hall. rewrite Hq in Hall. by apply key_leb_descending.
Qed.

(** The percentages of the ten worst days (finance_dashboard.py, lines
    243 and 346-347), when the first of them holds a number [q] of failed
    payments.  That number is the greatest of the ten and of all the
    days, so the percentages are taken of the worst day of the data.
    When [q] is not [0] the first day is at [100] and a day with [v]
    failed payments at [v / q * 100], at most [100] for a positive [q].
    The division is not guarded: when the worst day has [0] failed
    payments its percentage is [NaN]. *)
Theorem failure_percentage_of_the_worst_day (df_daily : frame) (r0 : row) (rest : frame)
    (q : Qc) :
  df_top10 df_daily = r0 :: rest -> pd.cell "FailedPayments" r0 = Fin q ->
  let top := df_top10 df_daily in
  length (failure_percentage top) = length top
  /\ pd.max (pd.col "FailedPayments" top) = Fin q
  /\ pd.max (pd.col "FailedPayments" df_daily) = Fin q
  /\ (q <> 0%Qc ->
        failure_percentage top !! 0%nat = Some (num.of_Z 100)
        /\ forall (i : nat) (v : Qc),
             pd.col "FailedPayments" top !! i = Some (Fin v) ->
             failure_percentage top !! i = Some (Fin (v / q * Qc_of_Z 100)%Qc)
             /\ ((0 < q)%Qc -> (v / q * Qc_of_Z 100 <= Qc_of_Z 100)%Qc))
  /\ (q = 0%Qc -> failure_percentage top !! 0%nat = Some NaN).
Proof.
  intros Htop Hq top.
  assert (exists rest' : frame, sort_values "FailedPayments" false df_daily = r0 :: rest')
    as [rest' Hsorted].
  { unfold df_top10, top_n, pd.head in Htop.
    destruct (sort_values "FailedPayments" false df_daily) as [|r rest'] eqn:Hs; [done|].
    cbn in Htop. injection Htop as -> _. by exists rest'. }
  assert (forall x : fnum, x ∈ pd.col "FailedPayments" df_daily -> x <> NaN ->
            num.leb x (Fin q) = true) as Hupper by (by eapply sorted_head_max).
  assert (forall x : fnum, x ∈ pd.col "FailedPayments" top ->
            x ∈ pd.col "FailedPayments" df_daily) as Hsub.
  { intros x Hx. unfold pd.col in *. change (map ?f ?l) with (f <$> l) in *.
    apply list_elem_of_fmap in Hx as (r & -> & Hr). apply list_elem_of_fmap.
    exists r. split; [done|]. rewrite <- (sort_values_perm "FailedPayments" false df_daily).
    unfold top, df_top10, top_n, pd.head in Hr. by apply elem_of_take in Hr as (i & Hi & _);
      apply list_elem_of_lookup_2 in Hi. }
  assert (Fin q ∈ pd.col "FailedPayments" top) as Hin.
  { unfold top. rewrite Htop. cbn. rewrite Hq. left. }
  assert (pd.max (pd.col "FailedPayments" top) = Fin q) as Hmax.
  { apply max_unique; [done..|]. intros x Hx. apply Hupper. by apply Hsub. }
  assert (forall (i : nat) (x : fnum), pd.col "FailedPayments" top !! i = Some x ->
            failure_percentage top !! i = Some (x / Fin q * num.of_Z 100)%F) as Hpct.
  { intros i x Hx. unfold failure_percentage, series_scale, series_over.
    change (map ?f ?l) with (f <$> l). rewrite Hmax, !list_lookup_fmap.
    by rewrite Hx. }
  assert (pd.col "FailedPayments" top !! 0%nat = Some (Fin q)) as Hhead.
  { unfold top. rewrite Htop. cbn. by rewrite Hq. }
  split; [|split; [done|split; [|split]]].
  - unfold failure_percentage, series_scale, series_over, pd.col. by rewrite !length_map.
  - apply max_unique; [by apply Hsub | done | done].
  - intros Hne. split.
    + rewrite (Hpct _ _ Hhead), percent_of_fin by done. unfold num.of_Z.
      do 2 f_equal. by field.
    + intros i v Hv. rewrite (Hpct _ _ Hv), percent_of_fin by done. split; [done|].
      intros Hpos. apply percent_le_100; [done|].
      apply (bool_decide_eq_true_1 _).
      apply (Hupper (Fin v)); [|done]. apply Hsub. by eapply list_elem_of_lookup_2.
  - intros ->. rewrite (Hpct _ _ Hhead). cbn. by rewrite decide_True.
Qed.

End worst_days.

Lemma failure_percentage_of_the_worst_day_witness :
  pd.max (pd.col "FailedPayments" (@df_top10 stable_pandas failed_payments_example))
  = Fin (Qc_of_Z 5)
  /\ pd.max (pd.col "FailedPayments" failed_payments_example) = Fin (Qc_of_Z 5).
Proof.
  destruct (@failure_percentage_of_the_worst_day stable_pandas failed_payments_example
              (default ∅ (head (@df_top10 stable_pandas failed_payments_example)))
              (tail (@df_top10 stable_pandas failed_payments_example))
              (Qc_of_Z 5) ltac:(by_computation) ltac:(by_computation))
    as (_ & Htop & Hall & _).
  by split.
Defined.

Example failure_percentage_example :
  failure_percentage (@df_top10 stable_pandas failed_payments_example)
  = [num.of_Z 100; num.of_Z 80; num.of_Z 40; num.of_Z 20]
  /\ failure_percentage
       [ {[ "FailedPayments" := SNum (num.of_Z 0) ]};
         {[ "FailedPayments" := SNum (num.of_Z 0) ]} ]
     = [NaN; NaN].
Proof. split; by_computation. Qed.

Example get_categories_on_a_row_without_category :
  run (get_categories
         (Some (open_connection failing_procedures
                  [ {[ "Category" := SStr "Books" ]}; {[ "Name" := SStr "Toys" ]} ])))
  = (Ok [], [Error "Error fetching categories: 'Category'"]).
Proof. reflexivity. Qed.
